(** * Symbol node monitoring: the health state machine, the block-delay
    detector and the notification scheduler of the Apps Script monitor.

    The script keeps one spreadsheet row per monitored node and, on every
    pass, probes each node, rewrites the row, flags nodes that trail the
    fleet and sends alerts.  This file embeds that script function by
    function and proves the properties its specification states.

    Conventions of the embedding.
    - A cell holds what the script itself writes there: text in the URL,
      status, error-type, DB, API and disabled columns; a number or nothing
      in the block-height column; a [Date] or nothing in the two timestamp
      columns.  "Nothing" is the empty cell, which [getValue] reads as the
      empty string.
    - JavaScript numbers are integers here ([Z]); a [Date] is its epoch
      time in milliseconds.
    - Every external service (clock, HTTP, mail, script properties) is a
      field of an environment record; what the script does to the outside
      world is appended to an outbox, and with each call the sheet as it
      stands when the call is made is recorded.
    - Strings are held in UTF-8.
    - A mail or chat message is carried as the data it is rendered from;
      [wording] renders it, given the calendar fields of a time in the
      time zone of the script. *)

From Stdlib Require Import ZArith String Ascii List Bool Lia.
From Stdlib Require Import DecimalString.
From Stdlib Require DecimalZ DecimalPos.
From stdpp Require Import base option gmap strings.
Import ListNotations.

Local Open Scope Z_scope.

(** ** JavaScript primitives used by the script *)

Module JS.

(** Truthiness of the three kinds of cell content. *)
Definition truthyStr (s : string) : bool := negb (String.eqb s "").
Definition truthyNum (v : option Z) : bool :=
  match v with Some n => negb (Z.eqb n 0) | None => false end.
Definition truthyDate (v : option Z) : bool :=
  match v with Some _ => true | None => false end.
(** [null] or a string, as [getProperty] and [error] fields return. *)
Definition truthyOpt (v : option string) : bool :=
  match v with Some s => truthyStr s | None => false end.

(** [a || b] on strings that may be absent. *)
Definition orElse (v : option string) (d : string) : string :=
  match v with
  | Some s => if truthyStr s then s else d
  | None => d
  end.

(** [s.includes(sub)]. *)
Fixpoint includes (sub s : string) : bool :=
  String.prefix sub s
  || match s with
     | EmptyString => false
     | String _ rest => includes sub rest
     end.

(** White space and line terminators skipped by [trim] and [parseInt].
    Strings are held in UTF-8; U+0009 to U+000D and U+0020 take one
    byte. *)
Definition isWhiteSpace (c : ascii) : bool :=
  let n := nat_of_ascii c in
  (Nat.eqb n 9 || Nat.eqb n 10 || Nat.eqb n 11 || Nat.eqb n 12
   || Nat.eqb n 13 || Nat.eqb n 32)%bool.

(** The number of bytes of the white-space or line-terminator character
    at the head of [s], 0 if there is none.  Besides the one-byte ones
    these are U+00A0 (two bytes) and U+1680, U+2000 to U+200A, U+2028,
    U+2029, U+202F, U+205F, U+3000 and U+FEFF (three bytes). *)
Definition whiteSpaceWidth (s : string) : nat :=
  match s with
  | EmptyString => 0
  | String c rest =>
      if isWhiteSpace c then 1
      else
        match rest with
        | EmptyString => 0
        | String c2 rest2 =>
            let b1 := nat_of_ascii c in
            let b2 := nat_of_ascii c2 in
            if Nat.eqb b1 194 && Nat.eqb b2 160 then 2
            else
              match rest2 with
              | EmptyString => 0
              | String c3 _ =>
                  let b3 := nat_of_ascii c3 in
                  if Nat.eqb b1 225 && Nat.eqb b2 154 && Nat.eqb b3 128 then 3
                  else if Nat.eqb b1 226 && Nat.eqb b2 128
                          && ((Nat.leb 128 b3 && Nat.leb b3 138)
                              || Nat.eqb b3 168 || Nat.eqb b3 169
                              || Nat.eqb b3 175) then 3
                  else if Nat.eqb b1 226 && Nat.eqb b2 129 && Nat.eqb b3 159
                  then 3
                  else if Nat.eqb b1 227 && Nat.eqb b2 128 && Nat.eqb b3 128
                  then 3
                  else if Nat.eqb b1 239 && Nat.eqb b2 187 && Nat.eqb b3 191
                  then 3
                  else 0
              end
        end
  end.

(** [s.trimStart()] *)
Fixpoint trimStart (s : string) : string :=
  match whiteSpaceWidth s, s with
  | 1%nat, String _ rest => trimStart rest
  | 2%nat, String _ (String _ rest) => trimStart rest
  | 3%nat, String _ (String _ (String _ rest)) => trimStart rest
  | _, _ => s
  end.

(** [s.trimEnd()]: the longest end of [s] made of white space is cut. *)
Fixpoint trimEnd (s : string) : string :=
  match s with
  | EmptyString => EmptyString
  | String c rest =>
      if String.eqb (trimStart s) "" then EmptyString
      else String c (trimEnd rest)
  end.

(** [s.trim()] *)
Definition trim (s : string) : string := trimEnd (trimStart s).

(** Value of a digit character in radix up to 36. *)
Definition digitValue (c : ascii) : option Z :=
  let n := Z.of_nat (nat_of_ascii c) in
  if (48 <=? n) && (n <=? 57) then Some (n - 48)
  else if (97 <=? n) && (n <=? 122) then Some (n - 87)
  else if (65 <=? n) && (n <=? 90) then Some (n - 55)
  else None.

(** The longest run of digits of the radix at the head of [s]; [acc] is
    [None] until a first digit has been read. *)
Fixpoint parseDigits (radix : Z) (s : string) (acc : option Z) : option Z :=
  match s with
  | EmptyString => acc
  | String c rest =>
      match digitValue c with
      | Some d =>
          if d <? radix
          then parseDigits radix rest
                 (Some (match acc with Some a => a * radix + d | None => d end))
          else acc
      | None => acc
      end
  end.

(** [parseInt(s)] without a radix argument; [None] is [NaN]. *)
Definition parseIntStr (s : string) : option Z :=
  let s1 := trimStart s in
  let '(sign, s2) :=
    match s1 with
    | String "-"%char rest => (-1, rest)
    | String "+"%char rest => (1, rest)
    | _ => (1, s1)
    end in
  let '(radix, s3) :=
    match s2 with
    | String "0"%char (String "x"%char rest) => (16, rest)
    | String "0"%char (String "X"%char rest) => (16, rest)
    | _ => (10, s2)
    end in
  match parseDigits radix s3 None with
  | Some n => Some (sign * n)
  | None => None
  end.

(** [parseInt(v)] where [v] may be [undefined]. *)
Definition parseInt (v : option string) : option Z :=
  match v with
  | Some s => parseIntStr s
  | None => None
  end.

(** Decimal writing of an integer, for template strings. *)
Definition toString (n : Z) : string :=
  NilZero.string_of_int (Z.to_int n).

End JS.

(** ** The spreadsheet *)

(** One data row of a sheet, columns B to J. *)
Record NodeRow := {
  url : string;                 (* B: node URL *)
  status : string;              (* C: status *)
  errorType : string;           (* D: error type *)
  db : string;                  (* E: DB *)
  api : string;                 (* F: API *)
  blockHeight : option Z;       (* G: block height *)
  errorDetected : option Z;     (* H: time the error was first seen *)
  lastNotified : option Z;      (* I: time of the last alert *)
  disabled : string             (* J: disabled marker *)
}.

Definition blankRow : NodeRow :=
  {| url := ""; status := ""; errorType := ""; db := ""; api := "";
     blockHeight := None; errorDetected := None; lastNotified := None;
     disabled := "" |}.

(** A sheet: the two header cells the script reads and the data rows. *)
Record Sheet := {
  C1 : option Z;                (* reference block height *)
  G1 : option Z;                (* block-delay threshold *)
  rows : gmap nat NodeRow
}.

Definition rowAt (sh : Sheet) (row : nat) : NodeRow :=
  default blankRow (rows sh !! row).

Definition updRow (sh : Sheet) (row : nat) (f : NodeRow -> NodeRow) : Sheet :=
  {| C1 := C1 sh; G1 := G1 sh; rows := <[row := f (rowAt sh row)]> (rows sh) |}.

(** A column: how to read and how to overwrite its cell in a row. *)
Record Column (A : Type) := {
  read : NodeRow -> A;
  write : A -> NodeRow -> NodeRow
}.
Arguments read {A}.
Arguments write {A}.

Module COLUMN_MAPPING.
Definition NODE_URL : Column string :=
  {| read := url;
     write v r := {| url := v; status := status r; errorType := errorType r;
                     db := db r; api := api r; blockHeight := blockHeight r;
                     errorDetected := errorDetected r;
                     lastNotified := lastNotified r; disabled := disabled r |} |}.
Definition STATUS : Column string :=
  {| read := status;
     write v r := {| url := url r; status := v; errorType := errorType r;
                     db := db r; api := api r; blockHeight := blockHeight r;
                     errorDetected := errorDetected r;
                     lastNotified := lastNotified r; disabled := disabled r |} |}.
Definition ERROR_TYPE : Column string :=
  {| read := errorType;
     write v r := {| url := url r; status := status r; errorType := v;
                     db := db r; api := api r; blockHeight := blockHeight r;
                     errorDetected := errorDetected r;
                     lastNotified := lastNotified r; disabled := disabled r |} |}.
Definition DB : Column string :=
  {| read := db;
     write v r := {| url := url r; status := status r; errorType := errorType r;
                     db := v; api := api r; blockHeight := blockHeight r;
                     errorDetected := errorDetected r;
                     lastNotified := lastNotified r; disabled := disabled r |} |}.
Definition API : Column string :=
  {| read := api;
     write v r := {| url := url r; status := status r; errorType := errorType r;
                     db := db r; api := v; blockHeight := blockHeight r;
                     errorDetected := errorDetected r;
                     lastNotified := lastNotified r; disabled := disabled r |} |}.
Definition BLOCK_HEIGHT : Column (option Z) :=
  {| read := blockHeight;
     write v r := {| url := url r; status := status r; errorType := errorType r;
                     db := db r; api := api r; blockHeight := v;
                     errorDetected := errorDetected r;
                     lastNotified := lastNotified r; disabled := disabled r |} |}.
Definition ERROR_DETECTED : Column (option Z) :=
  {| read := errorDetected;
     write v r := {| url := url r; status := status r; errorType := errorType r;
                     db := db r; api := api r; blockHeight := blockHeight r;
                     errorDetected := v;
                     lastNotified := lastNotified r; disabled := disabled r |} |}.
Definition LAST_NOTIFIED : Column (option Z) :=
  {| read := lastNotified;
     write v r := {| url := url r; status := status r; errorType := errorType r;
                     db := db r; api := api r; blockHeight := blockHeight r;
                     errorDetected := errorDetected r;
                     lastNotified := v; disabled := disabled r |} |}.
Definition DISABLED : Column string :=
  {| read := disabled;
     write v r := {| url := url r; status := status r; errorType := errorType r;
                     db := db r; api := api r; blockHeight := blockHeight r;
                     errorDetected := errorDetected r;
                     lastNotified := lastNotified r; disabled := v |} |}.
End COLUMN_MAPPING.
Import COLUMN_MAPPING.

Module STATUS_TYPES.
Definition RUNNING : string := "Running".
Definition ERROR : string := "Error".
Definition DELAY : string := "Delay".
End STATUS_TYPES.

Module ERROR_TYPES.
Definition TIMEOUT : string := "Timeout".
Definition DB_API : string := "DB/API".
Definition BLOCK_DELAY : string := "BlockDelay".
Definition SSL_CERT : string := "SSL証明書期限切れ".
End ERROR_TYPES.

Definition FIRST_DATA_ROW : nat := 4.
Definition NOTIFICATION_INTERVAL : Z := 30 * 60 * 1000.

(** A row counts for [getLastRow] when one of its cells has content. *)
Definition hasContent (r : NodeRow) : bool :=
  JS.truthyStr (url r) || JS.truthyStr (status r) || JS.truthyStr (errorType r)
  || JS.truthyStr (db r) || JS.truthyStr (api r)
  || JS.truthyDate (blockHeight r) || JS.truthyDate (errorDetected r)
  || JS.truthyDate (lastNotified r) || JS.truthyStr (disabled r).

Definition getLastRow (sh : Sheet) : nat :=
  map_fold (fun k r acc => if hasContent r then Nat.max k acc else acc)
           0%nat (rows sh).

(** ** The outside world *)

(** What [JSON.parse] of a response body offers to the script: the two
    fields read below [status], and the text [parseInt] sees for [height]
    (a JSON string as it is, a JSON number in its decimal writing, [None]
    when there is no such field). *)
Record Data := {
  status_db : option string;
  status_apiNode : option string;
  data_height : option string
}.

Inductive Content :=
| NotJson (errorStr : string)   (* JSON.parse throws; the error as text *)
| JsonNull                      (* the body is the JSON value null *)
| Json (data : Data).

Inductive Fetched :=
| FetchThrows (errorStr : string)
| Response (code : Z) (content : Content).

(** A row handed from the scheduler to the notifier. *)
Record Target := {
  t_url : string;
  t_status : string;
  t_errorType : string;
  t_errorDetected : option Z;
  t_row : nat
}.

(** Message texts, by the data they are rendered from. *)
Inductive Text :=
| AlertMessage (targets : list Target)
| AlertSubject (targets : list Target)
| RecoveryMessage (nodeUrl : string) (now : Z)
| RecoverySubject (nodeUrl : string)
| Wording (s : string).

(** Calls to an outbound transport. *)
Inductive Call :=
| SendEmail (to : string) (subject body : Text)
| PostWebhook (webhookUrl : string) (text : Text)
| PostBotApi (token channel : string) (text : Text).

Definition isEmail (c : Call) : bool :=
  match c with SendEmail _ _ _ => true | _ => false end.

Record Env := {
  clock : nat -> Z;                      (* the n-th [new Date()] of the run *)
  fetch : string -> Fetched;             (* GET with muteHttpExceptions *)
  activeUserEmail : string;              (* Session.getActiveUser().getEmail() *)
  scriptProperties : gmap string string; (* PropertiesService *)
  transportThrows : Call -> option string (* [Some e]: the call throws [e] *)
}.

Record World := {
  sheet : Sheet;
  ticks : nat;                 (* number of [new Date()] so far *)
  outbox : list Call;          (* transport calls so far, oldest first *)
  console : list string;       (* console lines so far, oldest first *)
  seen : list Sheet            (* the sheet as it stood at each of the calls *)
}.

(** ** Script computations: state, environment and exceptions *)

Inductive Res (A : Type) :=
| Ok (a : A)
| Thrown (e : string).
Arguments Ok {A}.
Arguments Thrown {A}.

Definition M (A : Type) : Type := Env -> World -> Res A * World.

Definition ret {A} (a : A) : M A := fun _ w => (Ok a, w).

Definition bind {A B} (m : M A) (k : A -> M B) : M B :=
  fun e w =>
    match m e w with
    | (Ok a, w') => k a e w'
    | (Thrown err, w') => (Thrown err, w')
    end.

Definition throw {A} (err : string) : M A := fun _ w => (Thrown err, w).

Definition tryCatch {A} (m : M A) (handler : string -> M A) : M A :=
  fun e w =>
    match m e w with
    | (Ok a, w') => (Ok a, w')
    | (Thrown err, w') => handler err e w'
    end.

Declare Scope script_scope.
Delimit Scope script_scope with script.
Notation "x <- m ;; k" := (bind m (fun x => k))
  (at level 100, m at next level, right associativity) : script_scope.
Notation "m ;;; k" := (bind m (fun _ => k))
  (at level 100, right associativity) : script_scope.
Local Open Scope script_scope.

Definition exec {A} (m : M A) (e : Env) (w : World) : World := snd (m e w).
Definition result {A} (m : M A) (e : Env) (w : World) : Res A := fst (m e w).

Fixpoint forEach {A} (l : list A) (body : A -> M unit) : M unit :=
  match l with
  | [] => ret tt
  | x :: rest => body x ;;; forEach rest body
  end.

(** A loop that carries a local variable. *)
Fixpoint forEachAcc {A S} (l : list A) (s : S) (body : S -> A -> M S) : M S :=
  match l with
  | [] => ret s
  | x :: rest => s' <- body s x ;; forEachAcc rest s' body
  end.

(** [sheet.getRange(row, column).getValue()] *)
Definition getValue {A} (row : nat) (column : Column A) : M A :=
  fun _ w => (Ok (read column (rowAt (sheet w) row)), w).

(** [sheet.getRange(row, column).setValue(v)] *)
Definition setValue {A} (row : nat) (column : Column A) (v : A) : M unit :=
  fun _ w =>
    (Ok tt, {| sheet := updRow (sheet w) row (write column v);
               ticks := ticks w; outbox := outbox w; console := console w;
               seen := seen w |}).

(** [sheet.getRange(1, 7).getValue()] and [sheet.getRange(1, 3).getValue()] *)
Definition getG1 : M (option Z) := fun _ w => (Ok (G1 (sheet w)), w).
Definition getC1 : M (option Z) := fun _ w => (Ok (C1 (sheet w)), w).

(** [new Date()] *)
Definition newDate : M Z :=
  fun e w =>
    (Ok (clock e (ticks w)),
     {| sheet := sheet w; ticks := S (ticks w);
        outbox := outbox w; console := console w; seen := seen w |}).

Definition log (line : string) : M unit :=
  fun _ w =>
    (Ok tt, {| sheet := sheet w; ticks := ticks w; outbox := outbox w;
               console := console w ++ [line]; seen := seen w |}).

(** [UrlFetchApp.fetch(url, {method: "GET", muteHttpExceptions: true})] *)
Definition UrlFetchApp_fetch (target : string) : M (Z * Content) :=
  fun e w =>
    match fetch e target with
    | FetchThrows err => (Thrown err, w)
    | Response code content => (Ok (code, content), w)
    end.

(** [JSON.parse(response.getContentText())] *)
Definition JSON_parse (c : Content) : M (option Data) :=
  match c with
  | NotJson err => throw err
  | JsonNull => ret None
  | Json d => ret (Some d)
  end.

(** Reading a property of [data]; on [null] this is a [TypeError]. *)
Definition TypeError_null (prop : string) : string :=
  "TypeError: Cannot read properties of null (reading '" +:+ prop +:+ "')".

Definition property (prop : string) (data : option Data) : M Data :=
  match data with
  | None => throw (TypeError_null prop)
  | Some d => ret d
  end.

(** A call of [MailApp.sendEmail] or of a posting [UrlFetchApp.fetch]: the
    call is recorded, together with the sheet as it stands when the call is
    made; then the call returns or throws as the environment says. *)
Definition transport (c : Call) : M unit :=
  fun e w =>
    let w' := {| sheet := sheet w; ticks := ticks w;
                 outbox := outbox w ++ [c]; console := console w;
                 seen := seen w ++ [sheet w] |} in
    match transportThrows e c with
    | Some err => (Thrown err, w')
    | None => (Ok tt, w')
    end.

Definition Session_getEmail : M string :=
  fun e w => (Ok (activeUserEmail e), w).

Definition getProperty (key : string) : M (option string) :=
  fun e w => (Ok (scriptProperties e !! key), w).

(** ** The script *)

Record Node := { n_row : nat; n_url : string }.

Record HealthResult := {
  hr_timeout : bool;
  hr_sslError : bool;
  hr_error : option string;
  hr_db : string;
  hr_api : string
}.

Record ChainResult := {
  cr_height : option Z;
  cr_error : option string
}.

(** function checkNodeHealth(nodeUrl) *)
Definition checkNodeHealth (nodeUrl : string) : M HealthResult :=
  tryCatch
    (response <- UrlFetchApp_fetch (nodeUrl +:+ "/node/health") ;;
     if negb (fst response =? 200) then
       ret {| hr_timeout := false; hr_sslError := false;
              hr_error := Some ("HTTP " +:+ JS.toString (fst response));
              hr_db := ""; hr_api := "" |}
     else
       (data <- JSON_parse (snd response) ;;
        data <- property "status" data ;;
        ret {| hr_timeout := false; hr_sslError := false; hr_error := None;
               hr_db := JS.orElse (status_db data) "unknown";
               hr_api := JS.orElse (status_apiNode data) "unknown" |}))
    (fun errorStr =>
       if JS.includes "timeout" errorStr || JS.includes "Timeout" errorStr then
         ret {| hr_timeout := true; hr_sslError := false; hr_error := None;
                hr_db := ""; hr_api := "" |}
       else if JS.includes "certificate" errorStr || JS.includes "SSL" errorStr
               || JS.includes "TLS" errorStr then
         ret {| hr_timeout := false; hr_sslError := true;
                hr_error := Some errorStr; hr_db := ""; hr_api := "" |}
       else
         ret {| hr_timeout := false; hr_sslError := false;
                hr_error := Some errorStr; hr_db := ""; hr_api := "" |}).

(** function getChainHeight(nodeUrl) *)
Definition getChainHeight (nodeUrl : string) : M ChainResult :=
  tryCatch
    (response <- UrlFetchApp_fetch (nodeUrl +:+ "/chain/info") ;;
     if negb (fst response =? 200) then
       ret {| cr_height := None;
              cr_error := Some ("HTTP " +:+ JS.toString (fst response)) |}
     else
       (data <- JSON_parse (snd response) ;;
        data <- property "height" data ;;
        let height := JS.parseInt (data_height data) in
        ret {| cr_height := height; cr_error := None |}))
    (fun error => ret {| cr_height := None; cr_error := Some error |}).

(** function setNodeError(sheet, row, status, errorType) *)
Definition setNodeError (row : nat) (status errorType : string) : M unit :=
  setValue row STATUS status ;;;
  setValue row ERROR_TYPE errorType ;;;
  errorDetected <- getValue row ERROR_DETECTED ;;
  if negb (JS.truthyDate errorDetected) then
    (now <- newDate ;; setValue row ERROR_DETECTED (Some now))
  else ret tt.

(** function clearHealthData(sheet, row) *)
Definition clearHealthData (row : nat) : M unit :=
  setValue row DB "" ;;;
  setValue row API "" ;;;
  setValue row BLOCK_HEIGHT None.

(** function checkSlackConfiguration() *)
Definition checkSlackConfiguration : M bool :=
  webhookUrl <- getProperty "SLACK_WEBHOOK_URL" ;;
  token <- getProperty "SLACK_TOKEN" ;;
  channel <- getProperty "SLACK_CHANNEL" ;;
  ret (JS.truthyOpt webhookUrl || (JS.truthyOpt token && JS.truthyOpt channel)).

(** function sendSlackNotification(message) *)
Definition sendSlackNotification (message : Text) : M unit :=
  webhookUrl <- getProperty "SLACK_WEBHOOK_URL" ;;
  token <- getProperty "SLACK_TOKEN" ;;
  channel <- getProperty "SLACK_CHANNEL" ;;
  if negb (JS.truthyOpt webhookUrl)
     && (negb (JS.truthyOpt token) || negb (JS.truthyOpt channel)) then
    log "Slack設定が不完全です。通知をスキップします。"
  else if JS.truthyOpt webhookUrl then
    transport (PostWebhook (default "" webhookUrl) message)
  else if JS.truthyOpt token && JS.truthyOpt channel then
    transport (PostBotApi (default "" token) (default "" channel) message)
  else ret tt.

(** The address lookup that opens the mail step of every notifier:
    [let email = Session.getActiveUser().getEmail();
     if (!email) { email = ...getProperty("EMAIL_ADDRESS"); }] *)
Definition resolveEmail : M (option string) :=
  email <- Session_getEmail ;;
  if negb (JS.truthyStr email) then getProperty "EMAIL_ADDRESS"
  else ret (Some email).

(** function sendNotification(sheet, targets) *)
Definition sendNotification (targets : list Target) : M unit :=
  now <- newDate ;;
  let message := AlertMessage targets in
  let subject := AlertSubject targets in
  hasSlackConfig <- checkSlackConfiguration ;;
  (if negb hasSlackConfig then
     tryCatch
       (email <- resolveEmail ;;
        if JS.truthyOpt email then
          transport (SendEmail (default "" email) subject message)
        else ret tt)
       (fun error => log ("メール通知エラー: " +:+ error))
   else ret tt) ;;;
  tryCatch (sendSlackNotification message)
           (fun error => log ("Slack通知エラー: " +:+ error)) ;;;
  forEach targets (fun target =>
    setValue (t_row target) LAST_NOTIFIED (Some now)).

(** function sendRecoveryNotification(nodeUrl) *)
Definition sendRecoveryNotification (nodeUrl : string) : M unit :=
  now <- newDate ;;
  let message := RecoveryMessage nodeUrl now in
  let subject := RecoverySubject nodeUrl in
  hasSlackConfig <- checkSlackConfiguration ;;
  (if negb hasSlackConfig then
     tryCatch
       (email <- resolveEmail ;;
        if JS.truthyOpt email then
          transport (SendEmail (default "" email) subject message)
        else ret tt)
       (fun error => log ("復旧通知メールエラー: " +:+ error))
   else ret tt) ;;;
  tryCatch (sendSlackNotification message)
           (fun error => log ("復旧通知Slackエラー: " +:+ error)).

(** function clearNodeError(sheet, row) *)
Definition clearNodeError (row : nat) : M unit :=
  lastNotified <- getValue row LAST_NOTIFIED ;;
  nodeUrl <- getValue row NODE_URL ;;
  (if JS.truthyDate lastNotified then sendRecoveryNotification nodeUrl
   else ret tt) ;;;
  setValue row STATUS STATUS_TYPES.RUNNING ;;;
  setValue row ERROR_TYPE "" ;;;
  setValue row ERROR_DETECTED None ;;;
  setValue row LAST_NOTIFIED None.

(** function monitorNode(sheet, row, nodeUrl) *)
Definition monitorNode (row : nat) (nodeUrl : string) : M unit :=
  tryCatch
    (healthResult <- checkNodeHealth nodeUrl ;;
     if hr_timeout healthResult then
       (setNodeError row STATUS_TYPES.ERROR ERROR_TYPES.TIMEOUT ;;;
        clearHealthData row)
     else if hr_sslError healthResult then
       (setNodeError row STATUS_TYPES.ERROR ERROR_TYPES.SSL_CERT ;;;
        clearHealthData row)
     else if JS.truthyOpt (hr_error healthResult) then
       log (nodeUrl +:+ ": ヘルスチェックエラー - "
            +:+ default "" (hr_error healthResult))
     else
       (setValue row DB (hr_db healthResult) ;;;
        setValue row API (hr_api healthResult) ;;;
        chainResult <- getChainHeight nodeUrl ;;
        (match cr_height chainResult with
         | Some height => setValue row BLOCK_HEIGHT (Some height)
         | None => ret tt
         end) ;;;
        if negb (String.eqb (hr_db healthResult) "up")
           || negb (String.eqb (hr_api healthResult) "up") then
          setNodeError row STATUS_TYPES.ERROR ERROR_TYPES.DB_API
        else clearNodeError row))
    (fun error => log (nodeUrl +:+ ": 監視処理エラー - " +:+ error)).

(** function checkBlockDelay(sheet, nodes) *)
Definition checkBlockDelay (nodes : list Node) : M unit :=
  maxHeight <- forEachAcc nodes 0 (fun maxHeight node =>
    height <- getValue (n_row node) BLOCK_HEIGHT ;;
    if JS.truthyNum height && (maxHeight <? default 0 height)
    then ret (default 0 height)
    else ret maxHeight) ;;
  threshold <- getG1 ;;
  if (maxHeight =? 0) || negb (JS.truthyNum threshold) then ret tt
  else
    let minAcceptableHeight := maxHeight - default 0 threshold in
    forEach nodes (fun node =>
      currentHeight <- getValue (n_row node) BLOCK_HEIGHT ;;
      if JS.truthyNum currentHeight
         && (default 0 currentHeight <? minAcceptableHeight) then
        setNodeError (n_row node) STATUS_TYPES.DELAY ERROR_TYPES.BLOCK_DELAY
      else ret tt).

(** function processNotifications(sheet, nodes) *)
Definition processNotifications (nodes : list Node) : M unit :=
  now <- newDate ;;
  notificationTargets <- forEachAcc nodes [] (fun notificationTargets node =>
    status <- getValue (n_row node) STATUS ;;
    lastNotified <- getValue (n_row node) LAST_NOTIFIED ;;
    if negb (String.eqb status STATUS_TYPES.RUNNING) then
      let shouldNotify :=
        negb (JS.truthyDate lastNotified)
        || (NOTIFICATION_INTERVAL <=? now - default 0 lastNotified) in
      if shouldNotify then
        (errorType <- getValue (n_row node) ERROR_TYPE ;;
         errorDetected <- getValue (n_row node) ERROR_DETECTED ;;
         ret (notificationTargets ++
              [{| t_url := n_url node; t_status := status;
                  t_errorType := errorType; t_errorDetected := errorDetected;
                  t_row := n_row node |}]))
      else ret notificationTargets
    else ret notificationTargets) ;;
  if (0 <? length notificationTargets)%nat then
    sendNotification notificationTargets
  else ret tt.

(** function getMonitoringNodes(sheet) *)
Definition getMonitoringNodes : M (list Node) :=
  lastRow <- (fun _ w => (Ok (getLastRow (sheet w)), w)) ;;
  forEachAcc (seq FIRST_DATA_ROW (lastRow + 1 - FIRST_DATA_ROW)) []
    (fun nodes row =>
       url <- getValue row NODE_URL ;;
       disabled <- getValue row DISABLED ;;
       if JS.truthyStr url && negb (String.eqb (JS.trim url) "")
          && negb (String.eqb disabled "無効") then
         ret (nodes ++ [{| n_row := row; n_url := JS.trim url |}])
       else ret nodes).

(** function processSheet(spreadsheet, sheetName, enableNotification), on
    the sheet of that name *)
Definition processSheet (sheetName : string) (enableNotification : bool)
  : M unit :=
  nodes <- getMonitoringNodes ;;
  if (length nodes =? 0)%nat then
    log (sheetName +:+ ": 監視対象ノードが見つかりません")
  else
    (forEach nodes (fun node => monitorNode (n_row node) (n_url node)) ;;;
     checkBlockDelay nodes ;;;
     if enableNotification then processNotifications nodes else ret tt).

(** function notifyError(errorMessage) *)
Definition notifyError (errorMessage : string) : M unit :=
  hasSlackConfig <- checkSlackConfiguration ;;
  (if negb hasSlackConfig then
     tryCatch
       (email <- resolveEmail ;;
        if JS.truthyOpt email then
          transport (SendEmail (default "" email)
                       (Wording "⚠️ Symbol Node Monitoring - System Error")
                       (Wording errorMessage))
        else ret tt)
       (fun error => log ("エラー通知の送信に失敗: " +:+ error))
   else ret tt) ;;;
  tryCatch (sendSlackNotification (Wording ("System Error: " +:+ errorMessage)))
           (fun error => log ("エラー通知の送信に失敗: " +:+ error)).

(** ** The earlier snapshot, Code.js

    Code.js is an earlier state of the same script.  Its prober, state
    writes and scheduler loop are the ones above up to console lines; the
    functions below are those that differ. *)

Module CodeJs.

(** function checkBlockDelay(sheet, nodes): the reference height is read
    from cell C1 instead of being computed from the rows. *)
Definition checkBlockDelay (nodes : list Node) : M unit :=
  maxHeight <- getC1 ;;
  threshold <- getG1 ;;
  if negb (JS.truthyNum maxHeight) || negb (JS.truthyNum threshold) then
    log "基準ブロック高またはしきい値が設定されていません"
  else
    let minAcceptableHeight := default 0 maxHeight - default 0 threshold in
    forEach nodes (fun node =>
      currentHeight <- getValue (n_row node) BLOCK_HEIGHT ;;
      if JS.truthyNum currentHeight
         && (default 0 currentHeight <? minAcceptableHeight) then
        (setNodeError (n_row node) STATUS_TYPES.DELAY ERROR_TYPES.BLOCK_DELAY ;;;
         log (n_url node +:+ ": ブロック遅延検出 ("
              +:+ JS.toString (default 0 currentHeight) +:+ " < "
              +:+ JS.toString minAcceptableHeight +:+ ")"))
      else ret tt).

(** function sendSlackNotification(message) *)
Definition sendSlackNotification (message : Text) : M unit :=
  webhookUrl <- getProperty "SLACK_WEBHOOK_URL" ;;
  token <- getProperty "SLACK_TOKEN" ;;
  channel <- getProperty "SLACK_CHANNEL" ;;
  if negb (JS.truthyOpt webhookUrl)
     && (negb (JS.truthyOpt token) || negb (JS.truthyOpt channel)) then
    log "Slack設定が不完全です。通知をスキップします。"
  else
    ((if JS.truthyOpt webhookUrl then
        transport (PostWebhook (default "" webhookUrl) message)
      else if JS.truthyOpt token && JS.truthyOpt channel then
        transport (PostBotApi (default "" token) (default "" channel) message)
      else ret tt) ;;;
     log "Slack通知送信完了").

(** function sendNotification(sheet, targets): mail first, then chat. *)
Definition sendNotification (targets : list Target) : M unit :=
  now <- newDate ;;
  let message := AlertMessage targets in
  tryCatch
    (email <- resolveEmail ;;
     if JS.truthyOpt email then
       (transport (SendEmail (default "" email)
                     (Wording "Symbolノード監視アラート") message) ;;;
        log ("メール通知送信完了: " +:+ default "" email))
     else ret tt)
    (fun error => log ("メール通知エラー: " +:+ error)) ;;;
  tryCatch (sendSlackNotification message)
           (fun error => log ("Slack通知エラー: " +:+ error)) ;;;
  forEach targets (fun target =>
    setValue (t_row target) LAST_NOTIFIED (Some now)).

(** function sendRecoveryNotification(nodeUrl) *)
Definition sendRecoveryNotification (nodeUrl : string) : M unit :=
  now <- newDate ;;
  let message := RecoveryMessage nodeUrl now in
  tryCatch
    (email <- resolveEmail ;;
     if JS.truthyOpt email then
       (transport (SendEmail (default "" email)
                     (Wording "Symbolノード監視 - 復旧通知") message) ;;;
        log ("復旧通知メール送信完了: " +:+ default "" email))
     else ret tt)
    (fun error => log ("復旧通知メールエラー: " +:+ error)) ;;;
  tryCatch (sendSlackNotification message)
           (fun error => log ("復旧通知Slackエラー: " +:+ error)).

(** function notifyError(errorMessage): the mail and the chat message
    are sent in one [try] block. *)
Definition notifyError (errorMessage : string) : M unit :=
  tryCatch
    (email <- resolveEmail ;;
     (if JS.truthyOpt email then
        transport (SendEmail (default "" email)
                     (Wording "Symbolノード監視 - システムエラー")
                     (Wording errorMessage))
      else ret tt) ;;;
     sendSlackNotification (Wording ("System Error: " +:+ errorMessage)))
    (fun error => log ("エラー通知の送信に失敗: " +:+ error)).

End CodeJs.


(** ** The wording of the messages *)

(** What the getters of a [Date] return. *)
Record DateFields := {
  getFullYear : Z;
  getMonth : Z;
  getDate : Z;
  getHours : Z;
  getMinutes : Z;
  getSeconds : Z
}.

Definition newline : string := String "010"%char "".

(** The first [n] characters of [padString] repeated, continuing a
    repetition of which [rest] is left. *)
Fixpoint padding (n : nat) (padString rest : string) : string :=
  match n with
  | O => ""
  | S n' =>
      match rest with
      | String c rest' => String c (padding n' padString rest')
      | EmptyString =>
          match padString with
          | String c rest' => String c (padding n' padString rest')
          | EmptyString => ""
          end
      end
  end.

(** [s.padStart(targetLength, padString)] *)
Definition padStart (targetLength : nat) (padString s : string) : string :=
  padding (targetLength - String.length s) padString padString +:+ s.

(** function formatDateTime(date) *)
Definition formatDateTime (date : option DateFields) : string :=
  match date with
  | None => ""
  | Some date =>
      let year := getFullYear date in
      let month := padStart 2 "0" (JS.toString (getMonth date + 1)) in
      let day := padStart 2 "0" (JS.toString (getDate date)) in
      let hours := padStart 2 "0" (JS.toString (getHours date)) in
      let minutes := padStart 2 "0" (JS.toString (getMinutes date)) in
      let seconds := padStart 2 "0" (JS.toString (getSeconds date)) in
      JS.toString year +:+ "/" +:+ month +:+ "/" +:+ day +:+ " "
      +:+ hours +:+ ":" +:+ minutes +:+ ":" +:+ seconds
  end.

(** [s] without the prefix [p], if it starts with it. *)
Fixpoint dropPrefix (p s : string) : option string :=
  match p with
  | EmptyString => Some s
  | String a p' =>
      match s with
      | String b s' => if Ascii.eqb a b then dropPrefix p' s' else None
      | EmptyString => None
      end
  end.

(** [s.replace(/^https?:\/\//, "")] *)
Definition dropScheme (s : string) : string :=
  match dropPrefix "https://" s with
  | Some rest => rest
  | None => match dropPrefix "http://" s with
            | Some rest => rest
            | None => s
            end
  end.

(** [s.split(sep)[0]] for a separator of one character. *)
Fixpoint splitHead (sep : ascii) (s : string) : string :=
  match s with
  | EmptyString => ""
  | String c rest => if Ascii.eqb c sep then "" else String c (splitHead sep rest)
  end.

(** function extractDomainFromUrl(url), on a string; the methods it calls
    do not throw on a string, so that its [catch] is not entered. *)
Definition extractDomainFromUrl (nodeUrl : string) : string :=
  splitHead "/" (splitHead ":" (dropScheme nodeUrl)).

(** function createNotificationSubject(targets, emoji, type) *)
Definition createNotificationSubject (targets : list Target)
  (emoji type : string) : string :=
  match targets with
  | [target] =>
      let domain := extractDomainFromUrl (t_url target) in
      emoji +:+ " Symbol Node Monitoring - " +:+ type +:+ " - " +:+ domain
  | _ =>
      emoji +:+ " Symbol Node Monitoring - " +:+ type +:+ " - "
      +:+ JS.toString (Z.of_nat (length targets)) +:+ " nodes"
  end.

(** The wording needs the calendar fields of a time; they depend on the
    time zone of the script, which is a parameter here. *)
Section Wording.
Variable calendar : Z -> DateFields.

(** function createNotificationMessage(targets) *)
Definition createNotificationMessage (targets : list Target) : string :=
  fold_left
    (fun message target =>
       let formattedErrorDetected :=
         formatDateTime (calendar <$> t_errorDetected target) in
       message
       +:+ ("URL: " +:+ t_url target +:+ newline)
       +:+ ("ステータス: " +:+ t_status target +:+ newline)
       +:+ ("エラータイプ: " +:+ t_errorType target +:+ newline)
       +:+ ("エラー検出日時: " +:+ formattedErrorDetected +:+ newline)
       +:+ newline)
    targets ("Symbolノード監視アラート" +:+ newline +:+ newline).

(** The text of a message as the notifiers of the current script word
    it. *)
Definition wording (t : Text) : string :=
  match t with
  | AlertMessage targets => createNotificationMessage targets
  | AlertSubject targets => createNotificationSubject targets "🚨" "Error"
  | RecoveryMessage nodeUrl now =>
      "Symbolノード復旧通知" +:+ newline +:+ newline
      +:+ "URL: " +:+ nodeUrl +:+ newline
      +:+ "ステータス: 復旧完了" +:+ newline
      +:+ "復旧確認日時: " +:+ formatDateTime (Some (calendar now)) +:+ newline
      +:+ newline +:+ "ノードは正常に動作しています。"
  | RecoverySubject nodeUrl =>
      "✅ Symbol Node Monitoring - Recovery - " +:+ extractDomainFromUrl nodeUrl
  | Wording s => s
  end.

End Wording.

(** ** The spreadsheet and the entry point *)

(** The active spreadsheet: its sheets by name, and besides them what a
    run reads and writes. *)
Record Spreadsheet := {
  sheets : gmap string Sheet;
  s_ticks : nat;
  s_outbox : list Call;
  s_console : list string;
  s_seen : list Sheet
}.

Module Book.

(** Computations of the script over the whole spreadsheet. *)
Definition Run (A : Type) : Type := Env -> Spreadsheet -> Res A * Spreadsheet.

Definition bind {A B} (m : Run A) (k : A -> Run B) : Run B :=
  fun e b =>
    match m e b with
    | (Ok a, b') => k a e b'
    | (Thrown err, b') => (Thrown err, b')
    end.

Definition tryCatch {A} (m : Run A) (handler : string -> Run A) : Run A :=
  fun e b =>
    match m e b with
    | (Ok a, b') => (Ok a, b')
    | (Thrown err, b') => handler err e b'
    end.

(** The world of a computation that works on the sheet [sh]. *)
Definition worldOn (sh : Sheet) (b : Spreadsheet) : World :=
  {| sheet := sh; ticks := s_ticks b; outbox := s_outbox b;
     console := s_console b; seen := s_seen b |}.

(** A computation on the sheet called [sheetName], whose content is [sh]. *)
Definition onSheet {A} (sheetName : string) (sh : Sheet) (m : M A) : Run A :=
  fun e b =>
    let (r, w) := m e (worldOn sh b) in
    (r, {| sheets := <[sheetName := sheet w]> (sheets b);
           s_ticks := ticks w; s_outbox := outbox w;
           s_console := console w; s_seen := seen w |}).

(** A computation that works on no sheet; it is given an empty one. *)
Definition blankSheet : Sheet := {| C1 := None; G1 := None; rows := ∅ |}.

Definition offSheet {A} (m : M A) : Run A :=
  fun e b =>
    let (r, w) := m e (worldOn blankSheet b) in
    (r, {| sheets := sheets b; s_ticks := ticks w; s_outbox := outbox w;
           s_console := console w; s_seen := seen w |}).

(** function processSheet(spreadsheet, sheetName, enableNotification) *)
Definition processSheet (sheetName : string) (enableNotification : bool)
  : Run unit :=
  fun e b =>
    match sheets b !! sheetName with
    | None => offSheet (log ("シート " +:+ sheetName +:+ " が見つかりません")) e b
    | Some sh =>
        onSheet sheetName sh (processSheet sheetName enableNotification) e b
    end.

(** function main() *)
Definition main : Run unit :=
  tryCatch
    (bind (processSheet "mainnet" true) (fun _ =>
     processSheet "testnet" false))
    (fun error =>
       offSheet (log ("予期しないエラーが発生しました: " +:+ error) ;;;
                 notifyError ("GASスクリプト実行エラー: " +:+ error))).

End Book.

(** ** Notions used by the properties *)

(** The record invariant of the data model. *)
Definition invariant (r : NodeRow) : Prop :=
  (status r = STATUS_TYPES.RUNNING <-> errorType r = "")
  /\ (errorType r = "" <-> errorDetected r = None /\ lastNotified r = None).

(** The transitions of a monitoring pass. *)
Inductive transition (e : Env) : World -> World -> Prop :=
| t_monitor (row : nat) (nodeUrl : string) (w : World) :
    transition e w (exec (monitorNode row nodeUrl) e w)
| t_delay (nodes : list Node) (w : World) :
    transition e w (exec (checkBlockDelay nodes) e w)
| t_notify (nodes : list Node) (w : World) :
    transition e w (exec (processNotifications nodes) e w).

(** A row after [setNodeError]: status and error type overwritten, the
    detection time written only into an empty cell. *)
Definition flagRow (st et : string) (now : Z) (r : NodeRow) : NodeRow :=
  {| url := url r; status := st; errorType := et; db := db r; api := api r;
     blockHeight := blockHeight r;
     errorDetected := match errorDetected r with
                      | Some t => Some t
                      | None => Some now
                      end;
     lastNotified := lastNotified r; disabled := disabled r |}.

(** A row after the four clearing writes of [clearNodeError]. *)
Definition clearRow (r : NodeRow) : NodeRow :=
  {| url := url r; status := STATUS_TYPES.RUNNING; errorType := "";
     db := db r; api := api r; blockHeight := blockHeight r;
     errorDetected := None; lastNotified := None; disabled := disabled r |}.

(** The probe outcome the specification calls a transport error. *)
Definition transportError (hr : HealthResult) : Prop :=
  hr_timeout hr = false /\ hr_sslError hr = false
  /\ JS.truthyOpt (hr_error hr) = true.

(** An error text that the prober takes for neither a timeout nor a
    certificate problem. *)
Definition plainFailure (errorStr : string) : Prop :=
  JS.includes "timeout" errorStr = false
  /\ JS.includes "Timeout" errorStr = false
  /\ JS.includes "certificate" errorStr = false
  /\ JS.includes "SSL" errorStr = false
  /\ JS.includes "TLS" errorStr = false.

(** Chat configuration is present: a webhook URL, or a token with a
    channel. *)
Definition slackConfigured (e : Env) : bool :=
  JS.truthyOpt (scriptProperties e !! "SLACK_WEBHOOK_URL")
  || (JS.truthyOpt (scriptProperties e !! "SLACK_TOKEN")
      && JS.truthyOpt (scriptProperties e !! "SLACK_CHANNEL")).

(** The chat call made for a message when chat is configured. *)
Definition slackCall (e : Env) (message : Text) : Call :=
  if JS.truthyOpt (scriptProperties e !! "SLACK_WEBHOOK_URL") then
    PostWebhook (default "" (scriptProperties e !! "SLACK_WEBHOOK_URL")) message
  else
    PostBotApi (default "" (scriptProperties e !! "SLACK_TOKEN"))
               (default "" (scriptProperties e !! "SLACK_CHANNEL")) message.

(** The operator address, when one resolves. *)
Definition operatorAddress (e : Env) : option string :=
  if JS.truthyStr (activeUserEmail e) then Some (activeUserEmail e)
  else match scriptProperties e !! "EMAIL_ADDRESS" with
       | Some a => if JS.truthyStr a then Some a else None
       | None => None
       end.

(** The direct mail of an event, when an operator address resolves. *)
Definition mailCalls (e : Env) (subject message : Text) : list Call :=
  match operatorAddress e with
  | Some a => [SendEmail a subject message]
  | None => []
  end.

(** The chat call of an event, when chat is configured. *)
Definition slackCalls (e : Env) (message : Text) : list Call :=
  if slackConfigured e then [slackCall e message] else [].

(** What is recorded of the sheet [sh] by calls made while it stands. *)
Definition seenBy (sh : Sheet) (calls : list Call) : list Sheet :=
  map (fun _ => sh) calls.

(** The transport calls of one alert or recovery event in the current
    script: chat if configured, else mail. *)
Definition dispatched (e : Env) (subject message : Text) : list Call :=
  if slackConfigured e then [slackCall e message]
  else mailCalls e subject message.

(** Writing [now] into the last-notified cell of every target row. *)
Definition stamp (now : Z) (targets : list Target) (sh : Sheet) : Sheet :=
  fold_left (fun sh t => updRow sh (t_row t) (write LAST_NOTIFIED (Some now)))
            targets sh.

(** The health result as a function of what the health call did. *)
Definition onHealthError (errorStr : string) : HealthResult :=
  if JS.includes "timeout" errorStr || JS.includes "Timeout" errorStr then
    {| hr_timeout := true; hr_sslError := false; hr_error := None;
       hr_db := ""; hr_api := "" |}
  else if JS.includes "certificate" errorStr || JS.includes "SSL" errorStr
          || JS.includes "TLS" errorStr then
    {| hr_timeout := false; hr_sslError := true; hr_error := Some errorStr;
       hr_db := ""; hr_api := "" |}
  else
    {| hr_timeout := false; hr_sslError := false; hr_error := Some errorStr;
       hr_db := ""; hr_api := "" |}.

Definition healthOf (f : Fetched) : HealthResult :=
  match f with
  | FetchThrows errorStr => onHealthError errorStr
  | Response code content =>
      if negb (code =? 200) then
        {| hr_timeout := false; hr_sslError := false;
           hr_error := Some ("HTTP " +:+ JS.toString code);
           hr_db := ""; hr_api := "" |}
      else match content with
           | NotJson errorStr => onHealthError errorStr
           | JsonNull => onHealthError (TypeError_null "status")
           | Json data =>
               {| hr_timeout := false; hr_sslError := false; hr_error := None;
                  hr_db := JS.orElse (status_db data) "unknown";
                  hr_api := JS.orElse (status_apiNode data) "unknown" |}
           end
  end.

(** The chain height as a function of what the chain-info call did. *)
Definition heightOf (f : Fetched) : option Z :=
  match f with
  | Response code (Json data) =>
      if code =? 200 then JS.parseInt (data_height data) else None
  | _ => None
  end.

(** The health call ended in what the prober reports as a plain error:
    a response other than 200, or a failure (of the call, or of reading
    the body) whose text names neither a timeout nor a certificate. *)
Definition transportFailure (f : Fetched) : Prop :=
  match f with
  | Response code content =>
      code <> 200
      \/ match content with
         | NotJson errorStr => plainFailure errorStr /\ errorStr <> ""
         | JsonNull => True
         | Json _ => False
         end
  | FetchThrows errorStr => plainFailure errorStr /\ errorStr <> ""
  end.

(** The health cells and, when a height was obtained, the height cell. *)
Definition storeHealth (hr : HealthResult) (height : option Z) (r : NodeRow)
  : NodeRow :=
  {| url := url r; status := status r; errorType := errorType r;
     db := hr_db hr; api := hr_api hr;
     blockHeight := match height with
                    | Some h => Some h
                    | None => blockHeight r
                    end;
     errorDetected := errorDetected r; lastNotified := lastNotified r;
     disabled := disabled r |}.

(** The health cells and the height cell emptied. *)
Definition dropHealth (r : NodeRow) : NodeRow :=
  {| url := url r; status := status r; errorType := errorType r;
     db := ""; api := ""; blockHeight := None;
     errorDetected := errorDetected r; lastNotified := lastNotified r;
     disabled := disabled r |}.

(** The health URL and the chain-info URL of a node. *)
Definition healthUrl (nodeUrl : string) : string := nodeUrl +:+ "/node/health".
Definition chainUrl (nodeUrl : string) : string := nodeUrl +:+ "/chain/info".

(** The health result is a degraded one: db or api is not "up". *)
Definition degraded (hr : HealthResult) : bool :=
  negb (String.eqb (hr_db hr) "up") || negb (String.eqb (hr_api hr) "up").

(** The health call produced health data (no timeout, no certificate
    problem, no error). *)
Definition healthy (hr : HealthResult) : Prop :=
  hr_timeout hr = false /\ hr_sslError hr = false
  /\ JS.truthyOpt (hr_error hr) = false.

(** The transport calls of the recovery of a row, if it had been alerted. *)
Definition recoveryCalls (e : Env) (r : NodeRow) (now : Z) : list Call :=
  match lastNotified r with
  | Some _ => dispatched e (RecoverySubject (url r))
                (RecoveryMessage (url r) now)
  | None => []
  end.

(** The maximum found by the first loop of [checkBlockDelay], started
    from [acc]. *)
Definition fleetMaxFrom (sh : Sheet) (nodes : list Node) (acc : Z) : Z :=
  fold_left
    (fun maxHeight node =>
       let height := blockHeight (rowAt sh (n_row node)) in
       if JS.truthyNum height && (maxHeight <? default 0 height)
       then default 0 height else maxHeight)
    nodes acc.

Definition fleetMax (sh : Sheet) (nodes : list Node) : Z :=
  fleetMaxFrom sh nodes 0.

(** The test of the second loop of [checkBlockDelay] on a row. *)
Definition lags (minAcceptableHeight : Z) (r : NodeRow) : bool :=
  JS.truthyNum (blockHeight r)
  && (default 0 (blockHeight r) <? minAcceptableHeight).

(** The row is one of the rows of the node list. *)
Definition listed (nodes : list Node) (r : nat) : Prop :=
  r ∈ map n_row nodes.

#[global] Instance listed_dec nodes r : Decision (listed nodes r).
Proof. unfold listed. apply _. Defined.

(** The scheduler's test on a row: not running, and never alerted or
    alerted at least the interval ago. *)
Definition due (now : Z) (r : NodeRow) : bool :=
  negb (String.eqb (status r) STATUS_TYPES.RUNNING)
  && (negb (JS.truthyDate (lastNotified r))
      || (NOTIFICATION_INTERVAL <=? now - default 0 (lastNotified r))).

Definition targetOf (sh : Sheet) (node : Node) : Target :=
  {| t_url := n_url node;
     t_status := status (rowAt sh (n_row node));
     t_errorType := errorType (rowAt sh (n_row node));
     t_errorDetected := errorDetected (rowAt sh (n_row node));
     t_row := n_row node |}.

(** The batch collected by the loop of [processNotifications]. *)
Definition notificationTargets (now : Z) (sh : Sheet) (nodes : list Node)
  : list Target :=
  map (targetOf sh)
      (filter (fun node => due now (rowAt sh (n_row node)) = true) nodes).

(** ** Sample sheets and environments *)

Definition nodeRow (nodeUrl st et : string) (height detected notified : option Z)
  : NodeRow :=
  {| url := nodeUrl; status := st; errorType := et; db := ""; api := "";
     blockHeight := height; errorDetected := detected;
     lastNotified := notified; disabled := "" |}.

Definition sheetOf (reference threshold : option Z) (l : list (nat * NodeRow))
  : Sheet :=
  {| C1 := reference; G1 := threshold; rows := list_to_map l |}.

Definition worldOf (sh : Sheet) : World :=
  {| sheet := sh; ticks := 0; outbox := []; console := []; seen := [] |}.

(** An environment: the clock starts at [start] and advances by one
    millisecond per reading; no transport call fails. *)
Definition envOf (start : Z) (net : string -> Fetched)
  (email : string) (props : list (string * string)) : Env :=
  {| clock := fun n => start + Z.of_nat n; fetch := net;
     activeUserEmail := email; scriptProperties := list_to_map props;
     transportThrows := fun _ => None |}.

(** The same environment with every transport call failing. *)
Definition failingTransports (e : Env) : Env :=
  {| clock := clock e; fetch := fetch e; activeUserEmail := activeUserEmail e;
     scriptProperties := scriptProperties e;
     transportThrows := fun _ => Some "Exception: Request failed" |}.

Definition healthBody (dbState apiState : string) : Content :=
  Json {| status_db := Some dbState; status_apiNode := Some apiState;
          data_height := None |}.

Definition chainBody (height : string) : Content :=
  Json {| status_db := None; status_apiNode := None;
          data_height := Some height |}.

(** A network where every node answers the health call with [health] and
    the chain-info call with [chain]. *)
Definition netOf (health chain : Fetched) (target : string) : Fetched :=
  if JS.includes "/node/health" target then health else chain.

(** A node at row 4 that timed out at time 7 and was never alerted, on a
    sheet with threshold 50. *)
Definition timedOutWorld : World :=
  worldOf (sheetOf None (Some 50)
    [(4%nat, nodeRow "https://a.example:3001" "Error" "Timeout"
               (Some 940) (Some 7) None)]).

(** The health endpoint answers 503. *)
Definition unavailableEnv : Env :=
  envOf 1000 (netOf (Response 503 JsonNull) (FetchThrows "down")) "" [].

(** The health endpoint answers 200 with db "down" and api "up"; the
    chain-info endpoint answers 200 with height 1000. *)
Definition degradedEnv : Env :=
  envOf 1000 (netOf (Response 200 (healthBody "down" "up"))
                    (Response 200 (chainBody "1000"))) "" [].

(** Rows 4, 5, 6 and 7 at heights 1000, 940, 951 and 0, all running, on
    a sheet with threshold 50 and no reference height. *)
Definition fleetWorld : World :=
  worldOf (sheetOf None (Some 50)
    [(4%nat, nodeRow "https://a.example:3001" "Running" "" (Some 1000) None None);
     (5%nat, nodeRow "https://b.example:3001" "Running" "" (Some 940) None None);
     (6%nat, nodeRow "https://c.example:3001" "Running" "" (Some 951) None None);
     (7%nat, nodeRow "https://d.example:3001" "Running" "" (Some 0) None None)]).

Definition fleetNodes : list Node :=
  [{| n_row := 4; n_url := "https://a.example:3001" |};
   {| n_row := 5; n_url := "https://b.example:3001" |};
   {| n_row := 6; n_url := "https://c.example:3001" |};
   {| n_row := 7; n_url := "https://d.example:3001" |}].

(** The same fleet on a sheet whose reference cell holds 900. *)
Definition referenceWorld : World :=
  worldOf {| C1 := Some 900; G1 := Some 50; rows := rows (sheet fleetWorld) |}.

(** No endpoint answers; no chat, no mail address. *)
Definition silentEnv : Env :=
  envOf 1000 (netOf (FetchThrows "down") (FetchThrows "down")) "" [].

(** Chat is configured by a webhook and the session has an address. *)
Definition chatAndMailEnv : Env :=
  envOf 1000 (netOf (Response 200 (healthBody "up" "up"))
                    (Response 200 (chainBody "1000")))
        "ops@example.org"
        [("SLACK_WEBHOOK_URL", "https://hooks.example/T000")].

(** No chat; the address comes from the script properties. *)
Definition mailOnlyEnv : Env :=
  envOf 1000 (netOf (Response 200 (healthBody "up" "up"))
                    (Response 200 (chainBody "1000")))
        "" [("EMAIL_ADDRESS", "ops@example.org")].

(** One target: the timed-out node of row 4. *)
Definition timedOutTargets : list Target :=
  [targetOf (sheet timedOutWorld)
     {| n_row := 4; n_url := "https://a.example:3001" |}].

(** The world once [monitorNode] has stored the health cells and the
    height of a healthy answer, before it sets or clears the error. *)
Definition stored (row : nat) (nodeUrl : string) (e : Env) (w : World)
  : World :=
  {| sheet := updRow (sheet w) row
                (storeHealth (healthOf (fetch e (healthUrl nodeUrl)))
                             (heightOf (fetch e (chainUrl nodeUrl))));
     ticks := ticks w; outbox := outbox w; console := console w;
     seen := seen w |}.

(** The health endpoint answers 200 with db and api "up", the chain-info
    endpoint 200 with height 1000; chat is not configured and the session
    has an address. *)
Definition healthyEnv : Env :=
  envOf 2000 (netOf (Response 200 (healthBody "up" "up"))
                    (Response 200 (chainBody "1000")))
        "ops@example.org" [].

(** A node at row 4 in Error/DB/API since time 7, alerted at time 9. *)
Definition alertedWorld : World :=
  worldOf (sheetOf None (Some 50)
    [(4%nat, nodeRow "https://a.example:3001" "Error" "DB/API"
               (Some 940) (Some 7) (Some 9))]).

(** A row that the operator has just added at row 4: the URL is filled
    in, every other cell is still empty. *)
Definition newRowWorld : World :=
  worldOf (sheetOf None (Some 50)
    [(4%nat, nodeRow "https://a.example:3001" "" "" None None None)]).

(** Every node answers healthy with db and api up, at height 1000; there
    is neither chat nor an operator address. *)
Definition unnotifiableEnv : Env :=
  envOf 2000 (netOf (Response 200 (healthBody "up" "up"))
                    (Response 200 (chainBody "1000"))) "" [].

(** Rows 4 to 6 in error since time 7: never alerted, alerted 20 minutes
    and alerted 31 minutes before the time 10000000; row 7 running. *)
Definition schedulerWorld : World :=
  worldOf (sheetOf None (Some 50)
    [(4%nat, nodeRow "https://a.example:3001" "Error" "Timeout" None (Some 7) None);
     (5%nat, nodeRow "https://b.example:3001" "Error" "Timeout" None (Some 7)
               (Some (10000000 - 20 * 60 * 1000)));
     (6%nat, nodeRow "https://c.example:3001" "Delay" "BlockDelay" (Some 5) (Some 7)
               (Some (10000000 - 31 * 60 * 1000)));
     (7%nat, nodeRow "https://d.example:3001" "Running" "" (Some 1000) None None)]).

(** The clock starts at 10000000; mail only. *)
Definition schedulerEnv : Env :=
  envOf 10000000 (netOf (FetchThrows "down") (FetchThrows "down"))
        "ops@example.org" [].

(** The console lines written by the handler of a transport step: one
    line per call that throws. *)
Definition failureLines (handlerLabel : string) (e : Env) (calls : list Call)
  : list string :=
  flat_map (fun c => match transportThrows e c with
                     | Some err => [handlerLabel +:+ err]
                     | None => []
                     end) calls.

(** The console lines of the chat step of the current script. *)
Definition slackLines (handlerLabel : string) (e : Env) (message : Text)
  : list string :=
  if slackConfigured e then failureLines handlerLabel e [slackCall e message]
  else ["Slack設定が不完全です。通知をスキップします。"].

(** The console lines of an alert dispatch of the current script. *)
Definition alertLines (e : Env) (targets : list Target) : list string :=
  (if slackConfigured e then []
   else failureLines "メール通知エラー: " e
          (mailCalls e (AlertSubject targets) (AlertMessage targets)))
  ++ slackLines "Slack通知エラー: " e (AlertMessage targets).

(** Two environments that differ at most in what the chain-info call of
    the node does. *)
Definition sameButChain (nodeUrl : string) (e e2 : Env) : Prop :=
  clock e2 = clock e
  /\ fetch e2 (healthUrl nodeUrl) = fetch e (healthUrl nodeUrl)
  /\ activeUserEmail e2 = activeUserEmail e
  /\ scriptProperties e2 = scriptProperties e
  /\ transportThrows e2 = transportThrows e.

(** A row with its height cell emptied: what is left to compare when the
    height is set aside. *)
Definition withoutHeight (r : NodeRow) : NodeRow := write BLOCK_HEIGHT None r.

(** As [healthyEnv], with the chain-info endpoint answering height "-5". *)
Definition negativeHeightEnv : Env :=
  envOf 2000 (netOf (Response 200 (healthBody "up" "up"))
                    (Response 200 (chainBody "-5")))
        "ops@example.org" [].

(** As [healthyEnv], with the chain-info endpoint answering 500. *)
Definition chainDownEnv : Env :=
  envOf 2000 (netOf (Response 200 (healthBody "up" "up"))
                    (Response 500 JsonNull))
        "ops@example.org" [].

(** The world with the height cell of a row emptied. *)
Definition heightEmptied (row : nat) (w : World) : World :=
  {| sheet := updRow (sheet w) row (write BLOCK_HEIGHT None);
     ticks := ticks w; outbox := outbox w; console := console w;
     seen := seen w |}.

(** Two worlds that agree except on a row that the detector's test
    rejects in both. *)
Definition agreeExcept (m : Z) (row : nat) (w w0 : World) : Prop :=
  ticks w = ticks w0
  /\ (forall r, r <> row -> rowAt (sheet w) r = rowAt (sheet w0) r)
  /\ lags m (rowAt (sheet w) row) = false
  /\ lags m (rowAt (sheet w0) row) = false.

(** ** Notions used by the further properties *)

(** The test of [getMonitoringNodes] on a row: a URL that is not blank and
    a disabled cell other than the marker. *)
Definition monitored (r : NodeRow) : bool :=
  JS.truthyStr (url r) && negb (String.eqb (JS.trim (url r)) "")
  && negb (String.eqb (disabled r) "無効").

(** The text that reaches the [catch] of [checkNodeHealth], if any: the
    failure of the call, of [JSON.parse], or of reading [status] on
    [null]. *)
Definition healthFailureText (f : Fetched) : option string :=
  match f with
  | FetchThrows errorStr => Some errorStr
  | Response code content =>
      if code =? 200 then
        match content with
        | NotJson errorStr => Some errorStr
        | JsonNull => Some (TypeError_null "status")
        | Json _ => None
        end
      else None
  end.

(** The text names a timeout, as the prober tests it. *)
Definition namesTimeout (errorStr : string) : bool :=
  JS.includes "timeout" errorStr || JS.includes "Timeout" errorStr.

(** The text names a certificate problem, as the prober tests it. *)
Definition namesCertificate (errorStr : string) : bool :=
  JS.includes "certificate" errorStr || JS.includes "SSL" errorStr
  || JS.includes "TLS" errorStr.

(** The health endpoint fails with a text naming both a timeout and SSL. *)
Definition timeoutAndSslEnv : Env :=
  envOf 3000 (netOf (FetchThrows "Exception: Timeout during SSL handshake")
                    (Response 200 (chainBody "1000"))) "" [].

(** The health endpoint fails with a certificate error. *)
Definition certificateEnv : Env :=
  envOf 3000 (netOf (FetchThrows "Exception: SSL Error https://a.example:3001")
                    (Response 200 (chainBody "1000"))) "" [].

(** The health endpoint answers 200 with a status object without fields. *)
Definition noFieldsEnv : Env :=
  envOf 3000 (netOf (Response 200 (Json {| status_db := None;
                                           status_apiNode := None;
                                           data_height := None |}))
                    (Response 200 (chainBody "1000")))
        "ops@example.org" [].

(** The nodes that the loop of [getMonitoringNodes] collects from a list
    of row numbers. *)
Definition monitoredNodes (sh : Sheet) (l : list nat) : list Node :=
  map (fun row => {| n_row := row; n_url := JS.trim (url (rowAt sh row)) |})
      (filter (fun row => monitored (rowAt sh row) = true) l).

(** A sheet with a title in row 2, a node in row 4, a disabled node in
    row 5, a row whose URL is three spaces in row 6, a row whose URL is
    the ideographic space U+3000 in row 7, a node with a space and an
    ideographic space around its URL in row 8, and nothing in row 9. *)
Definition mixedWorld : World :=
  worldOf (sheetOf None (Some 50)
    [(2%nat, nodeRow "Node URL" "Status" "" None None None);
     (4%nat, nodeRow "https://a.example:3001" "Error" "Timeout" None (Some 7) None);
     (5%nat, {| url := "https://b.example:3001"; status := "Error";
                errorType := "Timeout"; db := ""; api := "";
                blockHeight := Some 10; errorDetected := Some 7;
                lastNotified := None; disabled := "無効" |});
     (6%nat, nodeRow "   " "" "" None None None);
     (7%nat, nodeRow "　" "" "" None None None);
     (8%nat, nodeRow " 　https://d.example:3001　 " "" "" None None None)]).

(** What a pass leaves alone: the two header cells, the URL and the
    disabled cell of every row, and every row outside [P]. *)
Definition frame (P : nat -> Prop) (sh sh' : Sheet) : Prop :=
  C1 sh' = C1 sh /\ G1 sh' = G1 sh
  /\ (forall r, url (rowAt sh' r) = url (rowAt sh r)
                /\ disabled (rowAt sh' r) = disabled (rowAt sh r))
  /\ (forall r, ~ P r -> rowAt sh' r = rowAt sh r).

(** No last-notified cell is written, other than emptied. *)
Definition unstamped (sh sh' : Sheet) : Prop :=
  forall r, lastNotified (rowAt sh' r) = lastNotified (rowAt sh r)
            \/ lastNotified (rowAt sh' r) = None.




(** The ranges of the getters of a [Date]; the year is any integer. *)
Definition calendarFields (d : DateFields) : Prop :=
  0 <= getMonth d <= 11 /\ 1 <= getDate d <= 31 /\ 0 <= getHours d <= 23
  /\ 0 <= getMinutes d <= 59 /\ 0 <= getSeconds d <= 59.

(** The block of a target in the alert message. *)
Definition targetBlock (calendar : Z -> DateFields) (target : Target) : string :=
  ("URL: " +:+ t_url target +:+ newline)
  +:+ ("ステータス: " +:+ t_status target +:+ newline)
  +:+ ("エラータイプ: " +:+ t_errorType target +:+ newline)
  +:+ ("エラー検出日時: "
       +:+ formatDateTime (calendar <$> t_errorDetected target) +:+ newline)
  +:+ newline.

(** 2 November 2026, 08:05:09. *)
Definition sampleDate : DateFields :=
  {| getFullYear := 2026; getMonth := 10; getDate := 2;
     getHours := 8; getMinutes := 5; getSeconds := 9 |}.

(** A calendar in which every time falls on the sample date. *)
Definition sampleCalendar (t : Z) : DateFields := sampleDate.

(** The text of a transport call: the body of a mail, the text of a chat
    message. *)
Definition bodyOf (c : Call) : Text :=
  match c with
  | SendEmail _ _ body => body
  | PostWebhook _ text => text
  | PostBotApi _ _ text => text
  end.

(** A spreadsheet with the sheet mainnet of the scheduler sample and a
    sheet that the script does not know; there is no sheet testnet. *)
Definition sampleBook : Spreadsheet :=
  {| sheets := list_to_map [("mainnet", sheet schedulerWorld);
                            ("archive", sheet fleetWorld)];
     s_ticks := 0; s_outbox := []; s_console := []; s_seen := [] |}.

(** ** The JavaScript primitives on sample inputs *)

Example parseInt_digits : JS.parseInt (Some "1234567") = Some 1234567.
Proof. reflexivity. Qed.

Example parseInt_negative : JS.parseInt (Some "-5") = Some (-5).
Proof. reflexivity. Qed.

Example parseInt_leading_part : JS.parseInt (Some " 42px") = Some 42.
Proof. reflexivity. Qed.

Example parseInt_fraction : JS.parseInt (Some "12.7") = Some 12.
Proof. reflexivity. Qed.

Example parseInt_hex : JS.parseInt (Some "0x1A") = Some 26.
Proof. reflexivity. Qed.

Example parseInt_no_digit :
  JS.parseInt (Some "abc") = None /\ JS.parseInt (Some "") = None
  /\ JS.parseInt (Some "0x") = None /\ JS.parseInt None = None.
Proof. repeat split. Qed.

Example includes_sample :
  JS.includes "Timeout" "Exception: Timeout: https://a.example" = true
  /\ JS.includes "SSL" "Exception: DNS error" = false.
Proof. split; reflexivity. Qed.

Example trim_sample : JS.trim "  https://a.example:3001 " = "https://a.example:3001".
Proof. reflexivity. Qed.

(** The ideographic space U+3000, the no-break space U+00A0 and the byte
    order mark U+FEFF are trimmed as the ASCII space is; white space inside
    the text stays. *)
Example trim_unicode :
  JS.trim "　https://a.example:3001　 " = "https://a.example:3001"
  /\ JS.trim "　　" = ""
  /\ JS.trim (String (ascii_of_nat 194) (String (ascii_of_nat 160) "a b")
              +:+ String (ascii_of_nat 239)
                    (String (ascii_of_nat 187) (String (ascii_of_nat 191) "")))
     = "a b"
  /\ JS.trim "無効" = "無効".
Proof. repeat split; reflexivity. Qed.

Example toString_sample : JS.toString 503 = "503".
Proof. reflexivity. Qed.

(** ** Basic facts about rows and sheets *)

Lemma rowAt_updRow sh row f r :
  rowAt (updRow sh row f) r
  = if decide (r = row) then f (rowAt sh row) else rowAt sh r.
Proof.
  unfold rowAt, updRow; cbn.
  destruct (decide (r = row)) as [->|Hne].
  - by rewrite lookup_insert_eq.
  - by rewrite lookup_insert_ne.
Qed.

Lemma rowAt_updRow_eq sh row f : rowAt (updRow sh row f) row = f (rowAt sh row).
Proof. rewrite rowAt_updRow. by rewrite decide_True. Qed.

Lemma rowAt_updRow_ne sh row f r : r <> row -> rowAt (updRow sh row f) r = rowAt sh r.
Proof. intros H. rewrite rowAt_updRow. by rewrite decide_False. Qed.

Lemma updRow_updRow sh row f g :
  updRow (updRow sh row f) row g = updRow sh row (fun r => g (f r)).
Proof.
  unfold updRow at 1 3. cbn [C1 G1 rows]. rewrite rowAt_updRow_eq.
  unfold updRow. cbn [C1 G1 rows]. by rewrite insert_insert_eq.
Qed.

Lemma bind_Ok {A B} (m : M A) (k : A -> M B) e w a w' :
  m e w = (Ok a, w') -> bind m k e w = k a e w'.
Proof. intros H. unfold bind. by rewrite H. Qed.

(** ** What the state-writing functions compute *)

Lemma setNodeError_run row st et e w :
  setNodeError row st et e w
  = (Ok tt,
     {| sheet := updRow (sheet w) row (flagRow st et (clock e (ticks w)));
        ticks := match errorDetected (rowAt (sheet w) row) with
                 | Some _ => ticks w
                 | None => S (ticks w)
                 end;
        outbox := outbox w; console := console w;
        seen := seen w |}).
Proof.
  unfold setNodeError, bind, setValue, getValue, newDate, ret. cbn.
  rewrite !updRow_updRow, rowAt_updRow_eq. cbn.
  destruct (errorDetected (rowAt (sheet w) row)) eqn:E; cbn.
  - unfold updRow, flagRow. cbn. by rewrite E.
  - rewrite !updRow_updRow. unfold updRow, flagRow. cbn. by rewrite E.
Qed.

Lemma clearHealthData_run row e w :
  clearHealthData row e w
  = (Ok tt,
     {| sheet := updRow (sheet w) row
                   (fun r => write BLOCK_HEIGHT None (write API "" (write DB "" r)));
        ticks := ticks w; outbox := outbox w; console := console w;
        seen := seen w |}).
Proof.
  unfold clearHealthData, bind, setValue. cbn.
  by rewrite !updRow_updRow.
Qed.

Lemma forEach_stamp now targets e w :
  forEach targets
    (fun target => setValue (t_row target) LAST_NOTIFIED (Some now)) e w
  = (Ok tt, {| sheet := stamp now targets (sheet w); ticks := ticks w;
               outbox := outbox w; console := console w;
               seen := seen w |}).
Proof.
  revert w. induction targets as [|t ts IH]; intros w.
  - by destruct w.
  - cbn [forEach]. unfold bind at 1. unfold setValue at 1. cbn.
    rewrite IH. reflexivity.
Qed.

(** ** What the notifier sends *)

Lemma checkSlackConfiguration_run e w :
  checkSlackConfiguration e w = (Ok (slackConfigured e), w).
Proof. reflexivity. Qed.

Lemma resolveEmail_truthy e w :
  exists email,
    resolveEmail e w = (Ok email, w)
    /\ (JS.truthyOpt email = true ->
        operatorAddress e = Some (default "" email))
    /\ (JS.truthyOpt email = false -> operatorAddress e = None).
Proof.
  unfold resolveEmail, bind, Session_getEmail, getProperty, ret, operatorAddress.
  cbn. destruct (JS.truthyStr (activeUserEmail e)) eqn:E; cbn.
  - eexists; split; [reflexivity|]. cbn. rewrite E. by split.
  - eexists; split; [reflexivity|].
    destruct (scriptProperties e !! "EMAIL_ADDRESS") as [a|]; cbn; [|done].
    destruct (JS.truthyStr a); by split.
Qed.

(** The mail step of the current script: guarded by the chat check. *)
Lemma mail_step_exact (handlerLabel : string) subject message e w :
  tryCatch
    (email <- resolveEmail ;;
     if JS.truthyOpt email then
       transport (SendEmail (default "" email) subject message)
     else ret tt)
    (fun error => log (handlerLabel +:+ error)) e w
  = (Ok tt, {| sheet := sheet w; ticks := ticks w;
               outbox := outbox w ++ mailCalls e subject message;
               console := console w
                          ++ failureLines handlerLabel e
                               (mailCalls e subject message);
               seen := seen w
                       ++ seenBy (sheet w) (mailCalls e subject message) |}).
Proof.
  destruct (resolveEmail_truthy e w) as (email & Hrun & Hyes & Hno).
  unfold tryCatch, bind. rewrite Hrun. unfold mailCalls, failureLines.
  destruct (JS.truthyOpt email) eqn:E.
  - rewrite (Hyes eq_refl). unfold transport, log. cbn.
    destruct (transportThrows e _); cbn; [done|]. by rewrite !app_nil_r.
  - rewrite (Hno eq_refl). cbn. rewrite !app_nil_r. by destruct w.
Qed.

Lemma mail_step_run (handlerLabel : string) subject message e w :
  exists lines,
    tryCatch
      (email <- resolveEmail ;;
       if JS.truthyOpt email then
         transport (SendEmail (default "" email) subject message)
       else ret tt)
      (fun error => log (handlerLabel +:+ error)) e w
    = (Ok tt, {| sheet := sheet w; ticks := ticks w;
                 outbox := outbox w ++ mailCalls e subject message;
                 console := console w ++ lines;
                 seen := seen w
                         ++ seenBy (sheet w) (mailCalls e subject message) |}).
Proof. eexists. apply mail_step_exact. Qed.

(** The chat step: one call when chat is configured, none otherwise. *)
Lemma slack_step_exact (handlerLabel : string) message e w :
  tryCatch (sendSlackNotification message)
           (fun error => log (handlerLabel +:+ error)) e w
  = (Ok tt, {| sheet := sheet w; ticks := ticks w;
               outbox := outbox w ++ slackCalls e message;
               console := console w ++ slackLines handlerLabel e message;
               seen := seen w ++ seenBy (sheet w) (slackCalls e message) |}).
Proof.
  unfold tryCatch, sendSlackNotification, bind, getProperty, slackCalls,
    slackLines, failureLines, slackConfigured, slackCall. cbn.
  destruct (JS.truthyOpt (scriptProperties e !! "SLACK_WEBHOOK_URL")); cbn.
  - unfold transport, log. cbn. destruct (transportThrows e _); cbn; [done|].
    by rewrite !app_nil_r.
  - destruct (JS.truthyOpt (scriptProperties e !! "SLACK_TOKEN")); cbn.
    + destruct (JS.truthyOpt (scriptProperties e !! "SLACK_CHANNEL")); cbn.
      * unfold transport, log. cbn. destruct (transportThrows e _); cbn; [done|].
        by rewrite !app_nil_r.
      * unfold log. cbn. by rewrite !app_nil_r.
    + unfold log. cbn. by rewrite !app_nil_r.
Qed.

Lemma slack_step_run (handlerLabel : string) message e w :
  exists lines,
    tryCatch (sendSlackNotification message)
             (fun error => log (handlerLabel +:+ error)) e w
    = (Ok tt, {| sheet := sheet w; ticks := ticks w;
                 outbox := outbox w ++ slackCalls e message;
                 console := console w ++ lines;
                 seen := seen w ++ seenBy (sheet w) (slackCalls e message) |}).
Proof. eexists. apply slack_step_exact. Qed.

Lemma sendRecoveryNotification_run nodeUrl e w :
  exists lines,
    sendRecoveryNotification nodeUrl e w
    = (Ok tt,
       {| sheet := sheet w; ticks := S (ticks w);
          outbox := outbox w ++ dispatched e (RecoverySubject nodeUrl)
                         (RecoveryMessage nodeUrl (clock e (ticks w)));
          console := console w ++ lines;
          seen := seen w
                  ++ seenBy (sheet w) (dispatched e (RecoverySubject nodeUrl)
                       (RecoveryMessage nodeUrl (clock e (ticks w)))) |}).
Proof.
  unfold sendRecoveryNotification.
  erewrite bind_Ok by reflexivity.
  erewrite bind_Ok by apply checkSlackConfiguration_run.
  unfold dispatched. destruct (slackConfigured e) eqn:Hs; cbn [negb].
  - erewrite bind_Ok by reflexivity.
    destruct (slack_step_run "復旧通知Slackエラー: "
                (RecoveryMessage nodeUrl (clock e (ticks w))) e
                {| sheet := sheet w; ticks := S (ticks w);
                   outbox := outbox w; console := console w;
                   seen := seen w |})
      as [lines ->].
    exists lines. unfold slackCalls. by rewrite Hs.
  - match goal with
    | |- context [bind (tryCatch ?m ?h) _ e ?w0] =>
        destruct (mail_step_run "復旧通知メールエラー: "
                    (RecoverySubject nodeUrl)
                    (RecoveryMessage nodeUrl (clock e (ticks w))) e w0)
          as [l1 H1]
    end.
    erewrite bind_Ok by apply H1.
    match goal with
    | |- context [tryCatch _ _ e ?w0] =>
        destruct (slack_step_run "復旧通知Slackエラー: "
                    (RecoveryMessage nodeUrl (clock e (ticks w))) e w0)
          as [l2 ->]
    end.
    exists (l1 ++ l2). cbn. unfold slackCalls. rewrite Hs.
    by rewrite !app_nil_r, app_assoc.
Qed.

Lemma sendNotification_run targets e w :
  exists lines,
    sendNotification targets e w
    = (Ok tt,
       {| sheet := stamp (clock e (ticks w)) targets (sheet w);
          ticks := S (ticks w);
          outbox := outbox w
                    ++ dispatched e (AlertSubject targets) (AlertMessage targets);
          console := console w ++ lines;
          seen := seen w
                  ++ seenBy (sheet w) (dispatched e (AlertSubject targets)
                       (AlertMessage targets)) |}).
Proof.
  unfold sendNotification.
  erewrite bind_Ok by reflexivity.
  erewrite bind_Ok by apply checkSlackConfiguration_run.
  unfold dispatched. destruct (slackConfigured e) eqn:Hs; cbn [negb].
  - erewrite bind_Ok by reflexivity.
    match goal with
    | |- context [bind (tryCatch _ _) _ e ?w0] =>
        destruct (slack_step_run "Slack通知エラー: " (AlertMessage targets) e w0)
          as [lines H]
    end.
    erewrite bind_Ok by apply H.
    rewrite forEach_stamp. exists lines. cbn. unfold slackCalls. by rewrite Hs.
  - match goal with
    | |- context [bind (tryCatch ?m ?h) _ e ?w0] =>
        destruct (mail_step_run "メール通知エラー: " (AlertSubject targets)
                    (AlertMessage targets) e w0) as [l1 H1]
    end.
    erewrite bind_Ok by apply H1.
    match goal with
    | |- context [bind (tryCatch _ _) _ e ?w0] =>
        destruct (slack_step_run "Slack通知エラー: " (AlertMessage targets) e w0)
          as [l2 H2]
    end.
    erewrite bind_Ok by apply H2.
    rewrite forEach_stamp. exists (l1 ++ l2). cbn. unfold slackCalls.
    rewrite Hs. by rewrite !app_nil_r, app_assoc.
Qed.

(** ** What the prober returns *)

Lemma onHealthError_run errorStr e w :
  (if JS.includes "timeout" errorStr || JS.includes "Timeout" errorStr then
     ret {| hr_timeout := true; hr_sslError := false; hr_error := None;
            hr_db := ""; hr_api := "" |}
   else if JS.includes "certificate" errorStr || JS.includes "SSL" errorStr
           || JS.includes "TLS" errorStr then
     ret {| hr_timeout := false; hr_sslError := true;
            hr_error := Some errorStr; hr_db := ""; hr_api := "" |}
   else
     ret {| hr_timeout := false; hr_sslError := false;
            hr_error := Some errorStr; hr_db := ""; hr_api := "" |}) e w
  = (Ok (onHealthError errorStr), w).
Proof.
  unfold onHealthError.
  destruct (JS.includes "timeout" errorStr || JS.includes "Timeout" errorStr);
    [reflexivity|].
  destruct (JS.includes "certificate" errorStr || JS.includes "SSL" errorStr
            || JS.includes "TLS" errorStr); reflexivity.
Qed.

Lemma checkNodeHealth_run nodeUrl e w :
  checkNodeHealth nodeUrl e w = (Ok (healthOf (fetch e (healthUrl nodeUrl))), w).
Proof.
  unfold checkNodeHealth, tryCatch, bind, UrlFetchApp_fetch, healthOf, healthUrl.
  destruct (fetch e (nodeUrl +:+ "/node/health")) as [err|code content].
  - apply onHealthError_run.
  - cbn [fst snd]. destruct (negb (code =? 200)); [reflexivity|].
    destruct content as [err| |data]; cbn.
    + apply onHealthError_run.
    + apply onHealthError_run.
    + reflexivity.
Qed.

Lemma getChainHeight_run nodeUrl e w :
  exists err,
    getChainHeight nodeUrl e w
    = (Ok {| cr_height := heightOf (fetch e (chainUrl nodeUrl));
             cr_error := err |}, w).
Proof.
  unfold getChainHeight, tryCatch, bind, UrlFetchApp_fetch, heightOf, chainUrl.
  destruct (fetch e (nodeUrl +:+ "/chain/info")) as [err|code content].
  - by eexists.
  - cbn [fst snd]. destruct (code =? 200); cbn.
    + destruct content as [err| |data]; cbn; by eexists.
    + destruct content; by eexists.
Qed.

(** ** What one probe of a node does to the world *)

Lemma monitorNode_timeout row nodeUrl e w :
  hr_timeout (healthOf (fetch e (healthUrl nodeUrl))) = true ->
  monitorNode row nodeUrl e w
  = (Ok tt,
     {| sheet := updRow (sheet w) row
                   (fun r => dropHealth
                      (flagRow STATUS_TYPES.ERROR ERROR_TYPES.TIMEOUT
                         (clock e (ticks w)) r));
        ticks := match errorDetected (rowAt (sheet w) row) with
                 | Some _ => ticks w
                 | None => S (ticks w)
                 end;
        outbox := outbox w; console := console w;
        seen := seen w |}).
Proof.
  intros H. unfold monitorNode, tryCatch.
  erewrite bind_Ok by apply checkNodeHealth_run. rewrite H.
  erewrite bind_Ok by apply setNodeError_run.
  rewrite clearHealthData_run. cbn. by rewrite updRow_updRow.
Qed.

Lemma monitorNode_sslError row nodeUrl e w :
  hr_timeout (healthOf (fetch e (healthUrl nodeUrl))) = false ->
  hr_sslError (healthOf (fetch e (healthUrl nodeUrl))) = true ->
  monitorNode row nodeUrl e w
  = (Ok tt,
     {| sheet := updRow (sheet w) row
                   (fun r => dropHealth
                      (flagRow STATUS_TYPES.ERROR ERROR_TYPES.SSL_CERT
                         (clock e (ticks w)) r));
        ticks := match errorDetected (rowAt (sheet w) row) with
                 | Some _ => ticks w
                 | None => S (ticks w)
                 end;
        outbox := outbox w; console := console w;
        seen := seen w |}).
Proof.
  intros H1 H2. unfold monitorNode, tryCatch.
  erewrite bind_Ok by apply checkNodeHealth_run. rewrite H1, H2.
  erewrite bind_Ok by apply setNodeError_run.
  rewrite clearHealthData_run. cbn. by rewrite updRow_updRow.
Qed.

Lemma monitorNode_transportError row nodeUrl e w :
  transportError (healthOf (fetch e (healthUrl nodeUrl))) ->
  exists line,
    monitorNode row nodeUrl e w
    = (Ok tt, {| sheet := sheet w; ticks := ticks w; outbox := outbox w;
                 console := console w ++ [line];
                 seen := seen w |}).
Proof.
  intros (H1 & H2 & H3). unfold monitorNode, tryCatch.
  erewrite bind_Ok by apply checkNodeHealth_run. rewrite H1, H2, H3.
  eexists. reflexivity.
Qed.

Lemma setValue_run {A} row (column : Column A) v e w :
  setValue row column v e w
  = (Ok tt, {| sheet := updRow (sheet w) row (write column v);
               ticks := ticks w; outbox := outbox w; console := console w;
               seen := seen w |}).
Proof. reflexivity. Qed.

Lemma clearNodeError_run row e w :
  exists lines,
    clearNodeError row e w
    = (Ok tt,
       {| sheet := updRow (sheet w) row clearRow;
          ticks := match lastNotified (rowAt (sheet w) row) with
                   | Some _ => S (ticks w)
                   | None => ticks w
                   end;
          outbox := outbox w
                    ++ recoveryCalls e (rowAt (sheet w) row) (clock e (ticks w));
          console := console w ++ lines;
          seen := seen w
                  ++ seenBy (sheet w) (recoveryCalls e (rowAt (sheet w) row)
                       (clock e (ticks w))) |}).
Proof.
  unfold clearNodeError, recoveryCalls.
  erewrite bind_Ok by reflexivity. erewrite bind_Ok by reflexivity.
  destruct (lastNotified (rowAt (sheet w) row)) as [t|] eqn:E; cbn [JS.truthyDate].
  - cbn [read LAST_NOTIFIED NODE_URL]. rewrite E. cbn [JS.truthyDate].
    destruct (sendRecoveryNotification_run (url (rowAt (sheet w) row)) e w)
      as [lines H].
    erewrite bind_Ok by apply H.
    exists lines. unfold bind. rewrite !setValue_run. cbn.
    by rewrite !updRow_updRow.
  - cbn [read LAST_NOTIFIED NODE_URL]. rewrite E. cbn [JS.truthyDate].
    erewrite bind_Ok by reflexivity.
    exists []. unfold bind. rewrite !setValue_run. cbn.
    by rewrite !updRow_updRow, !app_nil_r.
Qed.

Lemma monitorNode_degraded row nodeUrl e w :
  let hr := healthOf (fetch e (healthUrl nodeUrl)) in
  let height := heightOf (fetch e (chainUrl nodeUrl)) in
  healthy hr ->
  degraded hr = true ->
  monitorNode row nodeUrl e w
  = (Ok tt,
     {| sheet := updRow (sheet w) row
                   (fun r => flagRow STATUS_TYPES.ERROR ERROR_TYPES.DB_API
                               (clock e (ticks w)) (storeHealth hr height r));
        ticks := match errorDetected (rowAt (sheet w) row) with
                 | Some _ => ticks w
                 | None => S (ticks w)
                 end;
        outbox := outbox w; console := console w;
        seen := seen w |}).
Proof.
  intros hr height (H1 & H2 & H3) Hd. unfold monitorNode, tryCatch.
  erewrite bind_Ok by apply checkNodeHealth_run.
  fold hr. rewrite H1, H2, H3.
  erewrite bind_Ok by apply setValue_run.
  erewrite bind_Ok by apply setValue_run.
  destruct (getChainHeight_run nodeUrl e
              {| sheet := updRow (updRow (sheet w) row (write DB (hr_db hr)))
                            row (write API (hr_api hr));
                 ticks := ticks w; outbox := outbox w; console := console w;
                 seen := seen w |})
    as [err Hc].
  cbn [sheet ticks outbox console seen].
  erewrite bind_Ok by apply Hc. cbn [cr_height]. fold height.
  unfold degraded in Hd. rewrite Hd.
  destruct height as [h|].
  - erewrite bind_Ok by apply setValue_run. rewrite setNodeError_run. cbn.
    rewrite !updRow_updRow, !rowAt_updRow_eq. reflexivity.
  - erewrite bind_Ok by reflexivity. rewrite setNodeError_run. cbn.
    rewrite !updRow_updRow, !rowAt_updRow_eq. reflexivity.
Qed.

Lemma monitorNode_recovered row nodeUrl e w :
  let hr := healthOf (fetch e (healthUrl nodeUrl)) in
  let height := heightOf (fetch e (chainUrl nodeUrl)) in
  healthy hr ->
  degraded hr = false ->
  exists lines,
    monitorNode row nodeUrl e w
    = (Ok tt,
       {| sheet := updRow (sheet w) row
                     (fun r => clearRow (storeHealth hr height r));
          ticks := match lastNotified (rowAt (sheet w) row) with
                   | Some _ => S (ticks w)
                   | None => ticks w
                   end;
          outbox := outbox w
                    ++ recoveryCalls e (rowAt (sheet w) row) (clock e (ticks w));
          console := console w ++ lines;
          seen := seen w
                  ++ seenBy (updRow (sheet w) row (storeHealth hr height))
                       (recoveryCalls e (rowAt (sheet w) row)
                          (clock e (ticks w))) |}).
Proof.
  intros hr height (H1 & H2 & H3) Hd. unfold monitorNode, tryCatch.
  erewrite bind_Ok by apply checkNodeHealth_run.
  fold hr. rewrite H1, H2, H3.
  erewrite bind_Ok by apply setValue_run.
  erewrite bind_Ok by apply setValue_run.
  destruct (getChainHeight_run nodeUrl e
              {| sheet := updRow (updRow (sheet w) row (write DB (hr_db hr)))
                            row (write API (hr_api hr));
                 ticks := ticks w; outbox := outbox w; console := console w;
                 seen := seen w |})
    as [err Hc].
  cbn [sheet ticks outbox console seen].
  erewrite bind_Ok by apply Hc. cbn [cr_height]. fold height.
  unfold degraded in Hd. rewrite Hd.
  destruct height as [h|].
  - erewrite bind_Ok by apply setValue_run.
    match goal with
    | |- context [clearNodeError row e ?w0] =>
        destruct (clearNodeError_run row e w0) as [lines ->]
    end.
    exists lines. cbn.
    rewrite !updRow_updRow, !rowAt_updRow_eq. reflexivity.
  - erewrite bind_Ok by reflexivity.
    match goal with
    | |- context [clearNodeError row e ?w0] =>
        destruct (clearNodeError_run row e w0) as [lines ->]
    end.
    exists lines. cbn.
    rewrite !updRow_updRow, !rowAt_updRow_eq. reflexivity.
Qed.

(** ** The block-delay detector *)

Lemma listed_cons n ns r : listed (n :: ns) r <-> r = n_row n \/ listed ns r.
Proof. unfold listed. cbn [map]. apply elem_of_cons. Qed.

Lemma listed_nil r : ~ listed [] r.
Proof. unfold listed. cbn. apply not_elem_of_nil. Qed.

Lemma fleetMax_loop nodes acc e w :
  forEachAcc nodes acc (fun maxHeight node =>
    height <- getValue (n_row node) BLOCK_HEIGHT ;;
    if JS.truthyNum height && (maxHeight <? default 0 height)
    then ret (default 0 height)
    else ret maxHeight) e w
  = (Ok (fleetMaxFrom (sheet w) nodes acc), w).
Proof.
  revert acc. induction nodes as [|n ns IH]; intros acc; [reflexivity|].
  cbn [forEachAcc fleetMaxFrom fold_left].
  erewrite bind_Ok; [apply IH|].
  erewrite bind_Ok by reflexivity. cbn [read BLOCK_HEIGHT].
  by destruct (JS.truthyNum _ && _).
Qed.

Lemma flagRow_flagRow st et now1 now2 r :
  flagRow st et now2 (flagRow st et now1 r) = flagRow st et now1 r.
Proof. unfold flagRow. cbn. by destruct (errorDetected r). Qed.

(** A loop body that flags its node when the node's row lags and leaves
    everything but the console alone otherwise. *)
Section FlagLoop.
Variable m : Z.
Variable e : Env.
Variable body : Node -> M unit.

Hypothesis body_flags :
  forall n w,
    exists w1,
      body n e w = (Ok tt, w1)
      /\ C1 (sheet w1) = C1 (sheet w) /\ G1 (sheet w1) = G1 (sheet w)
      /\ outbox w1 = outbox w
      /\ forall r,
          rowAt (sheet w1) r
          = if decide (r = n_row n /\ lags m (rowAt (sheet w) r) = true)
            then flagRow STATUS_TYPES.DELAY ERROR_TYPES.BLOCK_DELAY
                   (clock e (ticks w)) (rowAt (sheet w) r)
            else rowAt (sheet w) r.

Lemma flag_loop nodes w :
  exists w',
    forEach nodes body e w = (Ok tt, w')
    /\ C1 (sheet w') = C1 (sheet w) /\ G1 (sheet w') = G1 (sheet w)
    /\ outbox w' = outbox w
    /\ forall r,
        (listed nodes r -> lags m (rowAt (sheet w) r) = true ->
         exists now,
           rowAt (sheet w') r
           = flagRow STATUS_TYPES.DELAY ERROR_TYPES.BLOCK_DELAY now
               (rowAt (sheet w) r))
        /\ (~ (listed nodes r /\ lags m (rowAt (sheet w) r) = true) ->
            rowAt (sheet w') r = rowAt (sheet w) r).
Proof.
  revert w. induction nodes as [|n ns IH]; intros w.
  - exists w. cbn. repeat split; try done.
    intros H. by apply listed_nil in H.
  - cbn [forEach].
    destruct (body_flags n w) as (w1 & Hb & Hc1 & Hg1 & Ho & Hrow).
    assert (Hlag : forall r,
              lags m (rowAt (sheet w1) r) = lags m (rowAt (sheet w) r)).
    { intros r. rewrite Hrow. by case_decide. }
    destruct (IH w1) as (w' & Hrun & Hc1' & Hg1' & Ho' & Hrows).
    exists w'. erewrite bind_Ok by apply Hb. split; [exact Hrun|].
    repeat split; try congruence.
    + intros Hin Hlg. apply listed_cons in Hin as [Hin|Hin].
      * destruct (decide (listed ns r)) as [Hin'|Hnin].
        -- destruct (proj1 (Hrows r) Hin') as [now Hnow].
           { by rewrite Hlag. }
           rewrite Hnow, Hrow. rewrite decide_True; [|done].
           rewrite flagRow_flagRow. by eexists.
        -- rewrite (proj2 (Hrows r)); [|naive_solver].
           rewrite Hrow. rewrite decide_True; [|done]. by eexists.
      * destruct (proj1 (Hrows r) Hin) as [now Hnow].
        { by rewrite Hlag. }
        rewrite Hnow, Hrow. case_decide.
        -- rewrite flagRow_flagRow. by eexists.
        -- by eexists.
    + intros Hno. rewrite (proj2 (Hrows r)).
      * rewrite Hrow. rewrite decide_False; [done|].
        intros [-> Hlg]. apply Hno. split; [apply listed_cons; by left|done].
      * intros [Hin Hlg]. apply Hno.
        split; [apply listed_cons; by right|]. by rewrite <- Hlag.
Qed.
End FlagLoop.

(** The second loop of [checkBlockDelay]: every listed row that lags is
    flagged, every other row of the sheet is left as it was. *)
Lemma delay_loop m nodes e w :
  exists w',
    forEach nodes (fun node =>
      currentHeight <- getValue (n_row node) BLOCK_HEIGHT ;;
      if JS.truthyNum currentHeight && (default 0 currentHeight <? m) then
        setNodeError (n_row node) STATUS_TYPES.DELAY ERROR_TYPES.BLOCK_DELAY
      else ret tt) e w
    = (Ok tt, w')
    /\ C1 (sheet w') = C1 (sheet w) /\ G1 (sheet w') = G1 (sheet w)
    /\ outbox w' = outbox w
    /\ forall r,
        (listed nodes r -> lags m (rowAt (sheet w) r) = true ->
         exists now,
           rowAt (sheet w') r
           = flagRow STATUS_TYPES.DELAY ERROR_TYPES.BLOCK_DELAY now
               (rowAt (sheet w) r))
        /\ (~ (listed nodes r /\ lags m (rowAt (sheet w) r) = true) ->
            rowAt (sheet w') r = rowAt (sheet w) r).
Proof.
  apply flag_loop. clear w. intros n w.
  erewrite bind_Ok by reflexivity.
  cbn [read BLOCK_HEIGHT]. fold (lags m (rowAt (sheet w) (n_row n))).
  destruct (lags m (rowAt (sheet w) (n_row n))) eqn:E.
  - rewrite setNodeError_run. eexists; split; [reflexivity|]. cbn.
    repeat split. intros r. rewrite rowAt_updRow.
    destruct (decide (r = n_row n)) as [->|Hne].
    + by rewrite decide_True.
    + rewrite decide_False; [done|naive_solver].
  - exists w. repeat split. intros r.
    rewrite decide_False; [done|]. intros [-> ?]. congruence.
Qed.

Lemma checkBlockDelay_idle nodes e w :
  (fleetMax (sheet w) nodes =? 0) || negb (JS.truthyNum (G1 (sheet w))) = true ->
  checkBlockDelay nodes e w = (Ok tt, w).
Proof.
  intros H. unfold checkBlockDelay.
  erewrite bind_Ok by apply fleetMax_loop.
  erewrite bind_Ok by reflexivity.
  fold (fleetMax (sheet w) nodes). by rewrite H.
Qed.

Lemma checkBlockDelay_active nodes e w :
  (fleetMax (sheet w) nodes =? 0) || negb (JS.truthyNum (G1 (sheet w))) = false ->
  let m := fleetMax (sheet w) nodes - default 0 (G1 (sheet w)) in
  exists w',
    checkBlockDelay nodes e w = (Ok tt, w')
    /\ C1 (sheet w') = C1 (sheet w) /\ G1 (sheet w') = G1 (sheet w)
    /\ outbox w' = outbox w
    /\ forall r,
        (listed nodes r -> lags m (rowAt (sheet w) r) = true ->
         exists now,
           rowAt (sheet w') r
           = flagRow STATUS_TYPES.DELAY ERROR_TYPES.BLOCK_DELAY now
               (rowAt (sheet w) r))
        /\ (~ (listed nodes r /\ lags m (rowAt (sheet w) r) = true) ->
            rowAt (sheet w') r = rowAt (sheet w) r).
Proof.
  intros H m. unfold checkBlockDelay.
  erewrite bind_Ok by apply fleetMax_loop.
  erewrite bind_Ok by reflexivity.
  fold (fleetMax (sheet w) nodes). rewrite H.
  apply delay_loop.
Qed.

(** ** The notification scheduler *)

Lemma targets_loop now nodes acc e w :
  forEachAcc nodes acc (fun notificationTargets node =>
    status <- getValue (n_row node) STATUS ;;
    lastNotified <- getValue (n_row node) LAST_NOTIFIED ;;
    if negb (String.eqb status STATUS_TYPES.RUNNING) then
      let shouldNotify :=
        negb (JS.truthyDate lastNotified)
        || (NOTIFICATION_INTERVAL <=? now - default 0 lastNotified) in
      if shouldNotify then
        (errorType <- getValue (n_row node) ERROR_TYPE ;;
         errorDetected <- getValue (n_row node) ERROR_DETECTED ;;
         ret (notificationTargets ++
              [{| t_url := n_url node; t_status := status;
                  t_errorType := errorType; t_errorDetected := errorDetected;
                  t_row := n_row node |}]))
      else ret notificationTargets
    else ret notificationTargets) e w
  = (Ok (acc ++ notificationTargets now (sheet w) nodes), w).
Proof.
  set (body := fun (notificationTargets : list Target) (node : Node) => _).
  assert (Hbody : forall acc0 n,
    body acc0 n e w
    = (Ok (acc0 ++ if due now (rowAt (sheet w) (n_row n))
                   then [targetOf (sheet w) n] else []), w)).
  { intros acc0 n. subst body. cbn beta.
    erewrite bind_Ok by reflexivity. erewrite bind_Ok by reflexivity.
    cbn [read STATUS LAST_NOTIFIED]. unfold due.
    destruct (negb (String.eqb (status (rowAt (sheet w) (n_row n)))
                      STATUS_TYPES.RUNNING)); cbn [andb];
      [|by rewrite app_nil_r].
    cbv zeta.
    destruct (negb (JS.truthyDate (lastNotified (rowAt (sheet w) (n_row n))))
              || (NOTIFICATION_INTERVAL <=?
                  now - default 0 (lastNotified (rowAt (sheet w) (n_row n)))));
      [reflexivity|by rewrite app_nil_r]. }
  clearbody body.
  revert acc. induction nodes as [|n ns IH]; intros acc.
  - cbn. by rewrite !app_nil_r.
  - cbn [forEachAcc]. erewrite bind_Ok by apply Hbody. rewrite IH.
    unfold notificationTargets. cbn [filter list_filter].
    destruct (due now (rowAt (sheet w) (n_row n))).
    + rewrite decide_True by done. cbn [map]. by rewrite <- app_assoc.
    + rewrite decide_False by done. by rewrite !app_nil_r.
Qed.

Lemma stamp_cons now t ts sh :
  stamp now (t :: ts) sh
  = stamp now ts (updRow sh (t_row t) (write LAST_NOTIFIED (Some now))).
Proof. reflexivity. Qed.

Lemma rowAt_stamp now targets sh r :
  rowAt (stamp now targets sh) r
  = if decide (r ∈ map t_row targets)
    then write LAST_NOTIFIED (Some now) (rowAt sh r)
    else rowAt sh r.
Proof.
  revert sh. induction targets as [|t ts IH]; intros sh.
  - cbn. rewrite decide_False; [done|apply not_elem_of_nil].
  - rewrite stamp_cons, IH, rowAt_updRow. cbn [map].
    destruct (decide (r = t_row t)) as [->|Hne].
    + rewrite (decide_True (P := _ ∈ _ :: _)) by (apply elem_of_cons; by left).
      by case_decide.
    + destruct (decide (r ∈ map t_row ts)) as [Hin|Hnin].
      * rewrite decide_True; [done|apply elem_of_cons; by right].
      * rewrite decide_False; [done|].
        intros [?|?]%elem_of_cons; done.
Qed.

Lemma processNotifications_run nodes e w :
  let targets := notificationTargets (clock e (ticks w)) (sheet w) nodes in
  exists lines,
    processNotifications nodes e w
    = (Ok tt,
       match targets with
       | [] => {| sheet := sheet w; ticks := S (ticks w);
                  outbox := outbox w; console := console w;
                  seen := seen w |}
       | _ :: _ =>
           {| sheet := stamp (clock e (S (ticks w))) targets (sheet w);
              ticks := S (S (ticks w));
              outbox := outbox w ++ dispatched e (AlertSubject targets)
                             (AlertMessage targets);
              console := console w ++ lines;
              seen := seen w
                      ++ seenBy (sheet w) (dispatched e (AlertSubject targets)
                           (AlertMessage targets)) |}
       end).
Proof.
  intros targets. unfold processNotifications.
  erewrite bind_Ok by reflexivity.
  erewrite bind_Ok by apply targets_loop.
  cbn [sheet ticks app]. fold targets.
  destruct targets as [|t ts] eqn:E.
  - exists []. reflexivity.
  - cbn [length Nat.ltb Nat.leb].
    match goal with
    | |- context [sendNotification ?ts0 e ?w0] =>
        destruct (sendNotification_run ts0 e w0) as [lines ->]
    end.
    by exists lines.
Qed.

Lemma target_rows now sh nodes r :
  r ∈ map t_row (notificationTargets now sh nodes)
  <-> listed nodes r /\ due now (rowAt sh r) = true.
Proof.
  unfold notificationTargets, listed.
  change (map t_row) with (fmap (M := list) t_row).
  change (map (targetOf sh)) with (fmap (M := list) (targetOf sh)).
  change (map n_row) with (fmap (M := list) n_row).
  rewrite <- list_fmap_compose.
  rewrite !list_elem_of_fmap. split.
  - intros (n & -> & Hin). apply list_elem_of_filter in Hin as [Hdue Hin].
    split; [by exists n|done].
  - intros [(n & -> & Hin) Hdue]. exists n. split; [done|].
    by apply list_elem_of_filter.
Qed.

(** ** The record invariant *)

Lemma invariant_flagRow st et now r :
  st <> STATUS_TYPES.RUNNING -> et <> "" -> invariant (flagRow st et now r).
Proof.
  intros Hst Het. unfold invariant, flagRow. cbn.
  destruct (errorDetected r); naive_solver.
Qed.

Lemma invariant_clearRow r : invariant (clearRow r).
Proof. unfold invariant, clearRow. cbn. naive_solver. Qed.

Lemma invariant_dropHealth r : invariant r -> invariant (dropHealth r).
Proof. done. Qed.

Lemma invariant_stamped now stampTime r :
  invariant r -> due now r = true ->
  invariant (write LAST_NOTIFIED (Some stampTime) r).
Proof.
  unfold invariant, due. cbn. intros [H1 H2] Hdue.
  apply andb_true_iff in Hdue as [Hst _].
  apply negb_true_iff, String.eqb_neq in Hst.
  split; [done|]. split; [|naive_solver].
  intros Het. by apply H1 in Het.
Qed.

(** The health result falls in one of the five cases of [monitorNode]. *)
Lemma health_cases hr :
  hr_timeout hr = true
  \/ (hr_timeout hr = false /\ hr_sslError hr = true)
  \/ transportError hr
  \/ (healthy hr /\ degraded hr = true)
  \/ (healthy hr /\ degraded hr = false).
Proof.
  unfold transportError, healthy.
  destruct (hr_timeout hr), (hr_sslError hr), (JS.truthyOpt (hr_error hr)),
    (degraded hr); naive_solver.
Qed.

Lemma truthyStr_nonempty s : s <> "" -> JS.truthyStr s = true.
Proof.
  intros H. unfold JS.truthyStr. apply negb_true_iff. by apply String.eqb_neq.
Qed.

Lemma onHealthError_plain errorStr :
  plainFailure errorStr -> errorStr <> "" ->
  transportError (onHealthError errorStr).
Proof.
  intros (H1 & H2 & H3 & H4 & H5) Hne. unfold onHealthError.
  rewrite H1, H2, H3, H4, H5. cbn. repeat split.
  by apply truthyStr_nonempty.
Qed.

Lemma transportFailure_error f :
  transportFailure f -> transportError (healthOf f).
Proof.
  destruct f as [errorStr|code content]; cbn.
  - intros [Hp Hne]. by apply onHealthError_plain.
  - intros H. destruct (code =? 200) eqn:E; cbn; [|done].
    destruct H as [H|H]; [lia|].
    destruct content as [errorStr| |data]; [|done|done].
    destruct H. by apply onHealthError_plain.
Qed.

(** * The properties *)

(** ** C6: a transport error leaves the record as it is *)

(** C6. When the health call of a node ends in a plain error (a response
    other than 200, or a failure whose text names neither a timeout nor a
    certificate), [monitorNode] returns normally and writes no cell: the
    sheet, the outbox and the clock readings are those before the call, and
    so they are after a second such probe. *)
Theorem transport_error_leaves_record row nodeUrl e w :
  transportFailure (fetch e (healthUrl nodeUrl)) ->
  result (monitorNode row nodeUrl) e w = Ok tt
  /\ sheet (exec (monitorNode row nodeUrl) e w) = sheet w
  /\ ticks (exec (monitorNode row nodeUrl) e w) = ticks w
  /\ outbox (exec (monitorNode row nodeUrl) e w) = outbox w
  /\ sheet (exec (monitorNode row nodeUrl) e
              (exec (monitorNode row nodeUrl) e w)) = sheet w.
Proof.
  intros H. apply transportFailure_error in H.
  destruct (monitorNode_transportError row nodeUrl e w H) as [line Hrun].
  unfold exec, result. rewrite Hrun. cbn. repeat split.
  match goal with
  | |- context [monitorNode row nodeUrl e ?w0] =>
      destruct (monitorNode_transportError row nodeUrl e w0 H) as [line' ->]
  end.
  reflexivity.
Qed.

Lemma transport_error_leaves_record_witness :
  sheet (exec (monitorNode 4 "https://a.example:3001") unavailableEnv
           timedOutWorld)
  = sheet timedOutWorld.
Proof.
  apply (transport_error_leaves_record 4 "https://a.example:3001"
           unavailableEnv timedOutWorld).
  left. discriminate.
Defined.

(** ** C1: the record invariant *)

Lemma monitorNode_invariant row nodeUrl e w r :
  invariant (rowAt (sheet w) r) ->
  invariant (rowAt (sheet (exec (monitorNode row nodeUrl) e w)) r).
Proof.
  intros Hinv. unfold exec.
  destruct (health_cases (healthOf (fetch e (healthUrl nodeUrl))))
    as [H|[[H1 H2]|[H|[[H Hd]|[H Hd]]]]].
  - rewrite monitorNode_timeout by done. cbn. rewrite rowAt_updRow.
    case_decide; [|done]. by apply invariant_dropHealth, invariant_flagRow.
  - rewrite monitorNode_sslError by done. cbn. rewrite rowAt_updRow.
    case_decide; [|done]. by apply invariant_dropHealth, invariant_flagRow.
  - destruct (monitorNode_transportError row nodeUrl e w H) as [line ->]. done.
  - rewrite monitorNode_degraded by done. cbn. rewrite rowAt_updRow.
    case_decide; [|done]. by apply invariant_flagRow.
  - destruct (monitorNode_recovered row nodeUrl e w H Hd) as [lines ->].
    cbn. rewrite rowAt_updRow. case_decide; [|done]. apply invariant_clearRow.
Qed.

Lemma checkBlockDelay_invariant nodes e w r :
  invariant (rowAt (sheet w) r) ->
  invariant (rowAt (sheet (exec (checkBlockDelay nodes) e w)) r).
Proof.
  intros Hinv. unfold exec.
  destruct ((fleetMax (sheet w) nodes =? 0)
            || negb (JS.truthyNum (G1 (sheet w)))) eqn:E.
  - by rewrite checkBlockDelay_idle.
  - destruct (checkBlockDelay_active nodes e w E) as (w' & -> & _ & _ & _ & Hrows).
    cbn. destruct (Hrows r) as [Hyes Hno].
    destruct (decide (listed nodes r
                      /\ lags (fleetMax (sheet w) nodes - default 0 (G1 (sheet w)))
                           (rowAt (sheet w) r) = true)) as [[Hin Hlg]|Hn].
    + destruct (Hyes Hin Hlg) as [now ->]. by apply invariant_flagRow.
    + by rewrite Hno.
Qed.

Lemma processNotifications_invariant nodes e w r :
  invariant (rowAt (sheet w) r) ->
  invariant (rowAt (sheet (exec (processNotifications nodes) e w)) r).
Proof.
  intros Hinv. unfold exec.
  destruct (processNotifications_run nodes e w) as [lines ->]. cbn [snd].
  destruct (notificationTargets (clock e (ticks w)) (sheet w) nodes)
    as [|t ts] eqn:E; [done|].
  cbn [sheet]. rewrite rowAt_stamp. case_decide as Hin; [|done].
  rewrite <- E in Hin. apply target_rows in Hin as [_ Hdue].
  by eapply invariant_stamped.
Qed.

(** A probe that ends in anything but a transport error establishes the
    invariant on the probed row, whatever the row held before. *)
Lemma invariant_established row nodeUrl e w :
  ~ transportError (healthOf (fetch e (healthUrl nodeUrl))) ->
  invariant (rowAt (sheet (exec (monitorNode row nodeUrl) e w)) row).
Proof.
  intros Hn. unfold exec.
  destruct (health_cases (healthOf (fetch e (healthUrl nodeUrl))))
    as [H|[[H1 H2]|[H|[[H Hd]|[H Hd]]]]]; [| |done| |].
  - rewrite monitorNode_timeout by done. cbn. rewrite rowAt_updRow_eq.
    by apply invariant_dropHealth, invariant_flagRow.
  - rewrite monitorNode_sslError by done. cbn. rewrite rowAt_updRow_eq.
    by apply invariant_dropHealth, invariant_flagRow.
  - rewrite monitorNode_degraded by done. cbn. rewrite rowAt_updRow_eq.
    by apply invariant_flagRow.
  - destruct (monitorNode_recovered row nodeUrl e w H Hd) as [lines ->].
    cbn. rewrite rowAt_updRow_eq. apply invariant_clearRow.
Qed.

(** C1. Every transition of a pass (the probe of a node, the block-delay
    detection, the notification scheduling) preserves, on every row, the
    record invariant: status is Running iff the error type is empty iff
    both the detection time and the last-notified time are empty.  A probe
    that does not end in a transport error moreover establishes the
    invariant on the probed row, whatever the row held before. *)
Theorem invariant_preserved e w w' r :
  transition e w w' ->
  (invariant (rowAt (sheet w) r) -> invariant (rowAt (sheet w') r))
  /\ (forall nodeUrl,
        w' = exec (monitorNode r nodeUrl) e w ->
        ~ transportError (healthOf (fetch e (healthUrl nodeUrl))) ->
        invariant (rowAt (sheet w') r)).
Proof.
  intros Ht. split.
  - destruct Ht as [row nodeUrl w0|nodes w0|nodes w0]; intros Hinv.
    + by apply monitorNode_invariant.
    + by apply checkBlockDelay_invariant.
    + by apply processNotifications_invariant.
  - intros nodeUrl -> Hn. by apply invariant_established.
Qed.

Lemma invariant_preserved_witness :
  invariant
    (rowAt (sheet (exec (monitorNode 4 "https://a.example:3001")
                     unavailableEnv timedOutWorld)) 4)
  /\ invariant
       (rowAt (sheet (exec (monitorNode 9 "https://a.example:3001")
                        healthyEnv timedOutWorld)) 9).
Proof.
  split.
  - apply (invariant_preserved unavailableEnv timedOutWorld _ 4).
    + apply t_monitor.
    + vm_compute. split; split; intros H; try discriminate H.
      destruct H as [H _]. discriminate H.
  - apply (proj2 (invariant_preserved healthyEnv timedOutWorld _ 9
                    (t_monitor _ 9%nat "https://a.example:3001" _))
             "https://a.example:3001" eq_refl).
    vm_compute. intros (_ & _ & H). discriminate H.
Defined.

(** A row that the operator has just added has an empty status cell and so
    is not Running, although its error type is empty.  When its first health
    call answers 503 the probe writes nothing; the scheduler then takes the
    row for one in error and stamps it, with the error type still empty.
    After either transition the row fails the invariant. *)
Lemma invariant_preserved_counterexample :
  let node := {| n_row := 4; n_url := "https://a.example:3001" |} in
  let w1 := exec (monitorNode 4 "https://a.example:3001") unavailableEnv
                 newRowWorld in
  let w2 := exec (processNotifications [node]) unavailableEnv w1 in
  transition unavailableEnv newRowWorld w1
  /\ transition unavailableEnv w1 w2
  /\ ~ invariant (rowAt (sheet w1) 4)
  /\ ~ invariant (rowAt (sheet w2) 4)
  /\ rowAt (sheet w2) 4
     = nodeRow "https://a.example:3001" "" "" None None (Some 1001).
Proof.
  intros node w1 w2.
  split; [apply t_monitor|]. split; [apply t_notify|].
  split; [|split; [|reflexivity]].
  - intros [H _]. vm_compute in H. destruct H as [_ H].
    specialize (H eq_refl). discriminate H.
  - intros [H _]. vm_compute in H. destruct H as [_ H].
    specialize (H eq_refl). discriminate H.
Qed.

(** A blank row probed with a healthy answer satisfies the invariant
    afterwards. *)
Example invariant_after_first_probe :
  invariant
    (rowAt (sheet (exec (monitorNode 9 "https://a.example:3001")
                     healthyEnv timedOutWorld)) 9).
Proof.
  apply invariant_established. unfold transportError. vm_compute.
  intros (_ & _ & H). discriminate H.
Qed.

(** A row that was never written (status cell still empty) is outside the
    invariant: it is not Running and its error type is empty. *)
Example blank_row_outside_invariant : ~ invariant blankRow.
Proof. intros [H _]. cbn in H. by destruct H as [_ H]; specialize (H eq_refl). Qed.

Lemma monitorNode_returns row nodeUrl e w :
  exists w', monitorNode row nodeUrl e w = (Ok tt, w').
Proof.
  destruct (health_cases (healthOf (fetch e (healthUrl nodeUrl))))
    as [H|[[H1 H2]|[H|[[H Hd]|[H Hd]]]]].
  - rewrite monitorNode_timeout by done. by eexists.
  - rewrite monitorNode_sslError by done. by eexists.
  - destruct (monitorNode_transportError row nodeUrl e w H) as [line ->].
    by eexists.
  - rewrite monitorNode_degraded by done. by eexists.
  - destruct (monitorNode_recovered row nodeUrl e w H Hd) as [lines ->].
    by eexists.
Qed.

Lemma checkBlockDelay_returns nodes e w :
  exists w', checkBlockDelay nodes e w = (Ok tt, w').
Proof.
  destruct ((fleetMax (sheet w) nodes =? 0)
            || negb (JS.truthyNum (G1 (sheet w)))) eqn:E.
  - rewrite checkBlockDelay_idle by done. by eexists.
  - destruct (checkBlockDelay_active nodes e w E) as (w' & -> & _). by eexists.
Qed.

Lemma getMonitoringNodes_loop (l : list nat) acc e w :
  exists nodes,
    forEachAcc l acc
      (fun nodes row =>
         url <- getValue row NODE_URL ;;
         disabled <- getValue row DISABLED ;;
         if JS.truthyStr url && negb (String.eqb (JS.trim url) "")
            && negb (String.eqb disabled "無効") then
           ret (nodes ++ [{| n_row := row; n_url := JS.trim url |}])
         else ret nodes) e w
    = (Ok nodes, w).
Proof.
  revert acc. induction l as [|row l IH]; intros acc.
  - by eexists.
  - cbn [forEachAcc].
    match goal with
    | |- exists nodes, bind ?m _ e w = _ =>
        assert (Hb : exists nodes', m e w = (Ok nodes', w))
    end.
    { erewrite bind_Ok by reflexivity. erewrite bind_Ok by reflexivity.
      match goal with
      | |- exists nodes', (if ?c then _ else _) e w = _ =>
          destruct c; by eexists
      end. }
    destruct Hb as [nodes' Hb]. erewrite bind_Ok by apply Hb. apply IH.
Qed.

Lemma getMonitoringNodes_run e w :
  exists nodes, getMonitoringNodes e w = (Ok nodes, w).
Proof.
  unfold getMonitoringNodes. erewrite bind_Ok by reflexivity.
  apply getMonitoringNodes_loop.
Qed.

Lemma probes_invariant nodes e w r :
  invariant (rowAt (sheet w) r) ->
  exists w',
    forEach nodes (fun node => monitorNode (n_row node) (n_url node)) e w
    = (Ok tt, w')
    /\ invariant (rowAt (sheet w') r).
Proof.
  revert w. induction nodes as [|n ns IH]; intros w Hinv.
  - by exists w.
  - cbn [forEach].
    destruct (monitorNode_returns (n_row n) (n_url n) e w) as [w1 H1].
    erewrite bind_Ok by apply H1. apply IH.
    replace w1 with (exec (monitorNode (n_row n) (n_url n)) e w)
      by (unfold exec; by rewrite H1).
    by apply monitorNode_invariant.
Qed.

(** A whole pass over a sheet returns normally and preserves the record
    invariant on every row. *)
Lemma pass_invariant sheetName enableNotification e w r :
  invariant (rowAt (sheet w) r) ->
  result (processSheet sheetName enableNotification) e w = Ok tt
  /\ invariant (rowAt (sheet (exec (processSheet sheetName enableNotification)
                                e w)) r).
Proof.
  intros Hinv. unfold result, exec, processSheet.
  destruct (getMonitoringNodes_run e w) as [nodes Hn].
  erewrite bind_Ok by apply Hn.
  destruct (length nodes =? 0)%nat; [done|].
  destruct (probes_invariant nodes e w r Hinv) as (w1 & H1 & Hinv1).
  erewrite bind_Ok by apply H1.
  destruct (checkBlockDelay_returns nodes e w1) as [w2 H2].
  erewrite bind_Ok by apply H2.
  assert (Hinv2 : invariant (rowAt (sheet w2) r)).
  { replace w2 with (exec (checkBlockDelay nodes) e w1)
      by (unfold exec; by rewrite H2).
    by apply checkBlockDelay_invariant. }
  destruct enableNotification; [|done].
  destruct (processNotifications_run nodes e w2) as [lines H3].
  split; [by rewrite H3|].
  change (snd (processNotifications nodes e w2))
    with (exec (processNotifications nodes) e w2).
  by apply processNotifications_invariant.
Qed.

(** ** C2: the detection time is written once *)

Lemma errorDetected_flagRow st et now r t :
  errorDetected r = Some t -> errorDetected (flagRow st et now r) = Some t.
Proof. intros H. unfold flagRow. cbn. by rewrite H. Qed.

(** C2. A detection time that is set survives every transition of a pass
    after which the node is still not Running: a Timeout, certificate or
    degraded outcome and a block-delay flagging overwrite the status and
    the error type but not the detection time. *)
Theorem detection_time_kept e w w' r t :
  transition e w w' ->
  errorDetected (rowAt (sheet w) r) = Some t ->
  status (rowAt (sheet w') r) <> STATUS_TYPES.RUNNING ->
  errorDetected (rowAt (sheet w') r) = Some t.
Proof.
  intros [row nodeUrl w0|nodes w0|nodes w0] Ht; unfold exec.
  - destruct (health_cases (healthOf (fetch e (healthUrl nodeUrl))))
      as [H|[[H1 H2]|[H|[[H Hd]|[H Hd]]]]].
    + rewrite monitorNode_timeout by done. cbn [snd sheet].
      rewrite rowAt_updRow. case_decide; [subst|done].
      intros _. cbn. by rewrite Ht.
    + rewrite monitorNode_sslError by done. cbn [snd sheet].
      rewrite rowAt_updRow. case_decide; [subst|done].
      intros _. cbn. by rewrite Ht.
    + by destruct (monitorNode_transportError row nodeUrl e w0 H) as [line ->].
    + rewrite monitorNode_degraded by done. cbn [snd sheet].
      rewrite rowAt_updRow. case_decide; [subst|done].
      intros _. cbn. by rewrite Ht.
    + destruct (monitorNode_recovered row nodeUrl e w0 H Hd) as [lines ->].
      cbn [snd sheet]. rewrite rowAt_updRow. case_decide; [subst|done].
      cbn. done.
  - destruct ((fleetMax (sheet w0) nodes =? 0)
              || negb (JS.truthyNum (G1 (sheet w0)))) eqn:E.
    + by rewrite checkBlockDelay_idle.
    + destruct (checkBlockDelay_active nodes e w0 E)
        as (w1 & -> & _ & _ & _ & Hrows).
      cbn [snd]. destruct (Hrows r) as [Hyes Hno].
      destruct (decide (listed nodes r
                        /\ lags (fleetMax (sheet w0) nodes
                                 - default 0 (G1 (sheet w0)))
                             (rowAt (sheet w0) r) = true)) as [[Hin Hlg]|Hn].
      * destruct (Hyes Hin Hlg) as [now ->]. intros _.
        by apply errorDetected_flagRow.
      * by rewrite Hno.
  - destruct (processNotifications_run nodes e w0) as [lines ->]. cbn [snd].
    destruct (notificationTargets (clock e (ticks w0)) (sheet w0) nodes)
      as [|tg ts] eqn:E; [done|].
    cbn [sheet]. rewrite rowAt_stamp. by case_decide.
Qed.

(** The scenario of the specification: a node in Error/Timeout since time 7
    gets a degraded answer; the detection time stays 7. *)
Lemma detection_time_kept_witness :
  errorDetected
    (rowAt (sheet (exec (monitorNode 4 "https://a.example:3001")
                     degradedEnv timedOutWorld)) 4)
  = Some 7.
Proof.
  apply (detection_time_kept degradedEnv timedOutWorld _ 4 7).
  - apply t_monitor.
  - reflexivity.
  - vm_compute. discriminate.
Defined.

Example kind_changes_time_stays :
  errorType (rowAt (sheet timedOutWorld) 4) = ERROR_TYPES.TIMEOUT
  /\ errorType
       (rowAt (sheet (exec (monitorNode 4 "https://a.example:3001")
                        degradedEnv timedOutWorld)) 4)
     = ERROR_TYPES.DB_API.
Proof. split; reflexivity. Qed.

(** ** C3: the block-delay detector *)

Lemma fleetMaxFrom_spec sh nodes acc :
  acc <= fleetMaxFrom sh nodes acc
  /\ (forall r h, listed nodes r -> blockHeight (rowAt sh r) = Some h ->
      h <> 0 -> h <= fleetMaxFrom sh nodes acc)
  /\ (fleetMaxFrom sh nodes acc = acc
      \/ exists r, listed nodes r
                   /\ blockHeight (rowAt sh r) = Some (fleetMaxFrom sh nodes acc)).
Proof.
  revert acc. induction nodes as [|n ns IH]; intros acc.
  - cbn. split; [lia|]. split; [|by left].
    intros r h H. by apply listed_nil in H.
  - cbn [fleetMaxFrom fold_left].
    set (acc' := if JS.truthyNum (blockHeight (rowAt sh (n_row n)))
                    && (acc <? default 0 (blockHeight (rowAt sh (n_row n))))
                 then default 0 (blockHeight (rowAt sh (n_row n))) else acc).
    destruct (IH acc') as (Hle & Hall & Hex).
    fold (fleetMaxFrom sh ns acc').
    assert (Hacc : acc <= acc'
                   /\ (forall h, blockHeight (rowAt sh (n_row n)) = Some h ->
                                 h <> 0 -> h <= acc')
                   /\ (acc' = acc
                       \/ blockHeight (rowAt sh (n_row n)) = Some acc')).
    { subst acc'. destruct (blockHeight (rowAt sh (n_row n))) as [h|]; cbn.
      - destruct (negb (h =? 0)) eqn:E0; cbn.
        + destruct (acc <? h) eqn:E1.
          * split; [lia|]. split; [|by right]. intros ? [= <-] _. lia.
          * split; [lia|]. split; [|by left]. intros ? [= <-] _. lia.
        + split; [lia|]. split; [|by left]. intros ? [= <-] ?. lia.
      - split; [lia|]. split; [|by left]. intros ? [=]. }
    destruct Hacc as (Hacc1 & Hacc2 & Hacc3).
    split; [lia|]. split.
    + intros r h Hin Hh Hne. apply listed_cons in Hin as [->|Hin].
      * specialize (Hacc2 h Hh Hne). lia.
      * by eapply Hall.
    + destruct Hex as [Heq|(r & Hin & Hr)].
      * rewrite Heq. destruct Hacc3 as [->|Hn]; [by left|].
        right. exists (n_row n). split; [apply listed_cons; by left|done].
      * right. exists r. split; [apply listed_cons; by right|done].
Qed.

Lemma lags_iff m r :
  lags m r = true
  <-> exists h, blockHeight r = Some h /\ h <> 0 /\ h < m.
Proof.
  unfold lags. destruct (blockHeight r) as [h|]; cbn.
  - rewrite andb_true_iff, negb_true_iff, Z.eqb_neq, Z.ltb_lt. naive_solver.
  - naive_solver.
Qed.

Lemma CodeJs_checkBlockDelay_idle nodes e w :
  negb (JS.truthyNum (C1 (sheet w))) || negb (JS.truthyNum (G1 (sheet w))) = true ->
  sheet (exec (CodeJs.checkBlockDelay nodes) e w) = sheet w.
Proof.
  intros H. unfold exec, CodeJs.checkBlockDelay.
  erewrite bind_Ok by reflexivity. erewrite bind_Ok by reflexivity.
  by rewrite H.
Qed.

Lemma CodeJs_checkBlockDelay_active nodes e w :
  negb (JS.truthyNum (C1 (sheet w))) || negb (JS.truthyNum (G1 (sheet w))) = false ->
  let m := default 0 (C1 (sheet w)) - default 0 (G1 (sheet w)) in
  exists w',
    CodeJs.checkBlockDelay nodes e w = (Ok tt, w')
    /\ C1 (sheet w') = C1 (sheet w) /\ G1 (sheet w') = G1 (sheet w)
    /\ outbox w' = outbox w
    /\ forall r,
        (listed nodes r -> lags m (rowAt (sheet w) r) = true ->
         exists now,
           rowAt (sheet w') r
           = flagRow STATUS_TYPES.DELAY ERROR_TYPES.BLOCK_DELAY now
               (rowAt (sheet w) r))
        /\ (~ (listed nodes r /\ lags m (rowAt (sheet w) r) = true) ->
            rowAt (sheet w') r = rowAt (sheet w) r).
Proof.
  intros H m. unfold CodeJs.checkBlockDelay.
  erewrite bind_Ok by reflexivity. erewrite bind_Ok by reflexivity.
  rewrite H. fold m. clearbody m. clear H.
  apply flag_loop. clear w. intros n w.
  erewrite bind_Ok by reflexivity.
  cbn [read BLOCK_HEIGHT]. fold (lags m (rowAt (sheet w) (n_row n))).
  destruct (lags m (rowAt (sheet w) (n_row n))) eqn:E.
  - erewrite bind_Ok by apply setNodeError_run.
    eexists; split; [reflexivity|]. cbn.
    repeat split. intros r. rewrite rowAt_updRow.
    destruct (decide (r = n_row n)) as [->|Hne].
    + by rewrite decide_True.
    + rewrite decide_False; [done|naive_solver].
  - exists w. repeat split. intros r.
    rewrite decide_False; [done|]. intros [-> ?]. congruence.
Qed.

Lemma truthyNum_false v : JS.truthyNum v = false <-> v = None \/ v = Some 0.
Proof.
  destruct v as [n|]; cbn.
  - rewrite negb_false_iff, Z.eqb_eq. naive_solver.
  - naive_solver.
Qed.

Lemma truthyNum_true v : JS.truthyNum v = true <-> exists n, v = Some n /\ n <> 0.
Proof.
  destruct v as [n|]; cbn.
  - rewrite negb_true_iff, Z.eqb_neq. naive_solver.
  - naive_solver.
Qed.

(** C3, as the script has it.  In the current script the detector takes
    as maxHeight the largest stored height of the listed rows, or 0 when
    none is above 0; it does nothing when maxHeight is 0 or the threshold
    cell is empty or 0; otherwise it flags (status Delay, error type
    BlockDelay, detection time written only if empty) exactly the listed
    rows whose stored height is not empty, not 0 and below
    maxHeight - threshold, and leaves every other row as it was.  The
    earlier snapshot Code.js applies the same test with the content of the
    reference cell C1 in place of the computed maximum. *)
Theorem block_delay_detection nodes e w :
  let maxHeight := fleetMax (sheet w) nodes in
  let w' := exec (checkBlockDelay nodes) e w in
  let w2 := exec (CodeJs.checkBlockDelay nodes) e w in
  (0 <= maxHeight
   /\ (forall r h, listed nodes r -> blockHeight (rowAt (sheet w) r) = Some h ->
       h <= maxHeight)
   /\ (maxHeight = 0
       \/ exists r, listed nodes r
                    /\ blockHeight (rowAt (sheet w) r) = Some maxHeight))
  /\ (maxHeight = 0 \/ G1 (sheet w) = None \/ G1 (sheet w) = Some 0 -> w' = w)
  /\ (forall threshold r,
        maxHeight <> 0 -> G1 (sheet w) = Some threshold -> threshold <> 0 ->
        (listed nodes r
         /\ (exists h, blockHeight (rowAt (sheet w) r) = Some h
                       /\ h <> 0 /\ h < maxHeight - threshold) ->
         exists now,
           rowAt (sheet w') r
           = flagRow STATUS_TYPES.DELAY ERROR_TYPES.BLOCK_DELAY now
               (rowAt (sheet w) r))
        /\ (~ (listed nodes r
               /\ exists h, blockHeight (rowAt (sheet w) r) = Some h
                            /\ h <> 0 /\ h < maxHeight - threshold) ->
            rowAt (sheet w') r = rowAt (sheet w) r))
  /\ ((C1 (sheet w) = None \/ C1 (sheet w) = Some 0
       \/ G1 (sheet w) = None \/ G1 (sheet w) = Some 0) ->
      sheet w2 = sheet w)
  /\ (forall reference threshold r,
        C1 (sheet w) = Some reference -> reference <> 0 ->
        G1 (sheet w) = Some threshold -> threshold <> 0 ->
        (listed nodes r
         /\ (exists h, blockHeight (rowAt (sheet w) r) = Some h
                       /\ h <> 0 /\ h < reference - threshold) ->
         exists now,
           rowAt (sheet w2) r
           = flagRow STATUS_TYPES.DELAY ERROR_TYPES.BLOCK_DELAY now
               (rowAt (sheet w) r))
        /\ (~ (listed nodes r
               /\ exists h, blockHeight (rowAt (sheet w) r) = Some h
                            /\ h <> 0 /\ h < reference - threshold) ->
            rowAt (sheet w2) r = rowAt (sheet w) r)).
Proof.
  intros maxHeight w' w2.
  destruct (fleetMaxFrom_spec (sheet w) nodes 0) as (Hle & Hall & Hex).
  fold (fleetMax (sheet w) nodes) in Hle, Hall, Hex. fold maxHeight in Hle, Hall, Hex.
  split; [|split; [|split; [|split]]].
  - split; [done|]. split; [|done].
    intros r h Hin Hh. destruct (decide (h = 0)) as [->|Hne]; [done|].
    by eapply Hall.
  - intros H. subst w'. unfold exec. rewrite checkBlockDelay_idle; [done|].
    fold maxHeight. apply orb_true_iff.
    destruct H as [->|H]; [by left|right].
    apply negb_true_iff, truthyNum_false. done.
  - intros threshold r Hm Hg Ht.
    assert (E : (maxHeight =? 0) || negb (JS.truthyNum (G1 (sheet w))) = false).
    { apply orb_false_iff. split; [lia|].
      apply negb_false_iff, truthyNum_true. by exists threshold. }
    destruct (checkBlockDelay_active nodes e w E) as (w1 & Hrun & _ & _ & _ & Hrows).
    subst w'. unfold exec. rewrite Hrun. cbn [snd].
    fold maxHeight in Hrows. rewrite Hg in Hrows. cbn [default] in Hrows.
    destruct (Hrows r) as [Hyes Hno]. rewrite lags_iff in Hyes, Hno.
    split; [intros [Hin Hh]; by apply Hyes|exact Hno].
  - intros H. subst w2. apply CodeJs_checkBlockDelay_idle.
    apply orb_true_iff. rewrite !negb_true_iff, !truthyNum_false. naive_solver.
  - intros reference threshold r Hc Hr Hg Ht.
    assert (E : negb (JS.truthyNum (C1 (sheet w)))
                || negb (JS.truthyNum (G1 (sheet w))) = false).
    { apply orb_false_iff. rewrite !negb_false_iff, !truthyNum_true.
      split; eauto. }
    destruct (CodeJs_checkBlockDelay_active nodes e w E)
      as (w1 & Hrun & _ & _ & _ & Hrows).
    subst w2. unfold exec. rewrite Hrun. cbn [snd].
    rewrite Hc, Hg in Hrows. cbn [default] in Hrows.
    destruct (Hrows r) as [Hyes Hno]. rewrite lags_iff in Hyes, Hno.
    split; [intros [Hin Hh]; by apply Hyes|exact Hno].
Qed.

(** With maximum 1000 and threshold 50, the node at 940 is flagged and the
    nodes at 951 and at 0 are not; in Code.js with reference 900 the node
    at 940 is not flagged. *)
Lemma block_delay_detection_witness :
  (exists now,
      rowAt (sheet (exec (checkBlockDelay fleetNodes) silentEnv fleetWorld)) 5
      = flagRow STATUS_TYPES.DELAY ERROR_TYPES.BLOCK_DELAY now
          (rowAt (sheet fleetWorld) 5))
  /\ rowAt (sheet (exec (checkBlockDelay fleetNodes) silentEnv fleetWorld)) 6
     = rowAt (sheet fleetWorld) 6
  /\ rowAt (sheet (exec (checkBlockDelay fleetNodes) silentEnv fleetWorld)) 7
     = rowAt (sheet fleetWorld) 7
  /\ rowAt (sheet (exec (CodeJs.checkBlockDelay fleetNodes) silentEnv
                     referenceWorld)) 5
     = rowAt (sheet referenceWorld) 5.
Proof.
  destruct (block_delay_detection fleetNodes silentEnv fleetWorld)
    as (_ & _ & H & _).
  destruct (block_delay_detection fleetNodes silentEnv referenceWorld)
    as (_ & _ & _ & _ & H').
  split; [|split; [|split]]; cycle 3.
  - apply (H' 900 50 5%nat); [reflexivity|discriminate|reflexivity|discriminate|].
    intros [_ (h & Hh & _ & Hlt)]. vm_compute in Hh. injection Hh as <-.
    vm_compute in Hlt. discriminate Hlt.
  - apply (H 50 5%nat); [vm_compute; discriminate|reflexivity|discriminate|].
    split.
    + apply list_elem_of_In. cbn. tauto.
    + exists 940. split; [reflexivity|]. split; [discriminate|reflexivity].
  - apply (H 50 6%nat); [vm_compute; discriminate|reflexivity|discriminate|].
    intros [_ (h & Hh & _ & Hlt)]. vm_compute in Hh. injection Hh as <-.
    vm_compute in Hlt. discriminate Hlt.
  - apply (H 50 7%nat); [vm_compute; discriminate|reflexivity|discriminate|].
    intros [_ (h & Hh & Hne & _)]. vm_compute in Hh. injection Hh as <-.
    by apply Hne.
Defined.

(** C3, as stated, fails.  A row at height 0 has a known height that is
    below maxHeight - threshold = 950, and the current script does not flag
    it; and in Code.js, where the reference cell holds 900, the row at 940
    is not flagged although the largest height of the pass is 1000. *)
Lemma block_delay_detection_counterexample :
  (blockHeight (rowAt (sheet fleetWorld) 7) = Some 0
   /\ fleetMax (sheet fleetWorld) fleetNodes = 1000
   /\ G1 (sheet fleetWorld) = Some 50
   /\ 0 < 1000 - 50
   /\ status (rowAt (sheet (exec (checkBlockDelay fleetNodes) silentEnv
                              fleetWorld)) 7)
      = STATUS_TYPES.RUNNING)
  /\ (blockHeight (rowAt (sheet referenceWorld) 5) = Some 940
      /\ blockHeight (rowAt (sheet referenceWorld) 4) = Some 1000
      /\ G1 (sheet referenceWorld) = Some 50
      /\ 940 < 1000 - 50
      /\ status (rowAt (sheet (exec (CodeJs.checkBlockDelay fleetNodes)
                                 silentEnv referenceWorld)) 5)
         = STATUS_TYPES.RUNNING).
Proof. vm_compute. repeat split. Qed.

(** ** C4: chat and mail *)

Lemma CodeJs_mail_step_run (okLabel handlerLabel : string) subject message e w :
  exists lines,
    tryCatch
      (email <- resolveEmail ;;
       if JS.truthyOpt email then
         (transport (SendEmail (default "" email) subject message) ;;;
          log (okLabel +:+ default "" email))
       else ret tt)
      (fun error => log (handlerLabel +:+ error)) e w
    = (Ok tt, {| sheet := sheet w; ticks := ticks w;
                 outbox := outbox w ++ mailCalls e subject message;
                 console := console w ++ lines;
                 seen := seen w
                         ++ seenBy (sheet w) (mailCalls e subject message) |}).
Proof.
  destruct (resolveEmail_truthy e w) as (email & Hrun & Hyes & Hno).
  unfold tryCatch. erewrite bind_Ok by apply Hrun. unfold mailCalls.
  destruct (JS.truthyOpt email) eqn:E.
  - rewrite (Hyes eq_refl). unfold bind, transport, log. cbn.
    destruct (transportThrows e _); cbn; by eexists [_].
  - rewrite (Hno eq_refl). exists []. cbn. rewrite !app_nil_r. by destruct w.
Qed.

Lemma CodeJs_slack_step_run (handlerLabel : string) message e w :
  exists lines,
    tryCatch (CodeJs.sendSlackNotification message)
             (fun error => log (handlerLabel +:+ error)) e w
    = (Ok tt, {| sheet := sheet w; ticks := ticks w;
                 outbox := outbox w ++ slackCalls e message;
                 console := console w ++ lines;
                 seen := seen w ++ seenBy (sheet w) (slackCalls e message) |}).
Proof.
  unfold tryCatch, CodeJs.sendSlackNotification, bind, getProperty, slackCalls,
    slackConfigured, slackCall. cbn.
  destruct (JS.truthyOpt (scriptProperties e !! "SLACK_WEBHOOK_URL")); cbn.
  - unfold transport, log. cbn. destruct (transportThrows e _); cbn;
      by eexists [_].
  - destruct (JS.truthyOpt (scriptProperties e !! "SLACK_TOKEN")); cbn.
    + destruct (JS.truthyOpt (scriptProperties e !! "SLACK_CHANNEL")); cbn.
      * unfold transport, log. cbn. destruct (transportThrows e _); cbn;
          by eexists [_].
      * unfold log. cbn. eexists [_]. by rewrite !app_nil_r.
    + unfold log. cbn. eexists [_]. by rewrite !app_nil_r.
Qed.

Lemma CodeJs_sendNotification_run targets e w :
  exists lines,
    CodeJs.sendNotification targets e w
    = (Ok tt,
       {| sheet := stamp (clock e (ticks w)) targets (sheet w);
          ticks := S (ticks w);
          outbox := outbox w ++ mailCalls e (Wording "Symbolノード監視アラート")
                         (AlertMessage targets)
                    ++ slackCalls e (AlertMessage targets);
          console := console w ++ lines;
          seen := seen w
                  ++ seenBy (sheet w) (mailCalls e (Wording "Symbolノード監視アラート")
                       (AlertMessage targets) ++ slackCalls e (AlertMessage
                       targets)) |}).
Proof.
  unfold CodeJs.sendNotification.
  erewrite bind_Ok by reflexivity.
  match goal with
  | |- context [bind (tryCatch ?m ?h) _ e ?w0] =>
      destruct (CodeJs_mail_step_run "メール通知送信完了: " "メール通知エラー: "
                  (Wording "Symbolノード監視アラート")
                  (AlertMessage targets) e w0) as [l1 H1]
  end.
  erewrite bind_Ok by apply H1.
  match goal with
  | |- context [bind (tryCatch _ _) _ e ?w0] =>
      destruct (CodeJs_slack_step_run "Slack通知エラー: " (AlertMessage targets) e w0)
        as [l2 H2]
  end.
  erewrite bind_Ok by apply H2.
  rewrite forEach_stamp. exists (l1 ++ l2). cbn. unfold seenBy.
  by rewrite ?map_app, !app_assoc.
Qed.

Lemma CodeJs_sendRecoveryNotification_run nodeUrl e w :
  exists lines,
    CodeJs.sendRecoveryNotification nodeUrl e w
    = (Ok tt,
       {| sheet := sheet w; ticks := S (ticks w);
          outbox := outbox w ++ mailCalls e (Wording "Symbolノード監視 - 復旧通知")
                         (RecoveryMessage nodeUrl (clock e (ticks w)))
                    ++ slackCalls e (RecoveryMessage nodeUrl (clock e (ticks w)));
          console := console w ++ lines;
          seen := seen w
                  ++ seenBy (sheet w) (mailCalls e (Wording
                       "Symbolノード監視 - 復旧通知") (RecoveryMessage nodeUrl (clock e
                       (ticks w))) ++ slackCalls e (RecoveryMessage nodeUrl
                       (clock e (ticks w)))) |}).
Proof.
  unfold CodeJs.sendRecoveryNotification.
  erewrite bind_Ok by reflexivity.
  match goal with
  | |- context [bind (tryCatch ?m ?h) _ e ?w0] =>
      destruct (CodeJs_mail_step_run "復旧通知メール送信完了: "
                  "復旧通知メールエラー: "
                  (Wording "Symbolノード監視 - 復旧通知")
                  (RecoveryMessage nodeUrl (clock e (ticks w))) e w0) as [l1 H1]
  end.
  erewrite bind_Ok by apply H1.
  match goal with
  | |- context [tryCatch _ _ e ?w0] =>
      destruct (CodeJs_slack_step_run "復旧通知Slackエラー: "
                  (RecoveryMessage nodeUrl (clock e (ticks w))) e w0)
        as [l2 ->]
  end.
  exists (l1 ++ l2). cbn. unfold seenBy. by rewrite ?map_app, !app_assoc.
Qed.

Lemma slackCall_not_email e message : isEmail (slackCall e message) = false.
Proof. unfold slackCall. by destruct (JS.truthyOpt _). Qed.

(** C4, as the script has it.  In the current script, an alert dispatch
    and a recovery dispatch make one chat call and send no direct mail when
    chat is configured; when it is not, their only transport call is a
    direct mail to the resolved operator address, and they make no call
    when no address resolves.  In the earlier snapshot Code.js the direct
    mail to the resolved address goes out whether or not chat is
    configured. *)
Theorem chat_or_mail targets nodeUrl e w :
  let alert := exec (sendNotification targets) e w in
  let recovery := exec (sendRecoveryNotification nodeUrl) e w in
  let now := clock e (ticks w) in
  (slackConfigured e = true ->
   outbox alert = outbox w ++ [slackCall e (AlertMessage targets)]
   /\ outbox recovery
      = outbox w ++ [slackCall e (RecoveryMessage nodeUrl now)]
   /\ forall message, isEmail (slackCall e message) = false)
  /\ (forall a, slackConfigured e = false -> operatorAddress e = Some a ->
      outbox alert
      = outbox w ++ [SendEmail a (AlertSubject targets) (AlertMessage targets)]
      /\ outbox recovery
         = outbox w ++ [SendEmail a (RecoverySubject nodeUrl)
                          (RecoveryMessage nodeUrl now)])
  /\ (slackConfigured e = false -> operatorAddress e = None ->
      outbox alert = outbox w /\ outbox recovery = outbox w)
  /\ (forall a, operatorAddress e = Some a ->
      In (SendEmail a (Wording "Symbolノード監視アラート") (AlertMessage targets))
         (outbox (exec (CodeJs.sendNotification targets) e w))
      /\ In (SendEmail a (Wording "Symbolノード監視 - 復旧通知")
               (RecoveryMessage nodeUrl now))
            (outbox (exec (CodeJs.sendRecoveryNotification nodeUrl) e w))).
Proof.
  intros alert recovery now. subst alert recovery. unfold exec.
  destruct (sendNotification_run targets e w) as [l1 ->].
  destruct (sendRecoveryNotification_run nodeUrl e w) as [l2 ->].
  destruct (CodeJs_sendNotification_run targets e w) as [l3 ->].
  destruct (CodeJs_sendRecoveryNotification_run nodeUrl e w) as [l4 ->].
  cbn [snd outbox]. unfold dispatched, mailCalls.
  split; [|split; [|split]].
  - intros ->. repeat split. apply slackCall_not_email.
  - intros a -> ->. by split.
  - intros -> ->. by rewrite !app_nil_r.
  - intros a ->. split; apply in_or_app; right; apply in_or_app; left; by left.
Qed.

Lemma chat_or_mail_witness :
  outbox (exec (sendNotification timedOutTargets) chatAndMailEnv timedOutWorld)
  = [PostWebhook "https://hooks.example/T000" (AlertMessage timedOutTargets)]
  /\ outbox (exec (sendNotification timedOutTargets) mailOnlyEnv timedOutWorld)
     = [SendEmail "ops@example.org" (AlertSubject timedOutTargets)
          (AlertMessage timedOutTargets)].
Proof.
  split.
  - destruct (chat_or_mail timedOutTargets "https://a.example:3001"
                chatAndMailEnv timedOutWorld) as (H & _).
    apply H. reflexivity.
  - destruct (chat_or_mail timedOutTargets "https://a.example:3001"
                mailOnlyEnv timedOutWorld) as (_ & H & _).
    apply (H "ops@example.org"); reflexivity.
Defined.

(** C4, as stated, fails on Code.js: with a chat webhook configured, its
    alert dispatch and its recovery dispatch still send the direct mail. *)
Lemma chat_or_mail_counterexample :
  slackConfigured chatAndMailEnv = true
  /\ outbox (exec (CodeJs.sendNotification timedOutTargets) chatAndMailEnv
               timedOutWorld)
     = [SendEmail "ops@example.org" (Wording "Symbolノード監視アラート")
          (AlertMessage timedOutTargets);
        PostWebhook "https://hooks.example/T000" (AlertMessage timedOutTargets)]
  /\ outbox (exec (CodeJs.sendRecoveryNotification "https://a.example:3001")
               chatAndMailEnv timedOutWorld)
     = [SendEmail "ops@example.org" (Wording "Symbolノード監視 - 復旧通知")
          (RecoveryMessage "https://a.example:3001" 1000);
        PostWebhook "https://hooks.example/T000"
          (RecoveryMessage "https://a.example:3001" 1000)].
Proof. repeat split. Qed.

(** ** C5: recovery *)

Lemma monitorNode_recovered_seq row nodeUrl e w :
  let hr := healthOf (fetch e (healthUrl nodeUrl)) in
  healthy hr ->
  degraded hr = false ->
  monitorNode row nodeUrl e w = clearNodeError row e (stored row nodeUrl e w).
Proof.
  intros hr (H1 & H2 & H3) Hd. unfold monitorNode, tryCatch, stored.
  erewrite bind_Ok by apply checkNodeHealth_run.
  fold hr. rewrite H1, H2, H3.
  erewrite bind_Ok by apply setValue_run.
  erewrite bind_Ok by apply setValue_run.
  destruct (getChainHeight_run nodeUrl e
              {| sheet := updRow (updRow (sheet w) row (write DB (hr_db hr)))
                            row (write API (hr_api hr));
                 ticks := ticks w; outbox := outbox w; console := console w;
                 seen := seen w |})
    as [err Hc].
  cbn [sheet ticks outbox console seen].
  erewrite bind_Ok by apply Hc. cbn [cr_height].
  unfold degraded in Hd. rewrite Hd.
  destruct (heightOf (fetch e (chainUrl nodeUrl))) as [h|].
  - erewrite bind_Ok by apply setValue_run. cbn [sheet ticks outbox console seen].
    rewrite !updRow_updRow.
    set (w2 := {| sheet := updRow (sheet w) row (storeHealth hr (Some h));
                  ticks := ticks w; outbox := outbox w; console := console w;
                  seen := seen w |}).
    destruct (clearNodeError_run row e w2) as [lines Hrun]. rewrite Hrun.
    match goal with
    | |- context [clearNodeError row e ?w1] => change w1 with w2
    end.
    by rewrite Hrun.
  - erewrite bind_Ok by reflexivity. rewrite !updRow_updRow.
    set (w2 := {| sheet := updRow (sheet w) row (storeHealth hr None);
                  ticks := ticks w; outbox := outbox w; console := console w;
                  seen := seen w |}).
    destruct (clearNodeError_run row e w2) as [lines Hrun]. rewrite Hrun.
    match goal with
    | |- context [clearNodeError row e ?w1] => change w1 with w2
    end.
    by rewrite Hrun.
Qed.

Lemma clearNodeError_sequence row e w t :
  lastNotified (rowAt (sheet w) row) = Some t ->
  clearNodeError row e w
  = (setValue row STATUS STATUS_TYPES.RUNNING ;;;
     setValue row ERROR_TYPE "" ;;;
     setValue row ERROR_DETECTED None ;;;
     setValue row LAST_NOTIFIED None) e
      (exec (sendRecoveryNotification (url (rowAt (sheet w) row))) e w).
Proof.
  intros H. unfold clearNodeError.
  erewrite bind_Ok by reflexivity. erewrite bind_Ok by reflexivity.
  cbn [read LAST_NOTIFIED NODE_URL]. rewrite H. cbn [JS.truthyDate].
  unfold exec.
  destruct (sendRecoveryNotification_run (url (rowAt (sheet w) row)) e w)
    as [lines Hrun].
  erewrite bind_Ok by apply Hrun. by rewrite Hrun.
Qed.

Lemma dispatched_length e subject message :
  length (dispatched e subject message)
  = if slackConfigured e then 1%nat
    else match operatorAddress e with Some _ => 1%nat | None => 0%nat end.
Proof.
  unfold dispatched, mailCalls. destruct (slackConfigured e); [done|].
  by destruct (operatorAddress e).
Qed.

(** C5. When the health result of a node (what [checkNodeHealth]
    returns) reports db "up" and api "up", [monitorNode] returns normally
    and leaves the row Running with the error type, the detection time and
    the last-notified time empty.  If the last-notified cell was empty,
    nothing is sent.  If it was set, the recovery notifier is run once and
    the four clearing writes follow it: the notifier makes one transport
    call when chat or an operator address is configured and none when
    neither is, and the sheet as it stands at that call still holds the
    status, the error type, the detection time and the last-notified time
    that the row had before the probe. *)
Theorem recovery_notifies_once row nodeUrl e w :
  let hr := healthOf (fetch e (healthUrl nodeUrl)) in
  let before := rowAt (sheet w) row in
  let w' := exec (monitorNode row nodeUrl) e w in
  let now := clock e (ticks w) in
  let notice := dispatched e (RecoverySubject (url before))
                  (RecoveryMessage (url before) now) in
  healthy hr -> hr_db hr = "up" -> hr_api hr = "up" ->
  checkNodeHealth nodeUrl e w = (Ok hr, w)
  /\ result (monitorNode row nodeUrl) e w = Ok tt
  /\ status (rowAt (sheet w') row) = STATUS_TYPES.RUNNING
  /\ errorType (rowAt (sheet w') row) = ""
  /\ errorDetected (rowAt (sheet w') row) = None
  /\ lastNotified (rowAt (sheet w') row) = None
  /\ (lastNotified before = None ->
      outbox w' = outbox w /\ seen w' = seen w)
  /\ (forall t, lastNotified before = Some t ->
      w' = exec (setValue row STATUS STATUS_TYPES.RUNNING ;;;
                 setValue row ERROR_TYPE "" ;;;
                 setValue row ERROR_DETECTED None ;;;
                 setValue row LAST_NOTIFIED None) e
             (exec (sendRecoveryNotification (url before)) e
                (stored row nodeUrl e w))
      /\ outbox w' = outbox w ++ notice
      /\ length notice
         = (if slackConfigured e then 1%nat
            else match operatorAddress e with
                 | Some _ => 1%nat
                 | None => 0%nat
                 end)
      /\ exists atCall,
           seen w' = seen w ++ seenBy atCall notice
           /\ status (rowAt atCall row) = status before
           /\ errorType (rowAt atCall row) = errorType before
           /\ errorDetected (rowAt atCall row) = errorDetected before
           /\ lastNotified (rowAt atCall row) = Some t).
Proof.
  intros hr before w' now notice Hh Hdb Hapi.
  split; [apply checkNodeHealth_run|].
  assert (Hd : degraded hr = false).
  { unfold degraded. by rewrite Hdb, Hapi. }
  assert (Hseq : forall t, lastNotified before = Some t ->
            w' = exec (setValue row STATUS STATUS_TYPES.RUNNING ;;;
                       setValue row ERROR_TYPE "" ;;;
                       setValue row ERROR_DETECTED None ;;;
                       setValue row LAST_NOTIFIED None) e
                   (exec (sendRecoveryNotification (url before)) e
                      (stored row nodeUrl e w))).
  { intros t Ht. subst w'. unfold exec at 1 2.
    rewrite monitorNode_recovered_seq by done.
    assert (Hrow : rowAt (sheet (stored row nodeUrl e w)) row
                   = storeHealth hr (heightOf (fetch e (chainUrl nodeUrl))) before).
    { unfold stored. cbn [sheet]. by rewrite rowAt_updRow_eq. }
    erewrite clearNodeError_sequence by (rewrite Hrow; exact Ht).
    by rewrite Hrow. }
  destruct (monitorNode_recovered row nodeUrl e w Hh Hd) as [lines Hrun].
  split; [unfold result; by rewrite Hrun|].
  assert (Hw : w' = snd (monitorNode row nodeUrl e w)) by done.
  rewrite Hrun in Hw. cbn [snd] in Hw. clearbody w'. subst w'.
  cbn [sheet outbox seen]. rewrite rowAt_updRow_eq.
  cbn [clearRow status errorType errorDetected lastNotified].
  split; [done|]. split; [done|]. split; [done|]. split; [done|].
  unfold recoveryCalls. fold before. split.
  - intros Hn. rewrite Hn. cbn [seenBy map]. by rewrite !app_nil_r.
  - intros t Ht. split; [exact (Hseq t Ht)|].
    rewrite Ht. fold now. fold notice. split; [done|].
    split; [apply dispatched_length|].
    eexists. split; [reflexivity|].
    rewrite rowAt_updRow_eq. cbn.
    split; [done|]. split; [done|]. split; [done|]. exact Ht.
Qed.

(** An alerted node that answers healthy: one mail goes out and the row is
    cleared; the sheet as it stood when the mail went out holds the row in
    Error, alerted at time 9. *)
Lemma recovery_notifies_once_witness :
  let w' := exec (monitorNode 4 "https://a.example:3001") healthyEnv
                 alertedWorld in
  status (rowAt (sheet w') 4) = STATUS_TYPES.RUNNING
  /\ outbox w'
     = [SendEmail "ops@example.org"
          (RecoverySubject "https://a.example:3001")
          (RecoveryMessage "https://a.example:3001" 2000)]
  /\ exists atCall,
       seen w' = [atCall]
       /\ status (rowAt atCall 4) = STATUS_TYPES.ERROR
       /\ lastNotified (rowAt atCall 4) = Some 9.
Proof.
  destruct (recovery_notifies_once 4 "https://a.example:3001" healthyEnv
              alertedWorld) as (_ & _ & H1 & _ & _ & _ & _ & H2).
  - repeat split.
  - reflexivity.
  - reflexivity.
  - split; [exact H1|].
    destruct (H2 9 eq_refl) as (_ & H3 & _ & atCall & H4 & H5 & _ & _ & H6).
    split; [exact H3|]. exists atCall.
    split; [exact H4|]. split; [exact H5|exact H6].
Defined.

(** An alerted node that answers healthy while neither chat nor an
    operator address is configured: the row is cleared and no notification
    goes out. *)
Lemma recovery_notifies_once_counterexample :
  let hr := healthOf (fetch unnotifiableEnv
                        (healthUrl "https://a.example:3001")) in
  let w' := exec (monitorNode 4 "https://a.example:3001") unnotifiableEnv
                 alertedWorld in
  lastNotified (rowAt (sheet alertedWorld) 4) = Some 9
  /\ healthy hr /\ hr_db hr = "up" /\ hr_api hr = "up"
  /\ status (rowAt (sheet w') 4) = STATUS_TYPES.RUNNING
  /\ lastNotified (rowAt (sheet w') 4) = None
  /\ outbox w' = []
  /\ ~ (exists notification, outbox w' = [notification]).
Proof.
  intros hr w'.
  assert (Hout : outbox w' = []) by reflexivity.
  split; [reflexivity|]. split; [by repeat split|].
  split; [reflexivity|]. split; [reflexivity|]. split; [reflexivity|].
  split; [reflexivity|]. split; [exact Hout|].
  intros [c Hc]. rewrite Hout in Hc. discriminate Hc.
Qed.

(** ** C7: which rows are due *)

Lemma due_iff now r :
  due now r = true
  <-> status r <> STATUS_TYPES.RUNNING
      /\ (lastNotified r = None
          \/ exists t, lastNotified r = Some t
                       /\ NOTIFICATION_INTERVAL <= now - t).
Proof.
  unfold due. rewrite andb_true_iff, negb_true_iff, String.eqb_neq, orb_true_iff.
  destruct (lastNotified r) as [t|]; cbn -[NOTIFICATION_INTERVAL].
  - rewrite Z.leb_le. naive_solver.
  - naive_solver.
Qed.

(** C7. The batch that [processNotifications] hands to the notifier
    consists of the listed rows that are due at the time [now] read at the
    start of the call.  A listed row that is not Running is in the batch
    iff its last-notified cell is empty or holds a time at least 30 minutes
    before [now]; a Running row and an unlisted row are never in it. *)
Theorem scheduler_batch nodes e w r :
  let now := clock e (ticks w) in
  let batch := notificationTargets now (sheet w) nodes in
  result (processNotifications nodes) e w = Ok tt
  /\ outbox (exec (processNotifications nodes) e w)
     = outbox w ++ match batch with
                   | [] => []
                   | _ :: _ =>
                       dispatched e (AlertSubject batch) (AlertMessage batch)
                   end
  /\ (listed nodes r -> status (rowAt (sheet w) r) <> STATUS_TYPES.RUNNING ->
      (r ∈ map t_row batch
       <-> lastNotified (rowAt (sheet w) r) = None
           \/ exists t, lastNotified (rowAt (sheet w) r) = Some t
                        /\ 30 * 60 * 1000 <= now - t))
  /\ (status (rowAt (sheet w) r) = STATUS_TYPES.RUNNING ->
      r ∉ map t_row batch)
  /\ (~ listed nodes r -> r ∉ map t_row batch).
Proof.
  intros now batch. split; [|split; [|split; [|split]]].
  - unfold result. by destruct (processNotifications_run nodes e w) as [lines ->].
  - unfold exec. destruct (processNotifications_run nodes e w) as [lines ->].
    cbn [snd]. fold now. fold batch. destruct batch; cbn [outbox]; [|done].
    by rewrite !app_nil_r.
  - intros Hin Hst. subst batch. rewrite target_rows, due_iff. naive_solver.
  - intros Hst. subst batch. rewrite target_rows, due_iff. naive_solver.
  - intros Hn. subst batch. rewrite target_rows. naive_solver.
Qed.

(** At time 10000000: the row never alerted and the row alerted 31 minutes
    ago are in the batch, the row alerted 20 minutes ago is not. *)
Lemma scheduler_batch_witness :
  (4%nat ∈ map t_row (notificationTargets 10000000 (sheet schedulerWorld) fleetNodes))
  /\ (5%nat ∉ map t_row (notificationTargets 10000000 (sheet schedulerWorld) fleetNodes))
  /\ (6%nat ∈ map t_row (notificationTargets 10000000 (sheet schedulerWorld) fleetNodes)).
Proof.
  assert (Hl : forall r, In r [4; 5; 6; 7]%nat -> listed fleetNodes r).
  { intros r H. by apply list_elem_of_In. }
  split; [|split].
  - destruct (scheduler_batch fleetNodes schedulerEnv schedulerWorld 4)
      as (_ & _ & H & _).
    apply H; [apply Hl; cbn; tauto|vm_compute; discriminate|].
    left. reflexivity.
  - destruct (scheduler_batch fleetNodes schedulerEnv schedulerWorld 5)
      as (_ & _ & H & _).
    intros Hin. apply H in Hin; [|apply Hl; cbn; tauto|vm_compute; discriminate].
    destruct Hin as [Hn|(t & Ht & Hle)]; [discriminate Hn|].
    vm_compute in Ht. injection Ht as <-. vm_compute in Hle. by apply Hle.
  - destruct (scheduler_batch fleetNodes schedulerEnv schedulerWorld 6)
      as (_ & _ & H & _).
    apply H; [apply Hl; cbn; tauto|vm_compute; discriminate|].
    right. eexists. split; [reflexivity|]. vm_compute. discriminate.
Defined.

(** ** C8: which rows are stamped *)

Lemma sendNotification_exact targets e w :
  sendNotification targets e w
  = (Ok tt,
     {| sheet := stamp (clock e (ticks w)) targets (sheet w);
        ticks := S (ticks w);
        outbox := outbox w
                  ++ dispatched e (AlertSubject targets) (AlertMessage targets);
        console := console w ++ alertLines e targets;
        seen := seen w
                ++ seenBy (sheet w) (dispatched e (AlertSubject targets)
                     (AlertMessage targets)) |}).
Proof.
  unfold sendNotification, alertLines.
  erewrite bind_Ok by reflexivity.
  erewrite bind_Ok by apply checkSlackConfiguration_run.
  unfold dispatched. destruct (slackConfigured e) eqn:Hs; cbn [negb].
  - erewrite bind_Ok by reflexivity.
    erewrite bind_Ok by apply slack_step_exact.
    rewrite forEach_stamp. cbn. unfold slackCalls. by rewrite Hs.
  - erewrite bind_Ok by apply mail_step_exact.
    erewrite bind_Ok by apply slack_step_exact.
    rewrite forEach_stamp. cbn. unfold slackCalls.
    rewrite Hs. by rewrite !app_nil_r, app_assoc.
Qed.

Lemma failureLines_In handlerLabel e calls c err :
  In c calls -> transportThrows e c = Some err ->
  In (handlerLabel +:+ err) (failureLines handlerLabel e calls).
Proof.
  intros Hin Hthrow. unfold failureLines. apply in_flat_map.
  exists c. split; [done|]. rewrite Hthrow. by left.
Qed.

(** C8.  [sendNotification] returns normally whatever the transports do.
    It writes the time read at its start into the last-notified cell of
    exactly the rows of its targets and changes no other row; a transport
    call that throws leaves a line on the console and changes none of
    this.  Within [processNotifications] the targets are the batch of the
    due rows, so exactly those rows are stamped. *)
Theorem stamped_exactly_the_batch targets nodes e w r :
  let now := clock e (ticks w) in
  let sent := exec (sendNotification targets) e w in
  let batch := notificationTargets now (sheet w) nodes in
  let pass := exec (processNotifications nodes) e w in
  result (sendNotification targets) e w = Ok tt
  /\ (r ∈ map t_row targets ->
      rowAt (sheet sent) r = write LAST_NOTIFIED (Some now) (rowAt (sheet w) r))
  /\ (r ∉ map t_row targets -> rowAt (sheet sent) r = rowAt (sheet w) r)
  /\ (forall c err,
        In c (dispatched e (AlertSubject targets) (AlertMessage targets)) ->
        transportThrows e c = Some err ->
        In ("メール通知エラー: " +:+ err) (console sent)
        \/ In ("Slack通知エラー: " +:+ err) (console sent))
  /\ (r ∈ map t_row batch ->
      rowAt (sheet pass) r
      = write LAST_NOTIFIED (Some (clock e (S (ticks w)))) (rowAt (sheet w) r))
  /\ (r ∉ map t_row batch -> rowAt (sheet pass) r = rowAt (sheet w) r).
Proof.
  intros now sent batch pass.
  subst sent pass. unfold exec, result.
  rewrite sendNotification_exact. cbn [fst snd sheet console].
  destruct (processNotifications_run nodes e w) as [lines ->]. cbn [snd].
  fold now. fold batch.
  split; [done|]. split; [|split; [|split; [|split]]].
  - intros Hin. rewrite rowAt_stamp. by rewrite decide_True.
  - intros Hn. rewrite rowAt_stamp. by rewrite decide_False.
  - intros c err Hin Hthrow. unfold alertLines, dispatched, slackLines in *.
    destruct (slackConfigured e).
    + right. apply in_or_app. right. cbn [app]. by eapply failureLines_In.
    + left. apply in_or_app. right. apply in_or_app. left.
      by eapply failureLines_In.
  - intros Hin. destruct batch as [|t ts] eqn:E.
    + by apply not_elem_of_nil in Hin.
    + cbn [sheet]. rewrite rowAt_stamp. by rewrite decide_True.
  - intros Hn. destruct batch as [|t ts] eqn:E; [done|].
    cbn [sheet]. rewrite rowAt_stamp. by rewrite decide_False.
Qed.

(** With every transport failing, the target row is stamped all the same
    and the failure is on the console. *)
Lemma stamped_exactly_the_batch_witness :
  lastNotified
    (rowAt (sheet (exec (sendNotification timedOutTargets)
                     (failingTransports mailOnlyEnv) timedOutWorld)) 4)
  = Some 1000
  /\ In ("メール通知エラー: Exception: Request failed")
        (console (exec (sendNotification timedOutTargets)
                    (failingTransports mailOnlyEnv) timedOutWorld)).
Proof.
  destruct (stamped_exactly_the_batch timedOutTargets fleetNodes
              (failingTransports mailOnlyEnv) timedOutWorld 4)
    as (_ & H1 & _ & H2 & _).
  split.
  - rewrite H1; [reflexivity|]. apply list_elem_of_In. by left.
  - destruct (H2 (SendEmail "ops@example.org" (AlertSubject timedOutTargets)
                    (AlertMessage timedOutTargets))
                 "Exception: Request failed"
                 (or_introl eq_refl) eq_refl) as [H|H].
    + exact H.
    + vm_compute in H. destruct H as [H|[H|[]]]; discriminate H.
Defined.

(** ** C9: the chain height *)

Lemma heightOf_Some f h :
  heightOf f = Some h
  <-> exists data, f = Response 200 (Json data)
                   /\ JS.parseInt (data_height data) = Some h.
Proof.
  unfold heightOf. split.
  - destruct f as [err|code [err| |data]]; try done.
    destruct (code =? 200) eqn:E; [|done].
    apply Z.eqb_eq in E as ->. by exists data.
  - by intros (data & -> & H).
Qed.

Lemma dispatched_same e e2 subject message :
  scriptProperties e2 = scriptProperties e ->
  activeUserEmail e2 = activeUserEmail e ->
  dispatched e2 subject message = dispatched e subject message.
Proof.
  intros Hp Ha.
  unfold dispatched, slackConfigured, slackCall, mailCalls, operatorAddress.
  by rewrite Hp, Ha.
Qed.

Lemma monitorNode_same_but_chain row nodeUrl e e2 w r :
  sameButChain nodeUrl e e2 ->
  withoutHeight (rowAt (sheet (exec (monitorNode row nodeUrl) e2 w)) r)
  = withoutHeight (rowAt (sheet (exec (monitorNode row nodeUrl) e w)) r)
  /\ outbox (exec (monitorNode row nodeUrl) e2 w)
     = outbox (exec (monitorNode row nodeUrl) e w).
Proof.
  intros (Hc & Hf & Ha & Hp & Ht). unfold exec.
  destruct (health_cases (healthOf (fetch e (healthUrl nodeUrl))))
    as [H|[[H1 H2]|[H|[[H Hd]|[H Hd]]]]].
  - rewrite !monitorNode_timeout by (by rewrite ?Hf). cbn [snd sheet outbox].
    rewrite !rowAt_updRow, Hc. done.
  - rewrite !monitorNode_sslError by (by rewrite ?Hf). cbn [snd sheet outbox].
    rewrite !rowAt_updRow, Hc. done.
  - destruct (monitorNode_transportError row nodeUrl e w H) as [l1 ->].
    rewrite <- Hf in H.
    destruct (monitorNode_transportError row nodeUrl e2 w H) as [l2 ->].
    done.
  - rewrite (monitorNode_degraded row nodeUrl e w) by done.
    rewrite (monitorNode_degraded row nodeUrl e2 w) by (by rewrite Hf).
    cbn [snd sheet outbox]. rewrite !rowAt_updRow, Hc, Hf.
    split; [|done]. case_decide; [|done].
    unfold withoutHeight, flagRow, storeHealth. cbn. done.
  - destruct (monitorNode_recovered row nodeUrl e w H Hd) as [l1 ->].
    rewrite <- Hf in H, Hd.
    destruct (monitorNode_recovered row nodeUrl e2 w H Hd) as [l2 ->].
    cbn [snd sheet outbox]. rewrite !rowAt_updRow, Hc, Hf. split.
    + case_decide; [|done]. done.
    + unfold recoveryCalls. destruct (lastNotified (rowAt (sheet w) row)); [|done].
      by rewrite (dispatched_same e e2).
Qed.

(** C9, as the script has it.  With [hr] the health result and [height]
    the height that the two calls of the prober return: [getChainHeight]
    never throws and changes nothing.  It returns a height exactly when the chain-info call answers
    200 with a body that parses and whose height field [parseInt] turns
    into a number (the leading integer of its text, negative ones
    included); in every other case the height is [null].  After a health
    call that produced health data, [monitorNode] stores a returned height
    and leaves the height cell as it was when none is returned.  Whatever
    the chain-info call does, every other cell written by the probe and the
    outbox are the same. *)
Theorem chain_height_attached row nodeUrl e w :
  let hr := healthOf (fetch e (healthUrl nodeUrl)) in
  let height := heightOf (fetch e (chainUrl nodeUrl)) in
  let w' := exec (monitorNode row nodeUrl) e w in
  checkNodeHealth nodeUrl e w = (Ok hr, w)
  /\ (exists err,
      getChainHeight nodeUrl e w
      = (Ok {| cr_height := height; cr_error := err |}, w))
  /\ (forall h,
        height = Some h
        <-> exists data,
              fetch e (chainUrl nodeUrl) = Response 200 (Json data)
              /\ JS.parseInt (data_height data) = Some h)
  /\ (forall h, healthy hr -> height = Some h ->
      blockHeight (rowAt (sheet w') row) = Some h)
  /\ (healthy hr -> height = None ->
      blockHeight (rowAt (sheet w') row) = blockHeight (rowAt (sheet w) row))
  /\ (forall e2 r, sameButChain nodeUrl e e2 ->
      withoutHeight (rowAt (sheet (exec (monitorNode row nodeUrl) e2 w)) r)
      = withoutHeight (rowAt (sheet w') r)
      /\ outbox (exec (monitorNode row nodeUrl) e2 w) = outbox w').
Proof.
  intros hr height w'. split; [apply checkNodeHealth_run|].
  split; [apply getChainHeight_run|].
  split; [intros h; apply heightOf_Some|].
  assert (Hrow : healthy hr ->
            blockHeight (rowAt (sheet w') row)
            = match height with
              | Some h => Some h
              | None => blockHeight (rowAt (sheet w) row)
              end).
  { intros Hh. subst w'. unfold exec.
    destruct (degraded hr) eqn:Hd.
    - rewrite monitorNode_degraded by done. cbn [snd sheet].
      by rewrite rowAt_updRow_eq.
    - destruct (monitorNode_recovered row nodeUrl e w Hh Hd) as [lines ->].
      cbn [snd sheet]. by rewrite rowAt_updRow_eq. }
  split; [|split].
  - intros h Hh Hs. rewrite Hrow by done. by rewrite Hs.
  - intros Hh Hn. rewrite Hrow by done. by rewrite Hn.
  - intros e2 r Hsame. by apply monitorNode_same_but_chain.
Qed.

(** A healthy node whose chain-info call answers 500 keeps its stored
    height 940; when the call answers height "1000" the height is stored;
    the rest of the row is the same in both cases. *)
Lemma chain_height_attached_witness :
  blockHeight (rowAt (sheet (exec (monitorNode 4 "https://a.example:3001")
                               chainDownEnv alertedWorld)) 4)
  = Some 940
  /\ blockHeight (rowAt (sheet (exec (monitorNode 4 "https://a.example:3001")
                                  healthyEnv alertedWorld)) 4)
     = Some 1000
  /\ withoutHeight
       (rowAt (sheet (exec (monitorNode 4 "https://a.example:3001")
                        chainDownEnv alertedWorld)) 4)
     = withoutHeight
         (rowAt (sheet (exec (monitorNode 4 "https://a.example:3001")
                          healthyEnv alertedWorld)) 4).
Proof.
  split; [|split]; cycle 2.
  - destruct (chain_height_attached 4 "https://a.example:3001" healthyEnv
                alertedWorld) as (_ & _ & _ & _ & _ & H).
    apply (H chainDownEnv 4%nat). repeat split.
  - destruct (chain_height_attached 4 "https://a.example:3001" chainDownEnv
                alertedWorld) as (_ & _ & _ & _ & H & _).
    rewrite H; [reflexivity|repeat split|reflexivity].
  - destruct (chain_height_attached 4 "https://a.example:3001" healthyEnv
                alertedWorld) as (_ & _ & _ & H & _).
    apply H; [repeat split|reflexivity].
Defined.

(** C9, as stated, fails: a chain-info answer with height "-5" is a height
    for the script, and the probe stores it. *)
Lemma chain_height_attached_counterexample :
  fetch negativeHeightEnv (chainUrl "https://a.example:3001")
  = Response 200 (chainBody "-5")
  /\ result (getChainHeight "https://a.example:3001") negativeHeightEnv
       alertedWorld
     = Ok {| cr_height := Some (-5); cr_error := None |}
  /\ blockHeight (rowAt (sheet (exec (monitorNode 4 "https://a.example:3001")
                                  negativeHeightEnv alertedWorld)) 4)
     = Some (-5)
  /\ -5 < 0.
Proof. repeat split. Qed.

(** ** C10: a stored height of 0 *)

Lemma fleetMaxFrom_agree sh sh0 row nodes acc :
  (forall r, r <> row -> rowAt sh r = rowAt sh0 r) ->
  JS.truthyNum (blockHeight (rowAt sh row)) = false ->
  JS.truthyNum (blockHeight (rowAt sh0 row)) = false ->
  fleetMaxFrom sh nodes acc = fleetMaxFrom sh0 nodes acc.
Proof.
  intros Hr H1 H2. revert acc. induction nodes as [|n ns IH]; intros acc; [done|].
  cbn [fleetMaxFrom fold_left].
  fold (fleetMaxFrom sh ns) (fleetMaxFrom sh0 ns).
  destruct (decide (n_row n = row)) as [->|Hne].
  - rewrite H1, H2. cbn [andb]. apply IH.
  - rewrite (Hr _ Hne). apply IH.
Qed.

Lemma delay_body_run m n e w :
  (currentHeight <- getValue (n_row n) BLOCK_HEIGHT ;;
   if JS.truthyNum currentHeight && (default 0 currentHeight <? m) then
     setNodeError (n_row n) STATUS_TYPES.DELAY ERROR_TYPES.BLOCK_DELAY
   else ret tt) e w
  = (Ok tt,
     if lags m (rowAt (sheet w) (n_row n)) then
       {| sheet := updRow (sheet w) (n_row n)
                     (flagRow STATUS_TYPES.DELAY ERROR_TYPES.BLOCK_DELAY
                        (clock e (ticks w)));
          ticks := match errorDetected (rowAt (sheet w) (n_row n)) with
                   | Some _ => ticks w
                   | None => S (ticks w)
                   end;
          outbox := outbox w; console := console w;
          seen := seen w |}
     else w).
Proof.
  erewrite bind_Ok by reflexivity. cbn [read BLOCK_HEIGHT].
  fold (lags m (rowAt (sheet w) (n_row n))).
  destruct (lags m (rowAt (sheet w) (n_row n))); [|done].
  apply setNodeError_run.
Qed.

Lemma delay_loop_agree m row nodes e w w0 :
  agreeExcept m row w w0 ->
  exists w' w0',
    forEach nodes (fun node =>
      currentHeight <- getValue (n_row node) BLOCK_HEIGHT ;;
      if JS.truthyNum currentHeight && (default 0 currentHeight <? m) then
        setNodeError (n_row node) STATUS_TYPES.DELAY ERROR_TYPES.BLOCK_DELAY
      else ret tt) e w = (Ok tt, w')
    /\ forEach nodes (fun node =>
         currentHeight <- getValue (n_row node) BLOCK_HEIGHT ;;
         if JS.truthyNum currentHeight && (default 0 currentHeight <? m) then
           setNodeError (n_row node) STATUS_TYPES.DELAY ERROR_TYPES.BLOCK_DELAY
         else ret tt) e w0 = (Ok tt, w0')
    /\ agreeExcept m row w' w0'
    /\ rowAt (sheet w') row = rowAt (sheet w) row
    /\ rowAt (sheet w0') row = rowAt (sheet w0) row.
Proof.
  revert w w0. induction nodes as [|n ns IH]; intros w w0 Hag.
  - by exists w, w0.
  - cbn [forEach]. destruct Hag as (Ht & Hr & H1 & H2).
    rewrite (bind_Ok _ _ e w _ _ (delay_body_run m n e w)).
    rewrite (bind_Ok _ _ e w0 _ _ (delay_body_run m n e w0)).
    destruct (decide (n_row n = row)) as [->|Hne].
    + rewrite H1, H2. apply IH. done.
    + rewrite <- (Hr _ Hne).
      destruct (lags m (rowAt (sheet w) (n_row n))) eqn:E.
      * match goal with
        | |- exists w' w0', forEach _ _ e ?a = _ /\ forEach _ _ e ?b = _ /\ _ =>
            destruct (IH a b) as (w' & w0' & R1 & R2 & Hag' & E1 & E2)
        end.
        { unfold agreeExcept. cbn [sheet ticks]. rewrite Ht. repeat split.
          - intros r Hrr. rewrite !rowAt_updRow.
            case_decide; [subst; by rewrite Hr|by apply Hr].
          - by rewrite rowAt_updRow_ne.
          - by rewrite rowAt_updRow_ne. }
        exists w', w0'. split; [done|]. split; [done|]. split; [done|]. split.
        -- rewrite E1. cbn [sheet]. by rewrite rowAt_updRow_ne.
        -- rewrite E2. cbn [sheet]. by rewrite rowAt_updRow_ne.
      * apply IH. done.
Qed.

Lemma lags_zero m r : blockHeight r = Some 0 -> lags m r = false.
Proof. intros H. unfold lags. by rewrite H. Qed.

(** C10. A row whose stored height is 0 is treated by the detector as a
    row whose height cell is empty: the computed maximum is the same, the
    row itself is never flagged, and every other row comes out the same
    as if the cell were empty.  In Code.js too the row is never flagged. *)
Theorem zero_height_like_missing nodes e w row :
  blockHeight (rowAt (sheet w) row) = Some 0 ->
  let w0 := heightEmptied row w in
  let w' := exec (checkBlockDelay nodes) e w in
  let w0' := exec (checkBlockDelay nodes) e w0 in
  fleetMax (sheet w) nodes = fleetMax (sheet w0) nodes
  /\ rowAt (sheet w') row = rowAt (sheet w) row
  /\ rowAt (sheet w0') row = rowAt (sheet w0) row
  /\ (forall r, r <> row -> rowAt (sheet w') r = rowAt (sheet w0') r)
  /\ rowAt (sheet (exec (CodeJs.checkBlockDelay nodes) e w)) row
     = rowAt (sheet w) row.
Proof.
  intros Hz w0 w' w0'.
  assert (Hag : forall m, agreeExcept m row w w0).
  { intros m. subst w0. unfold agreeExcept, heightEmptied. cbn [sheet ticks].
    repeat split.
    - intros r Hne. by rewrite rowAt_updRow_ne.
    - by apply lags_zero.
    - by rewrite rowAt_updRow_eq. }
  assert (Hmax : fleetMax (sheet w) nodes = fleetMax (sheet w0) nodes).
  { unfold fleetMax. apply (fleetMaxFrom_agree _ _ row).
    - apply (Hag 0).
    - by rewrite Hz.
    - subst w0. unfold heightEmptied. cbn [sheet]. by rewrite rowAt_updRow_eq. }
  split; [exact Hmax|].
  assert (Hmain : rowAt (sheet w') row = rowAt (sheet w) row
                  /\ rowAt (sheet w0') row = rowAt (sheet w0) row
                  /\ forall r, r <> row -> rowAt (sheet w') r = rowAt (sheet w0') r).
  { subst w' w0'. unfold exec, checkBlockDelay.
    erewrite bind_Ok by apply fleetMax_loop.
    erewrite bind_Ok by reflexivity.
    erewrite (bind_Ok _ _ e w0) by apply fleetMax_loop.
    erewrite (bind_Ok _ _ e w0) by reflexivity.
    fold (fleetMax (sheet w) nodes) (fleetMax (sheet w0) nodes).
    rewrite <- Hmax.
    replace (G1 (sheet w0)) with (G1 (sheet w)) by done.
    destruct ((fleetMax (sheet w) nodes =? 0)
              || negb (JS.truthyNum (G1 (sheet w)))).
    - cbn [snd]. repeat split. intros r Hne. by apply (Hag 0).
    - destruct (delay_loop_agree
                  (fleetMax (sheet w) nodes - default 0 (G1 (sheet w)))
                  row nodes e w w0 (Hag _))
        as (v & v0 & -> & -> & Hag' & E1 & E2).
      cbn [snd]. repeat split; try done. apply Hag'. }
  destruct Hmain as (M1 & M2 & M3).
  split; [done|]. split; [done|]. split; [done|].
  destruct (negb (JS.truthyNum (C1 (sheet w)))
            || negb (JS.truthyNum (G1 (sheet w)))) eqn:E.
  - by rewrite CodeJs_checkBlockDelay_idle.
  - destruct (CodeJs_checkBlockDelay_active nodes e w E)
      as (v & Hrun & _ & _ & _ & Hrows).
    unfold exec. rewrite Hrun. cbn [snd]. apply (Hrows row).
    intros [_ Hl]. by rewrite lags_zero in Hl.
Qed.

(** In the sample fleet the row at height 0 is left alone, and the rows
    at 940 and 951 come out as they do when its height cell is empty. *)
Lemma zero_height_like_missing_witness :
  rowAt (sheet (exec (checkBlockDelay fleetNodes) silentEnv fleetWorld)) 7
  = rowAt (sheet fleetWorld) 7
  /\ rowAt (sheet (exec (checkBlockDelay fleetNodes) silentEnv fleetWorld)) 5
     = rowAt (sheet (exec (checkBlockDelay fleetNodes) silentEnv
                       (heightEmptied 7 fleetWorld))) 5.
Proof.
  destruct (zero_height_like_missing fleetNodes silentEnv fleetWorld 7)
    as (_ & H1 & _ & H2 & _).
  - reflexivity.
  - split; [exact H1|]. apply H2. discriminate.
Defined.

(** * Further properties of the script *)

(** ** The prober *)

(** X1. [checkNodeHealth] returns normally and changes nothing, and its
    result is one of four kinds that exclude each other: a timeout (no
    error text), a certificate problem, a plain error (both with an error
    text and empty db and api), or health data.  In health data db and api
    are never empty (an absent or empty field reads "unknown"), unless the
    call failed with an empty text, which passes as health data. *)
Theorem health_result_shape nodeUrl e w :
  exists hr,
    checkNodeHealth nodeUrl e w = (Ok hr, w)
    /\ (hr_timeout hr = true ->
        hr_sslError hr = false /\ hr_error hr = None
        /\ hr_db hr = "" /\ hr_api hr = "")
    /\ (hr_sslError hr = true ->
        hr_timeout hr = false /\ JS.truthyOpt (hr_error hr) = true
        /\ hr_db hr = "" /\ hr_api hr = "")
    /\ (JS.truthyOpt (hr_error hr) = true -> hr_db hr = "" /\ hr_api hr = "")
    /\ (healthFailureText (fetch e (healthUrl nodeUrl)) <> Some "" ->
        healthy hr -> hr_db hr <> "" /\ hr_api hr <> "")
    /\ (healthFailureText (fetch e (healthUrl nodeUrl)) = Some "" ->
        healthy hr /\ hr_db hr = "" /\ hr_api hr = "").
Proof.
  exists (healthOf (fetch e (healthUrl nodeUrl))).
  split; [apply checkNodeHealth_run|].
  assert (Herr : forall errorStr,
            let hr := onHealthError errorStr in
            (hr_timeout hr = true ->
             hr_sslError hr = false /\ hr_error hr = None
             /\ hr_db hr = "" /\ hr_api hr = "")
            /\ (hr_sslError hr = true ->
                hr_timeout hr = false /\ JS.truthyOpt (hr_error hr) = true
                /\ hr_db hr = "" /\ hr_api hr = "")
            /\ (JS.truthyOpt (hr_error hr) = true ->
                hr_db hr = "" /\ hr_api hr = "")
            /\ (Some errorStr <> Some "" ->
                healthy hr -> hr_db hr <> "" /\ hr_api hr <> "")
            /\ (Some errorStr = Some "" ->
                healthy hr /\ hr_db hr = "" /\ hr_api hr = "")).
  { intros errorStr. unfold onHealthError, healthy.
    assert (Hempty : errorStr <> "" \/ errorStr = "")
      by (destruct errorStr; [by right|by left]).
    destruct (JS.includes "timeout" errorStr || JS.includes "Timeout" errorStr)
      eqn:E1; cbn.
    - split; [done|]. split; [discriminate|]. split; [discriminate|].
      split; [by intros _ (? & _)|].
      intros [= ->]. discriminate E1.
    - destruct (JS.includes "certificate" errorStr || JS.includes "SSL" errorStr
                || JS.includes "TLS" errorStr) eqn:E2; cbn.
      + assert (JS.truthyStr errorStr = true).
        { apply truthyStr_nonempty. intros ->. cbn in E2. discriminate E2. }
        split; [discriminate|]. split; [done|]. split; [done|].
        split; [by intros _ (_ & ? & _)|].
        intros [= ->]. discriminate E2.
      + split; [discriminate|]. split; [discriminate|]. split; [done|].
        split.
        * intros Hne (_ & _ & Hf). exfalso. apply Hne. f_equal.
          destruct errorStr; [done|discriminate Hf].
        * by intros [= ->]. }
  assert (Hor : forall v, JS.orElse v "unknown" <> "").
  { intros [s|]; cbn; [|done]. destruct (JS.truthyStr s) eqn:E; [|done].
    intros ->. discriminate E. }
  unfold healthOf, healthFailureText.
  destruct (fetch e (healthUrl nodeUrl)) as [errorStr|code content].
  - apply Herr.
  - destruct (code =? 200); cbn [negb].
    + destruct content as [errorStr| |data]; [apply Herr|apply Herr|].
      unfold healthy. cbn. pose proof (Hor (status_db data)).
      pose proof (Hor (status_apiNode data)).
      split; [discriminate|]. split; [discriminate|]. split; [discriminate|].
      split; [done|discriminate].
    + unfold healthy. cbn.
      split; [discriminate|]. split; [discriminate|]. split; [done|].
      split; [by intros _ (_ & _ & ?)|discriminate].
Qed.

(** A failure with an empty text passes as health data. *)
Lemma health_result_shape_witness :
  exists hr,
    checkNodeHealth "https://a.example:3001"
      (envOf 0 (fun _ => FetchThrows "") "" []) timedOutWorld
    = (Ok hr, timedOutWorld)
    /\ healthy hr /\ hr_db hr = "" /\ hr_api hr = "".
Proof.
  destruct (health_result_shape "https://a.example:3001"
              (envOf 0 (fun _ => FetchThrows "") "" []) timedOutWorld)
    as (hr & Hrun & _ & _ & _ & _ & H).
  exists hr. split; [exact Hrun|]. apply H. reflexivity.
Defined.

Lemma healthOf_failure f errorStr :
  healthFailureText f = Some errorStr -> healthOf f = onHealthError errorStr.
Proof.
  unfold healthFailureText, healthOf.
  destruct f as [s|code content]; [by intros [= ->]|].
  destruct (code =? 200); cbn [negb]; [|done].
  destruct content; by intros [= <-].
Qed.

(** ** What a probe writes *)

(** X2. When the health call fails with a text that names a timeout or a
    certificate problem, the probe puts the row in Error with error type
    Timeout (a timeout is tested first) or the certificate type, empties
    db, api and the block height, writes the detection time only if it was
    empty, keeps the last-notified time, and sends and logs nothing. *)
Theorem failed_probe_clears_health row nodeUrl e w errorStr :
  healthFailureText (fetch e (healthUrl nodeUrl)) = Some errorStr ->
  namesTimeout errorStr || namesCertificate errorStr = true ->
  let w' := exec (monitorNode row nodeUrl) e w in
  let before := rowAt (sheet w) row in
  rowAt (sheet w') row
  = {| url := url before; status := STATUS_TYPES.ERROR;
       errorType := if namesTimeout errorStr then ERROR_TYPES.TIMEOUT
                    else ERROR_TYPES.SSL_CERT;
       db := ""; api := ""; blockHeight := None;
       errorDetected := match errorDetected before with
                        | Some t => Some t
                        | None => Some (clock e (ticks w))
                        end;
       lastNotified := lastNotified before; disabled := disabled before |}
  /\ outbox w' = outbox w /\ console w' = console w.
Proof.
  intros Hf Hn w' before. subst w'. unfold exec.
  pose proof (healthOf_failure _ _ Hf) as Hh.
  unfold namesTimeout, namesCertificate in *.
  destruct (JS.includes "timeout" errorStr || JS.includes "Timeout" errorStr)
    eqn:E1.
  - rewrite monitorNode_timeout.
    + cbn [snd sheet outbox console]. rewrite rowAt_updRow_eq. repeat split.
    + rewrite Hh. unfold onHealthError. by rewrite E1.
  - cbn [orb] in Hn. rewrite monitorNode_sslError.
    + cbn [snd sheet outbox console]. rewrite rowAt_updRow_eq. repeat split.
    + rewrite Hh. unfold onHealthError. by rewrite E1, Hn.
    + rewrite Hh. unfold onHealthError. by rewrite E1, Hn.
Qed.

(** A text naming both a timeout and SSL counts as a timeout; the stored
    height 940 is emptied and the detection time 7 is kept. *)
Lemma failed_probe_clears_health_witness :
  rowAt (sheet (exec (monitorNode 4 "https://a.example:3001")
                  timeoutAndSslEnv alertedWorld)) 4
  = {| url := "https://a.example:3001"; status := "Error";
       errorType := "Timeout"; db := ""; api := ""; blockHeight := None;
       errorDetected := Some 7; lastNotified := Some 9; disabled := "" |}.
Proof.
  apply (failed_probe_clears_health 4 "https://a.example:3001"
           timeoutAndSslEnv alertedWorld
           "Exception: Timeout during SSL handshake"); reflexivity.
Defined.

(** X3. When the health call answers 200 with health data in which db or
    api is not "up" (an absent field reads "unknown"), the probe stores db
    and api as read and the height if one was obtained, puts the row in
    Error with error type DB/API, writes the detection time only if it was
    empty, keeps the last-notified time and sends nothing. *)
Theorem degraded_probe_writes row nodeUrl e w data :
  fetch e (healthUrl nodeUrl) = Response 200 (Json data) ->
  let dbState := JS.orElse (status_db data) "unknown" in
  let apiState := JS.orElse (status_apiNode data) "unknown" in
  dbState <> "up" \/ apiState <> "up" ->
  let w' := exec (monitorNode row nodeUrl) e w in
  let before := rowAt (sheet w) row in
  rowAt (sheet w') row
  = {| url := url before; status := STATUS_TYPES.ERROR;
       errorType := ERROR_TYPES.DB_API; db := dbState; api := apiState;
       blockHeight := match heightOf (fetch e (chainUrl nodeUrl)) with
                      | Some h => Some h
                      | None => blockHeight before
                      end;
       errorDetected := match errorDetected before with
                        | Some t => Some t
                        | None => Some (clock e (ticks w))
                        end;
       lastNotified := lastNotified before; disabled := disabled before |}
  /\ outbox w' = outbox w /\ console w' = console w.
Proof.
  intros Hf dbState apiState Hd w' before. subst w'. unfold exec.
  rewrite monitorNode_degraded.
  - cbn [snd sheet outbox console]. rewrite rowAt_updRow_eq. rewrite Hf.
    repeat split.
  - rewrite Hf. by repeat split.
  - rewrite Hf. unfold degraded. cbn. fold dbState apiState.
    apply orb_true_iff. rewrite !negb_true_iff, !String.eqb_neq. exact Hd.
Qed.

(** A status object without fields puts the node in Error with db and api
    "unknown". *)
Lemma degraded_probe_writes_witness :
  rowAt (sheet (exec (monitorNode 4 "https://a.example:3001") noFieldsEnv
                  alertedWorld)) 4
  = {| url := "https://a.example:3001"; status := "Error";
       errorType := "DB/API"; db := "unknown"; api := "unknown";
       blockHeight := Some 1000; errorDetected := Some 7;
       lastNotified := Some 9; disabled := "" |}.
Proof.
  apply (degraded_probe_writes 4 "https://a.example:3001" noFieldsEnv
           alertedWorld
           {| status_db := None; status_apiNode := None; data_height := None |}).
  - reflexivity.
  - left. discriminate.
Defined.

(** Every probe rewrites its row by some function [f] that keeps the URL
    and the disabled cell and never sets a last-notified time. *)
Lemma monitorNode_shape row nodeUrl e w :
  exists f w',
    monitorNode row nodeUrl e w = (Ok tt, w')
    /\ (forall r, rowAt (sheet w') r
                  = if decide (r = row) then f (rowAt (sheet w) row)
                    else rowAt (sheet w) r)
    /\ C1 (sheet w') = C1 (sheet w) /\ G1 (sheet w') = G1 (sheet w)
    /\ (forall x, url (f x) = url x /\ disabled (f x) = disabled x
                  /\ (lastNotified (f x) = lastNotified x
                      \/ lastNotified (f x) = None))
    /\ (outbox w' = outbox w
        \/ (lastNotified (rowAt (sheet w) row) <> None
            /\ forall x, lastNotified (f x) = None
                         /\ status (f x) = STATUS_TYPES.RUNNING)).
Proof.
  destruct (health_cases (healthOf (fetch e (healthUrl nodeUrl))))
    as [H|[[H1 H2]|[H|[[H Hd]|[H Hd]]]]].
  - rewrite monitorNode_timeout by done. eexists _, _. split; [reflexivity|].
    cbn [sheet outbox]. split; [intros r; apply rowAt_updRow|].
    split; [done|]. split; [done|]. split; [|by left].
    intros x. cbn. split; [done|]. split; [done|]. by left.
  - rewrite monitorNode_sslError by done. eexists _, _. split; [reflexivity|].
    cbn [sheet outbox]. split; [intros r; apply rowAt_updRow|].
    split; [done|]. split; [done|]. split; [|by left].
    intros x. cbn. split; [done|]. split; [done|]. by left.
  - destruct (monitorNode_transportError row nodeUrl e w H) as [line ->].
    exists (fun x => x). eexists. split; [reflexivity|].
    cbn [sheet outbox]. split; [intros r; by case_decide; subst|].
    split; [done|]. split; [done|]. split; [|by left].
    intros x. split; [done|]. split; [done|]. by left.
  - rewrite monitorNode_degraded by done. eexists _, _. split; [reflexivity|].
    cbn [sheet outbox]. split; [intros r; apply rowAt_updRow|].
    split; [done|]. split; [done|]. split; [|by left].
    intros x. cbn. split; [done|]. split; [done|]. by left.
  - destruct (monitorNode_recovered row nodeUrl e w H Hd) as [lines ->].
    eexists _, _. split; [reflexivity|].
    cbn [sheet outbox]. split; [intros r; apply rowAt_updRow|].
    split; [done|]. split; [done|]. split.
    + intros x. cbn. split; [done|]. split; [done|]. by right.
    + unfold recoveryCalls.
      destruct (lastNotified (rowAt (sheet w) row)) as [t|].
      * right. split; [done|]. intros x. by cbn.
      * left. by rewrite !app_nil_r.
Qed.

(** X4. A probe writes to no row but its own, never to the URL or the
    disabled cell, and never to the header cells; it never sets a
    last-notified time (it keeps it or empties it); and it makes a
    transport call only when it empties a last-notified time that was set,
    that is, on the recovery of an alerted node. *)
Theorem probe_footprint row nodeUrl e w r :
  let w' := exec (monitorNode row nodeUrl) e w in
  (r <> row -> rowAt (sheet w') r = rowAt (sheet w) r)
  /\ url (rowAt (sheet w') r) = url (rowAt (sheet w) r)
  /\ disabled (rowAt (sheet w') r) = disabled (rowAt (sheet w) r)
  /\ C1 (sheet w') = C1 (sheet w) /\ G1 (sheet w') = G1 (sheet w)
  /\ (lastNotified (rowAt (sheet w') r) = lastNotified (rowAt (sheet w) r)
      \/ lastNotified (rowAt (sheet w') r) = None)
  /\ (outbox w' <> outbox w ->
      lastNotified (rowAt (sheet w) row) <> None
      /\ lastNotified (rowAt (sheet w') row) = None
      /\ status (rowAt (sheet w') row) = STATUS_TYPES.RUNNING).
Proof.
  intros w'. subst w'. unfold exec.
  destruct (monitorNode_shape row nodeUrl e w)
    as (f & w' & -> & Hrow & Hc & Hg & Hf & Hout).
  cbn [snd]. split; [|split; [|split; [|split; [|split; [|split]]]]];
    try done.
  - intros Hne. rewrite Hrow. by rewrite decide_False.
  - rewrite Hrow. case_decide; [subst; apply Hf|done].
  - rewrite Hrow. case_decide; [subst; apply Hf|done].
  - rewrite Hrow. case_decide; [subst; apply Hf|by left].
  - intros Hne. destruct Hout as [Heq|[Hl Hx]]; [done|].
    rewrite Hrow. rewrite decide_True by done.
    split; [done|]. apply Hx.
Qed.

(** Probing the node of row 5 leaves row 4 as it was. *)
Lemma probe_footprint_witness :
  rowAt (sheet (exec (monitorNode 5 "https://b.example:3001") degradedEnv
                  fleetWorld)) 4
  = rowAt (sheet fleetWorld) 4.
Proof.
  apply (probe_footprint 5 "https://b.example:3001" degradedEnv fleetWorld 4).
  discriminate.
Defined.

(** ** The list of monitored nodes *)

Lemma getLastRow_ge sh r x :
  rows sh !! r = Some x -> hasContent x = true -> (r <= getLastRow sh)%nat.
Proof.
  unfold getLastRow. generalize (rows sh). clear sh. intros m. revert r x.
  apply (map_fold_weak_ind
           (fun acc (m : gmap nat NodeRow) =>
              forall r x, m !! r = Some x -> hasContent x = true ->
                          (r <= acc)%nat)).
  - intros r x H. by rewrite lookup_empty in H.
  - intros i y m0 acc Hi IH r x Hl Hc.
    destruct (decide (r = i)) as [->|Hne].
    + rewrite lookup_insert_eq in Hl. injection Hl as ->. rewrite Hc. lia.
    + rewrite lookup_insert_ne in Hl by done.
      specialize (IH r x Hl Hc). destruct (hasContent y); lia.
Qed.

Lemma monitored_within_last_row sh r :
  monitored (rowAt sh r) = true -> (r <= getLastRow sh)%nat.
Proof.
  unfold rowAt. intros H. destruct (rows sh !! r) as [x|] eqn:E; [|done].
  apply (getLastRow_ge sh r x E). cbn in H.
  unfold monitored in H. apply andb_true_iff in H as [H _].
  apply andb_true_iff in H as [H _]. unfold hasContent. by rewrite H.
Qed.

Lemma monitoring_loop (l : list nat) acc e w :
  forEachAcc l acc
    (fun nodes row =>
       url <- getValue row NODE_URL ;;
       disabled <- getValue row DISABLED ;;
       if JS.truthyStr url && negb (String.eqb (JS.trim url) "")
          && negb (String.eqb disabled "無効") then
         ret (nodes ++ [{| n_row := row; n_url := JS.trim url |}])
       else ret nodes) e w
  = (Ok (acc ++ monitoredNodes (sheet w) l), w).
Proof.
  revert acc. induction l as [|row l IH]; intros acc.
  - cbn. by rewrite !app_nil_r.
  - cbn [forEachAcc]. unfold monitoredNodes. cbn [filter list_filter].
    match goal with
    | |- bind ?m _ e w = _ =>
        assert (Hb : m e w
                     = (Ok (if monitored (rowAt (sheet w) row)
                            then acc ++ [{| n_row := row;
                                            n_url := JS.trim (url (rowAt (sheet w) row)) |}]
                            else acc), w))
    end.
    { erewrite bind_Ok by reflexivity. erewrite bind_Ok by reflexivity.
      cbn [read NODE_URL DISABLED]. unfold monitored.
      match goal with
      | |- (if ?c then _ else _) e w = _ => by destruct c
      end. }
    erewrite bind_Ok by apply Hb. rewrite IH.
    destruct (monitored (rowAt (sheet w) row)) eqn:E.
    + rewrite decide_True by done.
      cbn [map]. unfold monitoredNodes. by rewrite <- app_assoc.
    + by rewrite decide_False.
Qed.

Lemma getMonitoringNodes_exact e w :
  getMonitoringNodes e w
  = (Ok (monitoredNodes (sheet w)
           (seq FIRST_DATA_ROW (getLastRow (sheet w) + 1 - FIRST_DATA_ROW))),
     w).
Proof.
  unfold getMonitoringNodes. erewrite bind_Ok by reflexivity.
  by rewrite monitoring_loop.
Qed.

Lemma monitoredNodes_rows sh l :
  map n_row (monitoredNodes sh l)
  = filter (fun row => monitored (rowAt sh row) = true) l.
Proof. unfold monitoredNodes. rewrite map_map. cbn. apply map_id. Qed.

Lemma listed_monitoredNodes sh r :
  listed (monitoredNodes sh
            (seq FIRST_DATA_ROW (getLastRow sh + 1 - FIRST_DATA_ROW))) r
  <-> (FIRST_DATA_ROW <= r)%nat /\ monitored (rowAt sh r) = true.
Proof.
  unfold listed. rewrite monitoredNodes_rows, list_elem_of_filter.
  rewrite list_elem_of_In, in_seq. split.
  - intros [Hm [Hlo _]]. done.
  - intros [Hlo Hm]. split; [done|].
    pose proof (monitored_within_last_row _ _ Hm). unfold FIRST_DATA_ROW in *.
    lia.
Qed.

(** X5. [getMonitoringNodes] returns normally and changes nothing.  A row
    is in its list iff it is row 4 or later, its URL is not blank and its
    disabled cell is not the marker; no row is listed twice, and every
    node carries the trimmed URL of its row. *)
Theorem monitoring_nodes e w :
  exists nodes,
    getMonitoringNodes e w = (Ok nodes, w)
    /\ (forall r, listed nodes r
                  <-> (FIRST_DATA_ROW <= r)%nat
                      /\ monitored (rowAt (sheet w) r) = true)
    /\ NoDup (map n_row nodes)
    /\ (forall n, n ∈ nodes ->
                  n_url n = JS.trim (url (rowAt (sheet w) (n_row n)))).
Proof.
  eexists. split; [apply getMonitoringNodes_exact|].
  split; [intros r; apply listed_monitoredNodes|]. split.
  - rewrite monitoredNodes_rows. apply NoDup_filter, NoDup_seq.
  - intros n Hin. unfold monitoredNodes in Hin.
    apply list_elem_of_In, in_map_iff in Hin as (row & <- & _). done.
Qed.

(** In the sample sheet rows 4 and 8 are listed, row 8 with its URL
    trimmed of the space and of the ideographic space; the title row, the
    disabled row, the two rows whose URL is white space and the empty row
    are not. *)
Lemma monitoring_nodes_witness :
  exists nodes,
    getMonitoringNodes silentEnv mixedWorld = (Ok nodes, mixedWorld)
    /\ listed nodes 4 /\ listed nodes 8
    /\ ~ listed nodes 2 /\ ~ listed nodes 5 /\ ~ listed nodes 6
    /\ ~ listed nodes 7 /\ ~ listed nodes 9
    /\ ({| n_row := 8; n_url := "https://d.example:3001" |} ∈ nodes).
Proof.
  destruct (monitoring_nodes silentEnv mixedWorld)
    as (nodes & Hrun & Hl & _ & Hurl).
  exists nodes. split; [exact Hrun|].
  assert (H8 : listed nodes 8).
  { apply Hl. split; [unfold FIRST_DATA_ROW; lia|reflexivity]. }
  split; [apply Hl; split; [unfold FIRST_DATA_ROW; lia|reflexivity]|].
  split; [exact H8|].
  assert (Hno : forall r,
            (FIRST_DATA_ROW <= r)%nat ->
            monitored (rowAt (sheet mixedWorld) r) = false ->
            ~ listed nodes r).
  { intros r _ Hf H. apply Hl in H as [_ Hm]. congruence. }
  split; [intros H; apply Hl in H as [Hlo _]; unfold FIRST_DATA_ROW in Hlo; lia|].
  split; [apply Hno; [unfold FIRST_DATA_ROW; lia|reflexivity]|].
  split; [apply Hno; [unfold FIRST_DATA_ROW; lia|reflexivity]|].
  split; [apply Hno; [unfold FIRST_DATA_ROW; lia|reflexivity]|].
  split; [apply Hno; [unfold FIRST_DATA_ROW; lia|reflexivity]|].
  unfold listed in H8. apply list_elem_of_fmap in H8 as (n & Hrow & Hin).
  specialize (Hurl n Hin). rewrite <- Hrow in Hurl.
  destruct n as [nr nu]. cbn [n_row n_url] in Hrow, Hurl. subst nr nu.
  exact Hin.
Defined.

(** ** What a pass leaves alone *)

Lemma frame_refl P sh : frame P sh sh.
Proof. by repeat split. Qed.

Lemma frame_trans P sh1 sh2 sh3 :
  frame P sh1 sh2 -> frame P sh2 sh3 -> frame P sh1 sh3.
Proof.
  intros (Hc & Hg & Hu & Hr) (Hc' & Hg' & Hu' & Hr').
  split; [congruence|]. split; [congruence|]. split.
  - intros r. destruct (Hu r), (Hu' r). split; congruence.
  - intros r Hn. rewrite Hr' by done. by apply Hr.
Qed.

Lemma frame_weaken (P Q : nat -> Prop) sh sh' :
  (forall r, P r -> Q r) -> frame P sh sh' -> frame Q sh sh'.
Proof.
  intros HPQ (Hc & Hg & Hu & Hr). split; [done|]. split; [done|].
  split; [done|]. intros r Hn. apply Hr. intros HP. by apply Hn, HPQ.
Qed.

Lemma unstamped_refl sh : unstamped sh sh.
Proof. intros r. by left. Qed.

Lemma unstamped_trans sh1 sh2 sh3 :
  unstamped sh1 sh2 -> unstamped sh2 sh3 -> unstamped sh1 sh3.
Proof.
  intros H1 H2 r. destruct (H2 r) as [H|H]; [|by right].
  rewrite H. apply H1.
Qed.

Lemma monitorNode_frame row nodeUrl e w :
  exists w',
    monitorNode row nodeUrl e w = (Ok tt, w')
    /\ frame (eq row) (sheet w) (sheet w')
    /\ unstamped (sheet w) (sheet w')
    /\ (lastNotified (rowAt (sheet w) row) = None -> outbox w' = outbox w).
Proof.
  destruct (monitorNode_shape row nodeUrl e w)
    as (f & w' & Hrun & Hrow & Hc & Hg & Hf & Hout).
  exists w'. split; [done|]. split; [|split].
  - split; [done|]. split; [done|]. split.
    + intros r. rewrite Hrow. case_decide; [subst|done].
      destruct (Hf (rowAt (sheet w) row)) as (Hu & Hd & _). done.
    + intros r Hn. rewrite Hrow. by rewrite decide_False by congruence.
  - intros r. rewrite Hrow. case_decide; [subst|by left].
    destruct (Hf (rowAt (sheet w) row)) as (_ & _ & Hl). done.
  - intros Hnone. destruct Hout as [H|[H _]]; [done|]. by destruct H.
Qed.

Lemma probes_frame nodes e w :
  exists w',
    forEach nodes (fun node => monitorNode (n_row node) (n_url node)) e w
    = (Ok tt, w')
    /\ frame (listed nodes) (sheet w) (sheet w')
    /\ unstamped (sheet w) (sheet w')
    /\ ((forall r, listed nodes r -> lastNotified (rowAt (sheet w) r) = None)
        -> outbox w' = outbox w).
Proof.
  revert w. induction nodes as [|n ns IH]; intros w.
  - exists w. split; [done|]. split; [apply frame_refl|].
    split; [apply unstamped_refl|done].
  - cbn [forEach].
    destruct (monitorNode_frame (n_row n) (n_url n) e w)
      as (w1 & H1 & Hf1 & Hu1 & Ho1).
    erewrite bind_Ok by apply H1.
    destruct (IH w1) as (w' & Hrun & Hf & Hu & Ho).
    exists w'. split; [done|]. split; [|split].
    + apply frame_trans with (sheet w1).
      * eapply frame_weaken; [|apply Hf1]. intros r <-.
        apply listed_cons. by left.
      * eapply frame_weaken; [|apply Hf]. intros r Hr.
        apply listed_cons. by right.
    + by apply unstamped_trans with (sheet w1).
    + intros Hnone. rewrite Ho.
      * apply Ho1, Hnone, listed_cons. by left.
      * intros r Hr. destruct (Hu1 r) as [H|H]; [|done].
        rewrite H. apply Hnone, listed_cons. by right.
Qed.

Lemma checkBlockDelay_frame nodes e w :
  exists w',
    checkBlockDelay nodes e w = (Ok tt, w')
    /\ frame (listed nodes) (sheet w) (sheet w')
    /\ (forall r, lastNotified (rowAt (sheet w') r)
                  = lastNotified (rowAt (sheet w) r))
    /\ outbox w' = outbox w.
Proof.
  destruct ((fleetMax (sheet w) nodes =? 0)
            || negb (JS.truthyNum (G1 (sheet w)))) eqn:E.
  - rewrite checkBlockDelay_idle by done. exists w. split; [done|].
    split; [apply frame_refl|done].
  - destruct (checkBlockDelay_active nodes e w E)
      as (w' & Hrun & Hc & Hg & Ho & Hrows).
    exists w'. split; [done|].
    set (m := fleetMax (sheet w) nodes - default 0 (G1 (sheet w))) in *.
    assert (Hrow : forall r,
              rowAt (sheet w') r = rowAt (sheet w) r
              \/ listed nodes r
                 /\ exists now,
                      rowAt (sheet w') r
                      = flagRow STATUS_TYPES.DELAY ERROR_TYPES.BLOCK_DELAY now
                          (rowAt (sheet w) r)).
    { intros r. destruct (Hrows r) as [Hyes Hno].
      destruct (decide (listed nodes r)) as [Hl|Hl].
      - destruct (lags m (rowAt (sheet w) r)) eqn:El.
        + right. split; [done|]. by apply Hyes.
        + left. apply Hno. intros [_ H]. congruence.
      - left. apply Hno. by intros [H _]. }
    split; [|split; [|done]].
    + split; [done|]. split; [done|]. split.
      * intros r. destruct (Hrow r) as [->|[_ [now ->]]]; done.
      * intros r Hn. destruct (Hrow r) as [->|[Hl _]]; done.
    + intros r. destruct (Hrow r) as [->|[_ [now ->]]]; done.
Qed.

Lemma processNotifications_frame nodes e w :
  exists w',
    processNotifications nodes e w = (Ok tt, w')
    /\ frame (listed nodes) (sheet w) (sheet w').
Proof.
  destruct (processNotifications_run nodes e w) as [lines Hrun].
  rewrite Hrun. eexists. split; [reflexivity|].
  destruct (notificationTargets _ _ _) as [|t ts] eqn:E.
  - apply frame_refl.
  - cbn [sheet]. rewrite <- E.
    split; [|split; [|split]].
    + clear. generalize (notificationTargets (clock e (ticks w)) (sheet w) nodes).
      intros l. generalize (sheet w).
      induction l as [|x l IH]; intros sh; [done|]. rewrite stamp_cons, IH. done.
    + clear. generalize (notificationTargets (clock e (ticks w)) (sheet w) nodes).
      intros l. generalize (sheet w).
      induction l as [|x l IH]; intros sh; [done|]. rewrite stamp_cons, IH. done.
    + intros r. rewrite rowAt_stamp. by case_decide.
    + intros r Hn. rewrite rowAt_stamp. rewrite decide_False; [done|].
      intros Hin. apply target_rows in Hin as [Hl _]. done.
Qed.

(** X6. A pass over a sheet leaves the two header cells alone, edits no
    URL and no disabled cell, and changes nothing in a row that is above
    row 4, has a blank URL or is marked disabled. *)
Theorem pass_frame sheetName enableNotification e w :
  frame (fun r => (FIRST_DATA_ROW <= r)%nat
                  /\ monitored (rowAt (sheet w) r) = true)
        (sheet w)
        (sheet (exec (processSheet sheetName enableNotification) e w)).
Proof.
  unfold exec, processSheet.
  erewrite bind_Ok by apply getMonitoringNodes_exact.
  pose proof (listed_monitoredNodes (sheet w)) as Hl.
  set (nodes := monitoredNodes _ _) in *.
  destruct (length nodes =? 0)%nat; [apply frame_refl|].
  eapply frame_weaken; [intros r; apply Hl|].
  destruct (probes_frame nodes e w) as (w1 & H1 & Hf1 & _).
  erewrite bind_Ok by apply H1.
  destruct (checkBlockDelay_frame nodes e w1) as (w2 & H2 & Hf2 & _).
  erewrite bind_Ok by apply H2.
  destruct enableNotification.
  - destruct (processNotifications_frame nodes e w2) as (w3 & H3 & Hf3).
    rewrite H3. cbn [snd].
    apply frame_trans with (sheet w2); [|done].
    by apply frame_trans with (sheet w1).
  - cbn [snd]. by apply frame_trans with (sheet w1).
Qed.

(** X7. A pass without notifications (as [main] runs it on the testnet
    sheet) writes no alert time: every last-notified cell keeps its value
    or is emptied. *)
Theorem pass_without_notifications_never_stamps sheetName e w :
  unstamped (sheet w) (sheet (exec (processSheet sheetName false) e w)).
Proof.
  unfold exec, processSheet.
  erewrite bind_Ok by apply getMonitoringNodes_exact.
  set (nodes := monitoredNodes _ _).
  destruct (length nodes =? 0)%nat; [apply unstamped_refl|].
  destruct (probes_frame nodes e w) as (w1 & H1 & _ & Hu1 & _).
  erewrite bind_Ok by apply H1.
  destruct (checkBlockDelay_frame nodes e w1) as (w2 & H2 & _ & Hl2 & _).
  erewrite bind_Ok by apply H2. cbn [snd].
  intros r. rewrite Hl2. apply Hu1.
Qed.

Lemma rowAt_sheetOf (Q : NodeRow -> Prop) reference threshold l r :
  Q blankRow -> Forall (fun p => Q p.2) l ->
  Q (rowAt (sheetOf reference threshold l) r).
Proof.
  intros Hb Hl. unfold rowAt, sheetOf. cbn [rows].
  destruct (list_to_map l !! r) as [x|] eqn:E; [|done].
  apply elem_of_list_to_map_2 in E.
  rewrite Forall_forall in Hl. by apply (Hl (r, x)).
Qed.

(** X8. A pass without notifications over a sheet none of whose monitored
    rows carries an alert time makes no transport call at all. *)
Theorem quiet_pass_sends_nothing sheetName e w :
  (forall r, (FIRST_DATA_ROW <= r)%nat ->
             monitored (rowAt (sheet w) r) = true ->
             lastNotified (rowAt (sheet w) r) = None) ->
  outbox (exec (processSheet sheetName false) e w) = outbox w.
Proof.
  intros Hnone. unfold exec, processSheet.
  erewrite bind_Ok by apply getMonitoringNodes_exact.
  pose proof (listed_monitoredNodes (sheet w)) as Hl.
  set (nodes := monitoredNodes _ _) in *.
  destruct (length nodes =? 0)%nat; [done|].
  destruct (probes_frame nodes e w) as (w1 & H1 & _ & _ & Ho1).
  erewrite bind_Ok by apply H1.
  destruct (checkBlockDelay_frame nodes e w1) as (w2 & H2 & _ & _ & Ho2).
  erewrite bind_Ok by apply H2. unfold ret. cbn [snd].
  rewrite Ho2. apply Ho1. intros r Hr. apply Hl in Hr as [Hlo Hm].
  by apply Hnone.
Qed.

(** With chat configured and the node of row 4 recovering, the pass over
    the sample sheet sends nothing. *)
Lemma quiet_pass_sends_nothing_witness :
  outbox (exec (processSheet "testnet" false) chatAndMailEnv mixedWorld) = [].
Proof.
  apply (quiet_pass_sends_nothing "testnet" chatAndMailEnv mixedWorld).
  intros r _ _.
  apply (rowAt_sheetOf (fun x => lastNotified x = None)); [reflexivity|].
  repeat constructor.
Defined.

(** ** The scheduler *)

(** X9. A row that [processNotifications] has just alerted is not due
    again at any time less than the interval after its alert time. *)
Theorem no_realert_within_interval nodes e w r now' :
  r ∈ map t_row (notificationTargets (clock e (ticks w)) (sheet w) nodes) ->
  now' - clock e (S (ticks w)) < NOTIFICATION_INTERVAL ->
  due now' (rowAt (sheet (exec (processNotifications nodes) e w)) r) = false.
Proof.
  intros Hin Hlt. unfold exec.
  destruct (processNotifications_run nodes e w) as [lines Hrun].
  rewrite Hrun. cbn [snd].
  destruct (notificationTargets _ _ _) as [|t ts] eqn:E.
  { by apply not_elem_of_nil in Hin. }
  cbn [sheet]. rewrite rowAt_stamp, decide_True by done.
  apply not_true_is_false. intros Hdue. apply due_iff in Hdue as [_ Hd].
  cbn [write LAST_NOTIFIED lastNotified] in Hd.
  destruct Hd as [Hd|(t0 & Ht & Hle)]; [done|].
  injection Ht as <-. lia.
Qed.

(** Row 4 of the sample sheet is alerted at time 10000001 and is not due
    29 minutes later. *)
Lemma no_realert_within_interval_witness :
  due (10000001 + 29 * 60 * 1000)
      (rowAt (sheet (exec (processNotifications fleetNodes) schedulerEnv
                          schedulerWorld)) 4)
  = false.
Proof.
  apply (no_realert_within_interval fleetNodes schedulerEnv schedulerWorld 4).
  - apply target_rows. split; [unfold listed; apply list_elem_of_In; cbn; tauto|reflexivity].
  - vm_compute. reflexivity.
Defined.

(** X10. After [processNotifications] every listed row that is not
    running carries an alert time. *)
Theorem alerted_after_scheduler nodes e w r :
  listed nodes r ->
  status (rowAt (sheet (exec (processNotifications nodes) e w)) r)
  <> STATUS_TYPES.RUNNING ->
  lastNotified (rowAt (sheet (exec (processNotifications nodes) e w)) r)
  <> None.
Proof.
  unfold exec.
  destruct (processNotifications_run nodes e w) as [lines Hrun].
  rewrite Hrun. cbn [snd]. intros Hl.
  set (targets := notificationTargets (clock e (ticks w)) (sheet w) nodes).
  assert (Hcase : r ∈ map t_row targets
                  \/ ((r ∉ map t_row targets)
                      /\ (status (rowAt (sheet w) r) <> STATUS_TYPES.RUNNING ->
                          lastNotified (rowAt (sheet w) r) <> None))).
  { destruct (decide (r ∈ map t_row targets)) as [Hin|Hnin]; [by left|right].
    split; [done|]. intros Hs Hnone. apply Hnin, target_rows.
    split; [done|]. apply due_iff. split; [done|by left]. }
  destruct targets as [|t ts] eqn:E.
  - cbn [sheet]. destruct Hcase as [Hin|[_ H]]; [|done].
    by apply not_elem_of_nil in Hin.
  - cbn [sheet]. rewrite rowAt_stamp.
    destruct Hcase as [Hin|[Hnin H]].
    + rewrite decide_True by done. done.
    + rewrite decide_False by done. done.
Qed.

(** Row 5 of the sample sheet, alerted 20 minutes before, is outside the
    batch and still carries its alert time. *)
Lemma alerted_after_scheduler_witness :
  lastNotified (rowAt (sheet (exec (processNotifications fleetNodes)
                                schedulerEnv schedulerWorld)) 5)
  <> None.
Proof.
  apply (alerted_after_scheduler fleetNodes schedulerEnv schedulerWorld 5).
  - unfold listed. apply list_elem_of_In. cbn. tauto.
  - vm_compute. discriminate.
Defined.

(** ** The block-delay detector *)

Lemma fleetMaxFrom_heights sh sh' nodes acc :
  (forall r, blockHeight (rowAt sh' r) = blockHeight (rowAt sh r)) ->
  fleetMaxFrom sh' nodes acc = fleetMaxFrom sh nodes acc.
Proof.
  intros H. revert acc. induction nodes as [|n ns IH]; intros acc; [done|].
  cbn [fleetMaxFrom fold_left].
  fold (fleetMaxFrom sh ns) (fleetMaxFrom sh' ns). rewrite H. apply IH.
Qed.

Lemma checkBlockDelay_rows nodes e w :
  let flagged r :=
    listed nodes r
    /\ (fleetMax (sheet w) nodes =? 0)
       || negb (JS.truthyNum (G1 (sheet w))) = false
    /\ lags (fleetMax (sheet w) nodes - default 0 (G1 (sheet w)))
            (rowAt (sheet w) r) = true in
  exists w',
    checkBlockDelay nodes e w = (Ok tt, w')
    /\ C1 (sheet w') = C1 (sheet w) /\ G1 (sheet w') = G1 (sheet w)
    /\ outbox w' = outbox w
    /\ forall r,
        (flagged r ->
         exists now,
           rowAt (sheet w') r
           = flagRow STATUS_TYPES.DELAY ERROR_TYPES.BLOCK_DELAY now
               (rowAt (sheet w) r))
        /\ (~ flagged r -> rowAt (sheet w') r = rowAt (sheet w) r).
Proof.
  intros flagged. subst flagged. cbv beta.
  destruct ((fleetMax (sheet w) nodes =? 0)
            || negb (JS.truthyNum (G1 (sheet w)))) eqn:E.
  - rewrite checkBlockDelay_idle by done. exists w. split; [done|].
    split; [done|]. split; [done|]. split; [done|]. intros r.
    split; [by intros (_ & H & _)|done].
  - destruct (checkBlockDelay_active nodes e w E)
      as (w' & Hrun & Hc & Hg & Ho & Hrows).
    exists w'. split; [done|]. split; [done|]. split; [done|]. split; [done|].
    intros r. destruct (Hrows r) as [Hyes Hno]. split.
    + intros (Hl & _ & Hlag). by apply Hyes.
    + intros Hn. apply Hno. intros [Hl Hlag]. by apply Hn.
Qed.

(** X11. Running [checkBlockDelay] a second time changes no cell and
    sends nothing: the detector is idempotent on the sheet. *)
Theorem checkBlockDelay_idempotent nodes e w :
  let w1 := exec (checkBlockDelay nodes) e w in
  let w2 := exec (checkBlockDelay nodes) e w1 in
  (forall r, rowAt (sheet w2) r = rowAt (sheet w1) r)
  /\ C1 (sheet w2) = C1 (sheet w1) /\ G1 (sheet w2) = G1 (sheet w1)
  /\ outbox w2 = outbox w.
Proof.
  unfold exec.
  destruct (checkBlockDelay_rows nodes e w) as (w1 & H1 & Hc1 & Hg1 & Ho1 & Hr1).
  rewrite H1. cbn [snd].
  destruct (checkBlockDelay_rows nodes e w1) as (w2 & H2 & Hc2 & Hg2 & Ho2 & Hr2).
  rewrite H2. cbn [snd].
  split; [|split; [done|split; [done|congruence]]].
  assert (Hh : forall r, blockHeight (rowAt (sheet w1) r)
                         = blockHeight (rowAt (sheet w) r)).
  { intros r. destruct (Hr1 r) as [Hyes Hno].
    match type of Hyes with
    | ?P -> _ => destruct (decide P) as [HP|HP]
    end.
    - destruct (Hyes HP) as [now ->]. done.
    - by rewrite Hno. }
  assert (Hm : fleetMax (sheet w1) nodes = fleetMax (sheet w) nodes).
  { by apply fleetMaxFrom_heights. }
  intros r. destruct (Hr1 r) as [Hyes1 Hno1]. destruct (Hr2 r) as [Hyes2 Hno2].
  rewrite Hm, Hg1 in Hyes2, Hno2. unfold lags in Hyes2, Hno2.
  rewrite Hh in Hyes2, Hno2.
  fold (lags (fleetMax (sheet w) nodes - default 0 (G1 (sheet w)))
             (rowAt (sheet w) r)) in Hyes2, Hno2.
  match type of Hyes1 with
  | ?P -> _ => destruct (decide P) as [HP|HP]
  end.
  - destruct (Hyes1 HP) as [now1 Hrow1]. destruct (Hyes2 HP) as [now2 Hrow2].
    rewrite Hrow2, Hrow1. apply flagRow_flagRow.
  - by apply Hno2.
Qed.



(** ** The wording of the messages *)

Lemma prefix_char c a s :
  String.prefix (String c "") (String a s) = Ascii.eqb c a.
Proof.
  cbn. destruct (ascii_dec c a) as [->|Hne].
  - rewrite Ascii.eqb_refl. by destruct s.
  - symmetry. by apply Ascii.eqb_neq.
Qed.

Lemma includes_char_cons c a s :
  JS.includes (String c "") (String a s)
  = Ascii.eqb c a || JS.includes (String c "") s.
Proof. cbn [JS.includes]. by rewrite prefix_char. Qed.

Lemma includes_char_nil c : JS.includes (String c "") "" = false.
Proof. reflexivity. Qed.

Lemma splitHead_free sep s :
  JS.includes (String sep "") (splitHead sep s) = false.
Proof.
  induction s as [|a s IH]; [done|]. cbn [splitHead].
  destruct (Ascii.eqb a sep) eqn:E; [done|].
  rewrite includes_char_cons, IH, Ascii.eqb_sym, E. done.
Qed.

Lemma splitHead_keeps_free c sep s :
  JS.includes (String c "") s = false ->
  JS.includes (String c "") (splitHead sep s) = false.
Proof.
  induction s as [|a s IH]; [done|]. rewrite includes_char_cons.
  intros H. apply orb_false_iff in H as [H1 H2]. cbn [splitHead].
  destruct (Ascii.eqb a sep); [done|].
  by rewrite includes_char_cons, H1, IH.
Qed.

Lemma splitHead_id sep s :
  JS.includes (String sep "") s = false -> splitHead sep s = s.
Proof.
  induction s as [|a s IH]; [done|]. rewrite includes_char_cons.
  intros H. apply orb_false_iff in H as [H1 H2]. cbn [splitHead].
  rewrite Ascii.eqb_sym, H1. by rewrite IH.
Qed.

Lemma append_cons a (s rest : string) :
  String a s +:+ rest = String a (s +:+ rest).
Proof. reflexivity. Qed.

Lemma splitHead_app sep host rest :
  JS.includes (String sep "") host = false ->
  splitHead sep (host +:+ rest) = host +:+ splitHead sep rest.
Proof.
  induction host as [|a s IH]; [done|]. rewrite includes_char_cons.
  intros H. apply orb_false_iff in H as [H1 H2].
  rewrite !append_cons. cbn [splitHead]. rewrite Ascii.eqb_sym, H1. by rewrite IH.
Qed.

Lemma append_nil_r (s : string) : s +:+ "" = s.
Proof. induction s as [|a s IH]; [done|]. by rewrite append_cons, IH. Qed.

Lemma splitHead_sep sep host rest :
  JS.includes (String sep "") host = false ->
  splitHead sep (host +:+ String sep rest) = host.
Proof.
  intros H. rewrite splitHead_app by done. cbn [splitHead].
  rewrite Ascii.eqb_refl. apply append_nil_r.
Qed.

Lemma dropPrefix_Some p s rest : dropPrefix p s = Some rest -> s = p +:+ rest.
Proof.
  revert s. induction p as [|a p IH]; intros s; cbn [dropPrefix].
  - intros [= ->]. reflexivity.
  - destruct s as [|b s]; [done|]. destruct (Ascii.eqb a b) eqn:E; [|done].
    apply Ascii.eqb_eq in E as ->. intros H. by rewrite (IH _ H).
Qed.

Lemma dropScheme_free s :
  JS.includes ":" s = false -> dropScheme s = s.
Proof.
  intros H. unfold dropScheme.
  destruct (dropPrefix "https://" s) as [rest|] eqn:E.
  { apply dropPrefix_Some in E. subst s. rewrite !append_cons in H.
    rewrite !includes_char_cons in H. cbn in H.
    rewrite ?orb_true_r in H. discriminate H. }
  destruct (dropPrefix "http://" s) as [rest|] eqn:E2; [|done].
  apply dropPrefix_Some in E2. subst s. rewrite !append_cons in H.
  rewrite !includes_char_cons in H. cbn in H.
  rewrite ?orb_true_r in H. discriminate H.
Qed.

(** X13. The domain that [extractDomainFromUrl] returns contains neither
    a colon nor a slash, and extracting the domain of a domain returns it
    unchanged. *)
Theorem domain_has_no_port_or_path nodeUrl :
  let domain := extractDomainFromUrl nodeUrl in
  JS.includes ":" domain = false
  /\ JS.includes "/" domain = false
  /\ extractDomainFromUrl domain = domain.
Proof.
  intros domain.
  assert (H1 : JS.includes ":" domain = false).
  { apply splitHead_keeps_free, splitHead_free. }
  assert (H2 : JS.includes "/" domain = false) by apply splitHead_free.
  split; [done|]. split; [done|].
  unfold extractDomainFromUrl at 1. rewrite dropScheme_free by done.
  rewrite (splitHead_id ":") by done. by apply splitHead_id.
Qed.

(** X14. For a URL made of the scheme http or https, a host without
    colon and slash, and then nothing, a port or a path,
    [extractDomainFromUrl] returns the host. *)
Theorem domain_of_node_url scheme host tail :
  scheme = "http://" \/ scheme = "https://" ->
  JS.includes ":" host = false ->
  JS.includes "/" host = false ->
  (tail = "" \/ exists c rest, (c = ":"%char \/ c = "/"%char)
                               /\ tail = String c rest) ->
  extractDomainFromUrl (scheme +:+ host +:+ tail) = host.
Proof.
  intros Hs Hc Hp Ht. unfold extractDomainFromUrl.
  assert (Hd : dropScheme (scheme +:+ host +:+ tail) = host +:+ tail).
  { destruct Hs as [->| ->]; reflexivity. }
  rewrite Hd. destruct Ht as [->|(c & rest & [->| ->] & ->)].
  - rewrite append_nil_r, (splitHead_id ":") by done. by apply splitHead_id.
  - rewrite splitHead_sep by done. by apply splitHead_id.
  - rewrite splitHead_app by done. apply splitHead_sep. done.
Qed.

Lemma domain_of_node_url_witness :
  extractDomainFromUrl "https://a.example:3001/node/health" = "a.example".
Proof.
  apply (domain_of_node_url "https://" "a.example" ":3001/node/health").
  - by right.
  - reflexivity.
  - reflexivity.
  - right. exists ":"%char, "3001/node/health". split; [by left|reflexivity].
Defined.

Lemma append_assoc (a b c : string) : (a +:+ b) +:+ c = a +:+ (b +:+ c).
Proof. induction a as [|x a IH]; [done|]. by rewrite !append_cons, IH. Qed.

Lemma prefix_append sub rest : String.prefix sub (sub +:+ rest) = true.
Proof.
  induction sub as [|a sub IH]; [by destruct rest|].
  rewrite append_cons. cbn. by destruct (ascii_dec a a).
Qed.

Lemma includes_append sub before rest :
  JS.includes sub (before +:+ sub +:+ rest) = true.
Proof.
  induction before as [|a s IH].
  - change ("" +:+ sub +:+ rest) with (sub +:+ rest).
    destruct (sub +:+ rest) eqn:E; cbn [JS.includes]; rewrite <- E;
      by rewrite prefix_append.
  - rewrite append_cons. cbn [JS.includes]. rewrite IH. apply orb_true_r.
Qed.

Lemma createNotificationMessage_from calendar targets message :
  fold_left
    (fun message target =>
       message
       +:+ ("URL: " +:+ t_url target +:+ newline)
       +:+ ("ステータス: " +:+ t_status target +:+ newline)
       +:+ ("エラータイプ: " +:+ t_errorType target +:+ newline)
       +:+ ("エラー検出日時: "
            +:+ formatDateTime (calendar <$> t_errorDetected target)
            +:+ newline)
       +:+ newline)
    targets message
  = message
    +:+ fold_right (fun target rest => targetBlock calendar target +:+ rest)
          "" targets.
Proof.
  revert message. induction targets as [|t ts IH]; intros message.
  - cbn [fold_left fold_right]. by rewrite append_nil_r.
  - cbn [fold_left fold_right]. rewrite IH. unfold targetBlock.
    by rewrite !append_assoc.
Qed.

Lemma includes_block sub (blocks : list string) :
  sub ∈ blocks ->
  forall before,
    JS.includes sub
      (before +:+ fold_right (fun b rest => b +:+ rest) "" blocks) = true.
Proof.
  induction blocks as [|b bs IH]; intros Hin before.
  - by apply not_elem_of_nil in Hin.
  - apply elem_of_cons in Hin as [->|Hin]; cbn [fold_right].
    + apply includes_append.
    + rewrite <- append_assoc. by apply IH.
Qed.

Lemma targetBlock_included calendar targets target :
  target ∈ targets ->
  JS.includes (targetBlock calendar target)
              (createNotificationMessage calendar targets) = true.
Proof.
  intros Hin. unfold createNotificationMessage.
  rewrite createNotificationMessage_from.
  replace (fold_right (fun t rest => targetBlock calendar t +:+ rest) "" targets)
    with (fold_right (fun b rest => b +:+ rest) ""
            (map (targetBlock calendar) targets)).
  - apply includes_block. apply list_elem_of_In, in_map. by apply list_elem_of_In.
  - clear. induction targets as [|t ts IH]; [done|]. cbn. by rewrite IH.
Qed.

(** X15. The alert message reports every target of the batch: it
    contains the target's block of four lines (URL, status, error type and
    detection time) followed by an empty line; and it is the message of
    the first targets followed by the blocks of the others. *)
Theorem alert_message_reports_every_target calendar targets target others :
  target ∈ targets ->
  JS.includes (targetBlock calendar target)
              (createNotificationMessage calendar targets) = true
  /\ createNotificationMessage calendar (targets ++ others)
     = createNotificationMessage calendar targets
       +:+ fold_right (fun t rest => targetBlock calendar t +:+ rest) "" others.
Proof.
  intros Hin. split; [by apply targetBlock_included|].
  unfold createNotificationMessage. rewrite fold_left_app.
  apply createNotificationMessage_from.
Qed.

Lemma alert_message_reports_every_target_witness :
  JS.includes
    ("URL: https://a.example:3001" +:+ newline
     +:+ "ステータス: Error" +:+ newline
     +:+ "エラータイプ: Timeout" +:+ newline
     +:+ "エラー検出日時: 2026/11/02 08:05:09" +:+ newline +:+ newline)
    (createNotificationMessage sampleCalendar timedOutTargets) = true.
Proof.
  apply (alert_message_reports_every_target sampleCalendar timedOutTargets
           (targetOf (sheet timedOutWorld)
              {| n_row := 4; n_url := "https://a.example:3001" |}) []).
  apply elem_of_cons. by left.
Defined.

Lemma toString_inj a b : JS.toString a = JS.toString b -> a = b.
Proof.
  unfold JS.toString. intros H. apply DecimalZ.to_int_inj.
  assert (Hn : forall z, Z.to_int z <> Decimal.Pos Decimal.Nil
                         /\ Z.to_int z <> Decimal.Neg Decimal.Nil).
  { intros [|p|p]; cbn; split; try discriminate;
      intros [= Hp]; by apply (DecimalPos.Unsigned.to_uint_nonnil p). }
  destruct (Hn a) as [Ha1 Ha2]. destruct (Hn b) as [Hb1 Hb2].
  pose proof (NilZero.isi _ Ha1 Ha2) as Ea.
  pose proof (NilZero.isi _ Hb1 Hb2) as Eb.
  rewrite H in Ea. congruence.
Qed.

Lemma pad2_table :
  forallb (fun i =>
    (String.length (padStart 2 "0" (JS.toString (Z.of_nat i))) =? 2)%nat
    && forallb (fun j =>
         implb (String.eqb (padStart 2 "0" (JS.toString (Z.of_nat i)))
                           (padStart 2 "0" (JS.toString (Z.of_nat j))))
               (i =? j)%nat)
         (seq 0 100))
    (seq 0 100) = true.
Proof. vm_compute. reflexivity. Qed.

Lemma pad2_length n :
  0 <= n <= 99 -> String.length (padStart 2 "0" (JS.toString n)) = 2%nat.
Proof.
  intros Hn. pose proof pad2_table as H. rewrite forallb_forall in H.
  specialize (H (Z.to_nat n)). rewrite Z2Nat.id in H by lia.
  assert (Hin : In (Z.to_nat n) (seq 0 100)) by (apply in_seq; lia).
  apply H, andb_true_iff in Hin as [Hl _]. by apply Nat.eqb_eq.
Qed.

Lemma pad2_inj a b :
  0 <= a <= 99 -> 0 <= b <= 99 ->
  padStart 2 "0" (JS.toString a) = padStart 2 "0" (JS.toString b) -> a = b.
Proof.
  intros Ha Hb Heq. pose proof pad2_table as H. rewrite forallb_forall in H.
  specialize (H (Z.to_nat a)). rewrite Z2Nat.id in H by lia.
  assert (Hin : In (Z.to_nat a) (seq 0 100)) by (apply in_seq; lia).
  apply H, andb_true_iff in Hin as [_ Hj]. rewrite forallb_forall in Hj.
  specialize (Hj (Z.to_nat b)). rewrite Z2Nat.id in Hj by lia.
  assert (Hin : In (Z.to_nat b) (seq 0 100)) by (apply in_seq; lia).
  apply Hj in Hin. rewrite Heq, String.eqb_refl in Hin. cbn in Hin.
  apply Nat.eqb_eq in Hin. lia.
Qed.

Lemma length_append (a b : string) :
  String.length (a +:+ b) = (String.length a + String.length b)%nat.
Proof. induction a as [|x a IH]; [done|]. rewrite append_cons. cbn. by rewrite IH. Qed.

Lemma append_inj_length (a a' b b' : string) :
  String.length a = String.length a' ->
  a +:+ b = a' +:+ b' -> a = a' /\ b = b'.
Proof.
  revert a'. induction a as [|x a IH]; intros [|x' a'] Hl Heq; try done.
  rewrite !append_cons in Heq. injection Heq as -> Heq.
  injection Hl as Hl. destruct (IH a' Hl Heq) as [-> ->]. done.
Qed.

(** X16. For a date whose fields are in the ranges of the getters,
    [formatDateTime] writes the year followed by fifteen characters, and
    two dates that are written alike have the same fields; a missing date
    is written as the empty string. *)
Theorem formatDateTime_unambiguous d1 d2 :
  calendarFields d1 -> calendarFields d2 ->
  String.length (formatDateTime (Some d1))
  = (String.length (JS.toString (getFullYear d1)) + 15)%nat
  /\ (formatDateTime (Some d1) = formatDateTime (Some d2) -> d1 = d2)
  /\ formatDateTime None = "".
Proof.
  intros (Hm1 & Hd1 & Hh1 & Hi1 & Hs1) (Hm2 & Hd2 & Hh2 & Hi2 & Hs2).
  assert (Hlen : forall d, calendarFields d ->
            String.length (formatDateTime (Some d))
            = (String.length (JS.toString (getFullYear d)) + 15)%nat).
  { intros d (Hm & Hd & Hh & Hi & Hs). unfold formatDateTime.
    rewrite !length_append, !pad2_length by lia. cbn. lia. }
  split; [apply Hlen; done|]. split; [|done].
  intros Heq.
  assert (Hy : String.length (JS.toString (getFullYear d1))
               = String.length (JS.toString (getFullYear d2))).
  { pose proof (Hlen d1) as L1. pose proof (Hlen d2) as L2.
    rewrite Heq in L1. rewrite L1 in L2 by done. specialize (L2 ltac:(done)).
    lia. }
  unfold formatDateTime in Heq.
  apply append_inj_length in Heq as [Ey Heq]; [|done].
  apply append_inj_length in Heq as [_ Heq]; [|done].
  apply append_inj_length in Heq as [Em Heq]; [|by rewrite !pad2_length by lia].
  apply append_inj_length in Heq as [_ Heq]; [|done].
  apply append_inj_length in Heq as [Ed Heq]; [|by rewrite !pad2_length by lia].
  apply append_inj_length in Heq as [_ Heq]; [|done].
  apply append_inj_length in Heq as [Eh Heq]; [|by rewrite !pad2_length by lia].
  apply append_inj_length in Heq as [_ Heq]; [|done].
  apply append_inj_length in Heq as [Ei Es]; [|by rewrite !pad2_length by lia].
  apply append_inj_length in Es as [_ Es]; [|done].
  apply toString_inj in Ey. apply pad2_inj in Em; [|lia|lia].
  apply pad2_inj in Ed; [|lia|lia]. apply pad2_inj in Eh; [|lia|lia].
  apply pad2_inj in Ei; [|lia|lia]. apply pad2_inj in Es; [|lia|lia].
  destruct d1, d2. cbn in *. f_equal; lia.
Qed.

Lemma formatDateTime_unambiguous_witness :
  String.length (formatDateTime (Some sampleDate)) = 19%nat.
Proof.
  destruct (formatDateTime_unambiguous sampleDate sampleDate) as (H & _).
  - unfold calendarFields. cbn. lia.
  - unfold calendarFields. cbn. lia.
  - rewrite H. reflexivity.
Defined.

(** ** Reporting a failure of the script *)

Lemma notifyError_run errorMessage e w :
  exists lines,
    notifyError errorMessage e w
    = (Ok tt,
       {| sheet := sheet w; ticks := ticks w;
          outbox := outbox w ++ (if slackConfigured e then
                          [slackCall e (Wording ("System Error: " +:+ errorMessage))]
                        else
                          mailCalls e
                            (Wording "⚠️ Symbol Node Monitoring - System Error")
                            (Wording errorMessage));
          console := console w ++ lines;
          seen := seen w
                  ++ seenBy (sheet w) (if slackConfigured e then [slackCall e
                       (Wording ("System Error: " +:+ errorMessage))] else
                       mailCalls e (Wording
                       "⚠️ Symbol Node Monitoring - System Error") (Wording
                       errorMessage)) |}).
Proof.
  unfold notifyError.
  erewrite bind_Ok by apply checkSlackConfiguration_run.
  destruct (slackConfigured e) eqn:Hs; cbn [negb].
  - erewrite bind_Ok by reflexivity.
    destruct (slack_step_run "エラー通知の送信に失敗: "
                (Wording ("System Error: " +:+ errorMessage)) e w)
      as [lines ->].
    exists lines. unfold slackCalls. by rewrite Hs.
  - destruct (mail_step_run "エラー通知の送信に失敗: "
                (Wording "⚠️ Symbol Node Monitoring - System Error")
                (Wording errorMessage) e w) as [l1 H1].
    erewrite bind_Ok by apply H1.
    match goal with
    | |- context [tryCatch _ _ e ?w0] =>
        destruct (slack_step_run "エラー通知の送信に失敗: "
                    (Wording ("System Error: " +:+ errorMessage)) e w0)
          as [l2 ->]
    end.
    exists (l1 ++ l2). cbn. unfold slackCalls. rewrite Hs.
    by rewrite !app_nil_r, app_assoc.
Qed.

(** X17. [notifyError] returns normally whatever the transports do, and
    leaves the sheet alone.  It makes one chat call if chat is configured;
    otherwise one mail call if an operator address resolves; otherwise no
    call. *)
Theorem notifyError_one_channel errorMessage e w :
  result (notifyError errorMessage) e w = Ok tt
  /\ sheet (exec (notifyError errorMessage) e w) = sheet w
  /\ outbox (exec (notifyError errorMessage) e w)
     = outbox w
       ++ (if slackConfigured e then
             [slackCall e (Wording ("System Error: " +:+ errorMessage))]
           else
             match operatorAddress e with
             | Some a =>
                 [SendEmail a (Wording "⚠️ Symbol Node Monitoring - System Error")
                    (Wording errorMessage)]
             | None => []
             end).
Proof.
  unfold result, exec.
  destruct (notifyError_run errorMessage e w) as [lines ->]. done.
Qed.

(** X18. In the earlier snapshot the mail and the chat message of
    [notifyError] share one [try]: when the mail call throws, no chat call
    is made, although chat is configured. *)
Theorem CodeJs_notifyError_mail_failure_skips_chat errorMessage e w a err :
  operatorAddress e = Some a ->
  transportThrows e
    (SendEmail a (Wording "Symbolノード監視 - システムエラー")
       (Wording errorMessage)) = Some err ->
  CodeJs.notifyError errorMessage e w
  = (Ok tt,
     {| sheet := sheet w; ticks := ticks w;
        outbox := outbox w ++ [SendEmail a (Wording "Symbolノード監視 - システムエラー")
                        (Wording errorMessage)];
        console := console w ++ ["エラー通知の送信に失敗: " +:+ err];
        seen := seen w
                ++ seenBy (sheet w) [SendEmail a (Wording
                     "Symbolノード監視 - システムエラー") (Wording errorMessage)] |}).
Proof.
  intros Ha Hthrow. unfold CodeJs.notifyError, tryCatch.
  destruct (resolveEmail_truthy e w) as (email & Hrun & Hyes & Hno).
  erewrite bind_Ok by apply Hrun.
  destruct (JS.truthyOpt email) eqn:E.
  - specialize (Hyes eq_refl). rewrite Ha in Hyes. injection Hyes as Hyes.
    rewrite <- Hyes. unfold bind at 1. unfold transport at 1.
    rewrite Hthrow. reflexivity.
  - specialize (Hno eq_refl). congruence.
Qed.

(** With chat and an address configured and every transport failing, the
    only call is the mail. *)
Lemma CodeJs_notifyError_mail_failure_skips_chat_witness :
  outbox (exec (CodeJs.notifyError "boom") (failingTransports chatAndMailEnv)
               timedOutWorld)
  = [SendEmail "ops@example.org" (Wording "Symbolノード監視 - システムエラー")
       (Wording "boom")]
  /\ slackConfigured (failingTransports chatAndMailEnv) = true.
Proof.
  split; [|reflexivity]. unfold exec.
  rewrite (CodeJs_notifyError_mail_failure_skips_chat "boom"
             (failingTransports chatAndMailEnv) timedOutWorld
             "ops@example.org" "Exception: Request failed");
    reflexivity.
Defined.

(** ** The entry point *)

Lemma processSheet_returns sheetName enableNotification e w :
  result (processSheet sheetName enableNotification) e w = Ok tt.
Proof.
  unfold result, processSheet.
  erewrite bind_Ok by apply getMonitoringNodes_exact.
  set (nodes := monitoredNodes _ _).
  destruct (length nodes =? 0)%nat; [done|].
  destruct (probes_frame nodes e w) as (w1 & H1 & _).
  erewrite bind_Ok by apply H1.
  destruct (checkBlockDelay_frame nodes e w1) as (w2 & H2 & _).
  erewrite bind_Ok by apply H2.
  destruct enableNotification; [|done].
  destruct (processNotifications_frame nodes e w2) as (w3 & H3 & _).
  by rewrite H3.
Qed.

Lemma Book_processSheet_run sheetName enableNotification e b :
  Book.processSheet sheetName enableNotification e b
  = (Ok tt,
     match sheets b !! sheetName with
     | None =>
         {| sheets := sheets b; s_ticks := s_ticks b; s_outbox := s_outbox b;
            s_console := s_console b
                         ++ ["シート " +:+ sheetName +:+ " が見つかりません"];
            s_seen := s_seen b |}
     | Some sh =>
         let w := exec (processSheet sheetName enableNotification) e
                       (Book.worldOn sh b) in
         {| sheets := <[sheetName := sheet w]> (sheets b);
            s_ticks := ticks w; s_outbox := outbox w;
            s_console := console w; s_seen := seen w |}
     end).
Proof.
  unfold Book.processSheet.
  destruct (sheets b !! sheetName) as [sh|]; [|reflexivity].
  unfold Book.onSheet, exec.
  pose proof (processSheet_returns sheetName enableNotification e
                (Book.worldOn sh b)) as Hr.
  unfold result in Hr.
  destruct (processSheet sheetName enableNotification e (Book.worldOn sh b))
    as [r w]. cbn in Hr. by subst r.
Qed.

Lemma Book_main_run e b :
  Book.main e b
  = Book.processSheet "testnet" false e
      (snd (Book.processSheet "mainnet" true e b)).
Proof.
  unfold Book.main, Book.tryCatch, Book.bind.
  rewrite (Book_processSheet_run "mainnet"). cbn [snd].
  by rewrite (Book_processSheet_run "testnet").
Qed.

(** X19. [main] returns normally and is the pass over the sheet mainnet
    followed by the pass without notifications over the sheet testnet: no
    failure of a probe or of a transport call reaches its handler, so
    that the console and the outbox hold nothing of [notifyError]. *)
Theorem main_runs_both_passes e b :
  fst (Book.main e b) = Ok tt
  /\ Book.main e b
     = Book.processSheet "testnet" false e
         (snd (Book.processSheet "mainnet" true e b)).
Proof.
  split; [|apply Book_main_run].
  rewrite Book_main_run. by rewrite (Book_processSheet_run "testnet").
Qed.

(** X20. [main] changes no sheet other than mainnet and testnet, creates
    no sheet and removes none; a sheet that is missing costs one console
    line and nothing else. *)
Theorem main_footprint e b :
  let b' := snd (Book.main e b) in
  (forall name, name <> "mainnet" -> name <> "testnet" ->
                sheets b' !! name = sheets b !! name)
  /\ (forall name, sheets b' !! name = None <-> sheets b !! name = None)
  /\ (sheets b !! "mainnet" = None -> sheets b !! "testnet" = None ->
      b' = {| sheets := sheets b; s_ticks := s_ticks b;
              s_outbox := s_outbox b;
              s_console := s_console b
                           ++ ["シート mainnet が見つかりません";
                               "シート testnet が見つかりません"];
              s_seen := s_seen b |}).
Proof.
  intros b'. subst b'. rewrite Book_main_run.
  rewrite (Book_processSheet_run "testnet"). cbn [snd].
  rewrite (Book_processSheet_run "mainnet"). cbn [snd].
  set (b1 := match sheets b !! "mainnet" with
             | Some sh => _ | None => _ end).
  assert (H1 : forall name, name <> "mainnet" ->
                            sheets b1 !! name = sheets b !! name).
  { intros name Hn. subst b1. destruct (sheets b !! "mainnet"); [|done].
    cbn [sheets]. by rewrite lookup_insert_ne. }
  assert (H1n : forall name, sheets b1 !! name = None
                             <-> sheets b !! name = None).
  { intros name. destruct (decide (name = "mainnet")) as [->|Hn].
    - subst b1. destruct (sheets b !! "mainnet") eqn:E; [|done].
      cbn [sheets]. rewrite lookup_insert_eq. done.
    - by rewrite H1. }
  split; [|split].
  - intros name Hm Ht. rewrite <- H1 by done.
    destruct (sheets b1 !! "testnet"); [|done].
    cbn [sheets]. by rewrite lookup_insert_ne.
  - intros name. rewrite <- H1n.
    destruct (sheets b1 !! "testnet") eqn:E; [|done]. cbn [sheets].
    destruct (decide (name = "testnet")) as [->|Hn].
    + rewrite lookup_insert_eq, E. done.
    + by rewrite lookup_insert_ne.
  - intros Hm Ht. rewrite <- (H1 "testnet") in Ht by done. rewrite Ht.
    subst b1. rewrite Hm. cbn. by rewrite <- app_assoc.
Qed.

(** ** What the notices say *)

Lemma bodyOf_dispatched e subject message c :
  c ∈ dispatched e subject message -> bodyOf c = message.
Proof.
  unfold dispatched, slackCall, mailCalls.
  destruct (slackConfigured e).
  - destruct (JS.truthyOpt _); intros H; apply elem_of_cons in H as [->|H];
      try done; by apply not_elem_of_nil in H.
  - destruct (operatorAddress e); intros H.
    + apply elem_of_cons in H as [->|H]; [done|]. by apply not_elem_of_nil in H.
    + by apply not_elem_of_nil in H.
Qed.

(** X21. Every call that [processNotifications] makes carries a text
    that reports every listed row that was due: the block of the row with
    its URL, status, error type and detection time as the sheet held them
    when the batch was collected. *)
Theorem alert_reports_every_due_row calendar nodes e w :
  exists calls,
    outbox (exec (processNotifications nodes) e w) = outbox w ++ calls
    /\ forall c node,
         c ∈ calls -> node ∈ nodes ->
         due (clock e (ticks w)) (rowAt (sheet w) (n_row node)) = true ->
         JS.includes (targetBlock calendar (targetOf (sheet w) node))
                     (wording calendar (bodyOf c)) = true.
Proof.
  unfold exec.
  destruct (processNotifications_run nodes e w) as [lines ->]. cbn [snd].
  set (targets := notificationTargets (clock e (ticks w)) (sheet w) nodes).
  assert (Hin : forall node, node ∈ nodes ->
            due (clock e (ticks w)) (rowAt (sheet w) (n_row node)) = true ->
            targetOf (sheet w) node ∈ targets).
  { intros node Hn Hdue. subst targets. unfold notificationTargets.
    apply list_elem_of_In, in_map, list_elem_of_In, list_elem_of_filter. done. }
  destruct targets as [|t ts] eqn:E.
  - exists []. cbn [outbox]. split; [by rewrite app_nil_r|].
    intros c node Hc. by apply not_elem_of_nil in Hc.
  - eexists. cbn [outbox]. split; [reflexivity|].
    intros c node Hc Hn Hdue. rewrite (bodyOf_dispatched _ _ _ _ Hc).
    cbn [wording]. apply targetBlock_included. by apply Hin.
Qed.

(** In the sample sheet row 4 is due; the mail that the scheduler sends
    reports it. *)
Lemma alert_reports_every_due_row_witness :
  exists c,
    outbox (exec (processNotifications fleetNodes) schedulerEnv schedulerWorld)
    = [c]
    /\ JS.includes
         ("URL: https://a.example:3001" +:+ newline
          +:+ "ステータス: Error" +:+ newline
          +:+ "エラータイプ: Timeout" +:+ newline
          +:+ "エラー検出日時: 2026/11/02 08:05:09" +:+ newline +:+ newline)
         (wording sampleCalendar (bodyOf c)) = true.
Proof.
  destruct (alert_reports_every_due_row sampleCalendar fleetNodes schedulerEnv
              schedulerWorld) as (calls & Hout & Hall).
  eexists. split; [reflexivity|].
  apply (Hall _ {| n_row := 4; n_url := "https://a.example:3001" |}).
  - assert (Hc : calls = outbox (exec (processNotifications fleetNodes)
                                  schedulerEnv schedulerWorld))
      by (rewrite Hout; reflexivity).
    rewrite Hc. apply elem_of_cons. left. reflexivity.
  - apply elem_of_cons. by left.
  - reflexivity.
Defined.

Lemma includes_after sub before rest :
  JS.includes sub rest = true -> JS.includes sub (before +:+ rest) = true.
Proof.
  intros H. induction before as [|a s IH]; [done|].
  rewrite append_cons. cbn [JS.includes]. rewrite IH. apply orb_true_r.
Qed.

Lemma includes_prefix3 a b c rest :
  JS.includes (a +:+ b +:+ c) (a +:+ b +:+ c +:+ rest) = true.
Proof.
  rewrite <- (append_assoc b c rest), <- (append_assoc a (b +:+ c) rest).
  apply (includes_append _ "").
Qed.

(** X22. Every call that [clearNodeError] makes carries a text that
    names the URL held by the row and the time of the recovery as
    [formatDateTime] writes it. *)
Theorem recovery_notice_names_node calendar row e w :
  exists calls,
    outbox (exec (clearNodeError row) e w) = outbox w ++ calls
    /\ forall c,
         c ∈ calls ->
         JS.includes ("URL: " +:+ url (rowAt (sheet w) row) +:+ newline)
                     (wording calendar (bodyOf c)) = true
         /\ JS.includes
              ("復旧確認日時: "
               +:+ formatDateTime (Some (calendar (clock e (ticks w))))
               +:+ newline)
              (wording calendar (bodyOf c)) = true.
Proof.
  unfold exec. destruct (clearNodeError_run row e w) as [lines ->]. cbn [snd outbox].
  eexists. split; [reflexivity|]. intros c Hc. unfold recoveryCalls in Hc.
  destruct (lastNotified (rowAt (sheet w) row)); [|by apply not_elem_of_nil in Hc].
  rewrite (bodyOf_dispatched _ _ _ _ Hc). cbn [wording]. split.
  - do 3 apply includes_after. apply includes_prefix3.
  - do 8 apply includes_after. apply includes_prefix3.
Qed.

(** The recovery of the alerted node of the sample sheet is announced by
    one mail, which names it. *)
Lemma recovery_notice_names_node_witness :
  exists c,
    outbox (exec (clearNodeError 4) healthyEnv alertedWorld) = [c]
    /\ JS.includes ("URL: https://a.example:3001" +:+ newline)
                   (wording sampleCalendar (bodyOf c)) = true.
Proof.
  destruct (recovery_notice_names_node sampleCalendar 4 healthyEnv alertedWorld)
    as (calls & Hout & Hall).
  eexists. split; [reflexivity|].
  assert (Hc : calls = outbox (exec (clearNodeError 4) healthyEnv alertedWorld))
    by (rewrite Hout; reflexivity).
  apply Hall. rewrite Hc. apply elem_of_cons. left. reflexivity.
Defined.

(** ** The invariant over a whole run *)

(** X23. A run of [main] keeps every sheet that was there, and preserves
    the record invariant on every row of every sheet. *)
Theorem main_preserves_invariant e b name sh r :
  sheets b !! name = Some sh ->
  invariant (rowAt sh r) ->
  exists sh',
    sheets (snd (Book.main e b)) !! name = Some sh'
    /\ invariant (rowAt sh' r).
Proof.
  intros Hsh Hinv. rewrite Book_main_run.
  assert (Hstep : forall sheetName enableNotification b0 sh0,
            sheets b0 !! name = Some sh0 ->
            invariant (rowAt sh0 r) ->
            exists sh1,
              sheets (snd (Book.processSheet sheetName enableNotification e b0))
              !! name = Some sh1
              /\ invariant (rowAt sh1 r)).
  { intros sheetName enableNotification b0 sh0 H0 Hinv0.
    rewrite Book_processSheet_run. cbn [snd].
    destruct (sheets b0 !! sheetName) as [shn|] eqn:E.
    - cbn [sheets]. destruct (decide (name = sheetName)) as [->|Hne].
      + rewrite lookup_insert_eq. eexists. split; [reflexivity|].
        assert (shn = sh0) as -> by congruence.
        apply (pass_invariant sheetName enableNotification e
                 (Book.worldOn sh0 b0) r Hinv0).
      + rewrite lookup_insert_ne by done. by exists sh0.
    - by exists sh0. }
  destruct (Hstep "mainnet" true b sh Hsh Hinv) as (sh1 & H1 & Hinv1).
  by apply Hstep with sh1.
Qed.

(** Row 4 of the sheet mainnet of the sample spreadsheet satisfies the
    invariant after a run. *)
Lemma main_preserves_invariant_witness :
  exists sh',
    sheets (snd (Book.main schedulerEnv sampleBook)) !! "mainnet" = Some sh'
    /\ invariant (rowAt sh' 4).
Proof.
  apply (main_preserves_invariant schedulerEnv sampleBook "mainnet"
           (sheet schedulerWorld) 4).
  - reflexivity.
  - vm_compute. split; split; intros H; try discriminate H.
    destruct H as [H _]. discriminate H.
Defined.

(** ** The subject of an alert *)

(** X24. For batches of other sizes than one, the subject of the alert
    tells the number of targets and nothing else about them: two such
    batches have the same subject iff they have the same size. *)
Theorem alert_subject_tells_the_count targets targets' emoji type :
  length targets <> 1%nat -> length targets' <> 1%nat ->
  createNotificationSubject targets emoji type
  = createNotificationSubject targets' emoji type
  <-> length targets = length targets'.
Proof.
  intros H1 H2.
  assert (Hs : forall l : list Target, length l <> 1%nat ->
            createNotificationSubject l emoji type
            = emoji +:+ " Symbol Node Monitoring - " +:+ type +:+ " - "
              +:+ JS.toString (Z.of_nat (length l)) +:+ " nodes").
  { intros [|t [|t' l]] Hl; [done| |done]. by destruct Hl. }
  rewrite (Hs _ H1), (Hs _ H2). split; [|by intros ->].
  intros Heq.
  do 4 apply String.app_inj in Heq.
  assert (Hlen : String.length (JS.toString (Z.of_nat (length targets)))
                 = String.length (JS.toString (Z.of_nat (length targets')))).
  { apply (f_equal String.length) in Heq. rewrite !length_append in Heq. lia. }
  apply append_inj_length in Heq as [Heq _]; [|done].
  apply toString_inj in Heq. lia.
Qed.

Lemma alert_subject_tells_the_count_witness :
  createNotificationSubject [] "🚨" "Error"
  <> createNotificationSubject (timedOutTargets ++ timedOutTargets) "🚨" "Error".
Proof.
  intros H.
  apply (alert_subject_tells_the_count [] (timedOutTargets ++ timedOutTargets))
    in H; [discriminate H|cbn; lia|cbn; lia].
Defined.
